(** * ai-personality: the conversation store, the scoring engine and the
      interaction engine, embedded from the Python sources

    Sources embedded here:
    - [src/core/data_storage.py]   (module [Store])
    - [src/core/elo_calculator.py] (module [Elo])
    - [src/core/ai_module.py], [src/core/interaction.py] (module [Interaction])

    Conventions of the embedding.
    - A Python [str] is the list of its Unicode code points ([pystr]).
      [str.lower], [str.isspace], the regular-expression word class and the
      case-insensitive comparison of the [re] module belong to the Python
      runtime; they are the fields of the class [Runtime].
    - A Python exception is a constructor of [exn]; code that can raise lives
      in the error monad [py], and [try_] is [try ... except].
    - A [datetime] is an integer number of microseconds since the epoch, a
      [timedelta] an integer number of microseconds.
    - A Python [float] that carries a score is a real number: rounding is
      not modelled.
    - Anything that the outside world decides (clock readings, random draws,
      the model provider, the transport, the file system) is an explicit
      argument of the function that consumes it. *)

From Stdlib Require Import ZArith QArith Qround Ascii String Reals Psatz Lia.
From stdpp Require Import base option list gmap strings pretty.

Set Default Proof Using "Type".

(** ** Python strings *)

Abbreviation pystr := (list N).

(** [u s] reads an ASCII literal as a Python string. *)
Definition u (s : string) : pystr :=
  N_of_ascii <$> String.list_ascii_of_string s.

(** [str(z)] for an integer. *)
Definition str_of_int (z : Z) : pystr := u (pretty z).

(** Truthiness of a [str]: non-empty. *)
Definition truthy_str (s : pystr) : bool :=
  match s with [] => false | _ => true end.

(** ** Exceptions and the error monad *)

Inductive exn : Set :=
| JSONDecodeError | ValueError | FileNotFoundError | OSError
| TypeError | AttributeError | KeyError | IndexError | RuntimeError.

Inductive exn_class : Set :=
| CJSONDecodeError | CValueError | CFileNotFoundError | COSError
| CTypeError | CAttributeError | CKeyError | CIndexError | CException.

(** [isinstance(e, cls)] along the class hierarchy of the standard library:
    [JSONDecodeError <: ValueError], [FileNotFoundError <: OSError], and
    everything modelled here is an [Exception]. *)
Definition isinstance (e : exn) (c : exn_class) : bool :=
  match c, e with
  | CException, _ => true
  | CJSONDecodeError, JSONDecodeError => true
  | CValueError, (JSONDecodeError | ValueError) => true
  | CFileNotFoundError, FileNotFoundError => true
  | COSError, (FileNotFoundError | OSError) => true
  | CTypeError, TypeError => true
  | CAttributeError, AttributeError => true
  | CKeyError, KeyError => true
  | CIndexError, IndexError => true
  | _, _ => false
  end.

Inductive py (A : Type) : Type :=
| Return (a : A)
| Raise (e : exn).
Arguments Return {A} a.
Arguments Raise {A} e.

#[global] Instance py_ret : MRet py := fun _ a => Return a.
#[global] Instance py_bind : MBind py := fun _ _ f m =>
  match m with Return a => f a | Raise e => Raise e end.

(** [try: body except ...: handler]; the handler re-raises what no clause
    matches. *)
Definition try_ {A} (body : py A) (handler : exn -> py A) : py A :=
  match body with Return a => Return a | Raise e => handler e end.

Definition returns {A} (m : py A) : Prop := exists a, m = Return a.

(** ** data_storage.py *)

Module Store.

(** [STATS_KEYS] *)
Definition STATS_KEYS : list string :=
  ["text"; "photo"; "video"; "voice"; "other_media"]%string.

(** What [datetime.fromisoformat] makes of the stored ["timestamp"]: the key
    is missing or empty, the text does not parse, or it is an instant.  The
    writers of this repository always store an instant with its UTC offset. *)
Inductive stamp : Set :=
| NoStamp
| BadStamp
| At (t : Z).

(** One entry of ["messages"], with the keys [_format_message_data] and
    [_send_message_with_delay] write.  A missing ["message_id"] is [None],
    a missing ["text"] is the empty string (both are falsy). *)
Record message : Set := Message {
  message_id : option Z;
  sender : pystr;
  timestamp : stamp;
  text : pystr;
  is_forward : bool;
  forward_source : option pystr;
  reply_to_message_id : option Z;
  media_attached : bool;
  photo_attached : bool
}.

(** A value of ["aggregated_stats"]: an integer, or something on which
    [> 0] and [+ 1] raise [TypeError] (a string, a list, [null], ...). *)
Inductive stat : Set :=
| Count (n : Z)
| NotANumber.

(** A key of the document: missing, present with a value of another JSON
    type than the code expects, or present and well-typed. *)
Inductive field (A : Type) : Type :=
| Absent
| Mistyped
| Present (a : A).
Arguments Absent {A}.
Arguments Mistyped {A}.
Arguments Present {A} a.

(** The JSON object of one thread, as [json.load] returns it. *)
Record document : Type := Document {
  chat_id : option Z;
  chat_title : option pystr;
  aggregated_stats : field (gmap string stat);
  messages : field (list message)
}.

(** The top-level JSON value of a file. *)
Inductive json_top : Type :=
| JsonNull
| JsonOther                (* an array, a string, a number, true or false *)
| Object (d : document).

(** The file of one thread: absent, or present with the outcome of
    [open(...)] followed by [json.load] (a value, [JSONDecodeError] for
    malformed text, another exception for an unreadable file). *)
Inductive file_state : Type :=
| NoFile
| FileWith (content : py json_top).

(** [{key: 0 for key in STATS_KEYS}] *)
Definition zero_stats : gmap string stat :=
  foldr (fun key m => <[key := Count 0]> m) ∅ STATS_KEYS.

Definition default_structure (cid : Z) : document :=
  {| chat_id := Some cid;
     chat_title := Some (u "Unknown Chat " ++ str_of_int cid);
     aggregated_stats := Present zero_stats;
     messages := Present [] |}.

Definition with_title (d : document) (t : pystr) : document :=
  {| chat_id := chat_id d; chat_title := Some t;
     aggregated_stats := aggregated_stats d; messages := messages d |}.

(** Lines 63-81 of [load_chat_history]: the repair of a parsed value.  On a
    value that is not an object, [in] or the item assignment raises. *)
Definition validate (cid : Z) (data : json_top) : py document :=
  match data with
  | JsonNull | JsonOther => Raise TypeError
  | Object d =>
      let stats0 :=
        match aggregated_stats d with
        | Present s => s
        | Absent | Mistyped => zero_stats
        end in
      let stats :=
        foldl (fun s key =>
                 match s !! key with
                 | None => <[key := Count 0]> s
                 | Some _ => s
                 end) stats0 STATS_KEYS in
      let msgs :=
        match messages d with
        | Present l => l
        | Absent | Mistyped => []
        end in
      let cid' := match chat_id d with None => Some cid | Some c => Some c end in
      let title :=
        match chat_title d with
        | None => Some (str_of_int cid)     (* chat_dir.name is never empty *)
        | Some t => Some t
        end in
      Return {| chat_id := cid'; chat_title := title;
                aggregated_stats := Present stats; messages := Present msgs |}
  end.

Definition load_chat_history (cid : Z) (fs : file_state) : py document :=
  let default := default_structure cid in
  match fs with
  | NoFile => Return default
  | FileWith content =>
      try_ (data ← content; validate cid data)
        (fun e =>
           if isinstance e CJSONDecodeError
           then Return (with_title default (u "Error Loading Chat " ++ str_of_int cid))
           else if isinstance e CException
           then Return (with_title default (u "Error Loading Chat " ++ str_of_int cid))
           else Raise e)
  end.

(** The structure [append_message_to_history] starts from after a
    [JSONDecodeError]. *)
Definition corrupted_structure (cid : Z) : document :=
  with_title (default_structure cid) (u "Corrupted Chat " ++ str_of_int cid).

(** What [open(filepath, "w")] followed by [json.dump] does to the file: it
    is replaced; or nothing is touched ([mkdir] or [open] raised); or the
    file was truncated and the dump raised, which leaves text that no longer
    parses.  In the last two cases the exception is caught and logged. *)
Inductive write_outcome : Set :=
| Saved
| Refused
| Torn.

Definition write_file (fs : file_state) (d : document) (w : write_outcome)
  : file_state :=
  match w with
  | Saved => FileWith (Return (Object d))
  | Refused => fs
  | Torn => FileWith (Raise JSONDecodeError)
  end.

(** [any(m.get("message_id") == msg_id for m in ...)] *)
Definition id_occurs (msgs : list message) (msg_id : Z) : bool :=
  existsb (fun m => bool_decide (message_id m = Some msg_id)) msgs.

(** [stats[key] = stats.get(key, 0) + 1] on the value [setdefault] returned:
    a value that is not a dict has no [get], and a count that is not a
    number cannot be added to. *)
Definition bump (key : string) (stats : field (gmap string stat))
  : py (field (gmap string stat)) :=
  match stats with
  | Present s =>
      match default (Count 0) (s !! key) with
      | Count n => Return (Present (<[key := Count (n + 1)]> s))
      | NotANumber => Raise TypeError
      end
  | Absent | Mistyped => Raise AttributeError
  end.

(** Lines 276-297: the change made in memory.  [None] is an early
    [return]: nothing is written. *)
Definition append_in_memory (md : message) (history_data : json_top)
  : py (option document) :=
  match history_data with
  | JsonNull => Return None                 (* history_data is None *)
  | JsonOther => Raise AttributeError       (* no .get, no .setdefault *)
  | Object d =>
      duplicate ←
        match message_id md with
        | Some msg_id =>
            if (0 <? msg_id)%Z then
              match messages d with
              | Absent => Return false
              | Present l => Return (id_occurs l msg_id)
              | Mistyped => Raise TypeError  (* not a list of dicts *)
              end
            else Return false
        | None => Return false
        end;
      if (duplicate : bool) then Return None
      else
        msgs ←
          match messages d with
          | Absent => Return [md]
          | Present l => Return (l ++ [md])
          | Mistyped => Raise AttributeError (* no .append *)
          end;
        let stats0 :=
          match aggregated_stats d with
          | Absent => Present zero_stats
          | other => other
          end in
        stats1 ← (if truthy_str (text md) then bump "text" stats0 else Return stats0);
        stats2 ← (if photo_attached md then bump "photo" stats1 else Return stats1);
        Return (Some {| chat_id := chat_id d; chat_title := chat_title d;
                        aggregated_stats := stats2; messages := Present msgs |})
  end.

(** [append_message_to_history]; [message_data = None] stands for an empty
    or missing dict.  The result pairs the file afterwards with what the
    coroutine does: it returns, or lets an exception escape.

    Every lock of this module is taken and released around blocking file
    operations only, never across an [await] that suspends; a lock is
    therefore free whenever it is requested, no [await] of the coroutine
    yields to the event loop, and a call runs from its first line to its
    last without another call in between.  A run of the store is a
    sequence of calls. *)
Definition append_message_to_history (cid : Z) (fs : file_state)
    (message_data : option message) (w : write_outcome)
  : file_state * py unit :=
  match message_data with
  | None => (fs, Return tt)
  | Some md =>
      let loaded : py (option json_top) :=
        try_
          (match fs with
           | FileWith content => data ← content; Return (Some data)
           | NoFile => Return (Some (Object (default_structure cid)))
           end)
          (fun e =>
             if isinstance e CJSONDecodeError
             then Return (Some (Object (corrupted_structure cid)))
             else if isinstance e CException then Return None
             else Raise e) in
      match loaded with
      | Raise e => (fs, Raise e)
      | Return None => (fs, Return tt)
      | Return (Some history_data) =>
          match append_in_memory md history_data with
          | Raise e => (fs, Raise e)
          | Return None => (fs, Return tt)
          | Return (Some d') => (write_file fs d' w, Return tt)
          end
      end
  end.

(** A sequence of appends on one thread, each with the outcome of its own
    write. *)
Definition appends (cid : Z) (fs : file_state)
    (ops : list (option message * write_outcome)) : file_state :=
  foldl (fun fs op => (append_message_to_history cid fs op.1 op.2).1) fs ops.

(** *** What is stored, read back *)

Definition stored_document (fs : file_state) : option document :=
  match fs with
  | FileWith (Return (Object d)) => Some d
  | _ => None
  end.

Definition doc_messages (d : document) : list message :=
  match messages d with Present l => l | Absent | Mistyped => [] end.

(** The counter under [key], with a missing key read as 0 as the code reads
    it ([stats.get(key, 0)]). *)
Definition doc_counter (d : document) (key : string) : Z :=
  match aggregated_stats d with
  | Present s => match s !! key with Some (Count n) => n | _ => 0%Z end
  | Absent | Mistyped => 0%Z
  end.

Definition stored_messages (fs : file_state) : list message :=
  from_option doc_messages [] (stored_document fs).

Definition stored_counter (fs : file_state) (key : string) : Z :=
  from_option (fun d => doc_counter d key) 0%Z (stored_document fs).

Definition count_where (P : message -> bool) (msgs : list message) : Z :=
  Z.of_nat (length (filter (fun m => P m = true) msgs)).

Definition has_text (m : message) : bool := truthy_str (text m).

(** The ids of the messages that carry one. *)
Definition ids_of (msgs : list message) : list Z := omap message_id msgs.

(** The ids that the duplicate check of [append_message_to_history] looks
    at: the positive ones. *)
Definition checked_ids (msgs : list message) : list Z :=
  filter (fun z => (0 < z)%Z) (ids_of msgs).

(** No two messages carry the same id. *)
Definition unique_ids (msgs : list message) : Prop := NoDup (ids_of msgs).

(** The two counters [append_message_to_history] maintains agree with the
    messages. *)
Definition doc_invariant (d : document) : Prop :=
  NoDup (checked_ids (doc_messages d)) /\
  doc_counter d "text" = count_where has_text (doc_messages d) /\
  doc_counter d "photo" = count_where photo_attached (doc_messages d).

Definition store_invariant (fs : file_state) : Prop :=
  NoDup (checked_ids (stored_messages fs)) /\
  stored_counter fs "text" = count_where has_text (stored_messages fs) /\
  stored_counter fs "photo" = count_where photo_attached (stored_messages fs).

(** The shape [load_chat_history] promises to its callers. *)
Definition well_formed (d : document) : Prop :=
  is_Some (chat_id d) /\ is_Some (chat_title d) /\
  (exists s, aggregated_stats d = Present s /\
             forall key, key ∈ STATS_KEYS -> is_Some (s !! key)) /\
  (exists l, messages d = Present l).

Definition is_empty_record (cid : Z) (d : document) : Prop :=
  chat_id d = Some cid /\ messages d = Present [] /\
  exists s, aggregated_stats d = Present s /\
            forall key, key ∈ STATS_KEYS -> s !! key = Some (Count 0).

(** *** Sample data *)

(** A message as [_format_message_data] builds it for a plain text. *)
Definition text_message (msg_id : Z) (who body : pystr) (t : Z) : message :=
  {| message_id := Some msg_id; sender := who; timestamp := At t;
     text := body; is_forward := false; forward_source := None;
     reply_to_message_id := None; media_attached := false;
     photo_attached := false |}.

(** A photo without caption. *)
Definition photo_message (msg_id : Z) (who : pystr) (t : Z) : message :=
  {| message_id := Some msg_id; sender := who; timestamp := At t;
     text := []; is_forward := false; forward_source := None;
     reply_to_message_id := None; media_attached := true;
     photo_attached := true |}.

(** *** Paths *)

(** [_get_chat_dir]: [data_dir / str(chat_id)], a path being the list of
    its components. *)
Definition _get_chat_dir (data_dir : list pystr) (cid : Z) : list pystr :=
  data_dir ++ [str_of_int cid].

(** [chat_dir / f"{chat_id}.json"]: the file every coroutine of the module
    works on, and the key of its lock in [_file_locks]. *)
Definition filepath (data_dir : list pystr) (cid : Z) : list pystr :=
  _get_chat_dir data_dir cid ++ [str_of_int cid ++ u ".json"].

(** *** Saving and retitling *)

(** [save_chat_history]: the document is dumped over the file; whatever
    [mkdir], [open] or [json.dump] raises is caught and logged. *)
Definition save_chat_history (cid : Z) (fs : file_state)
    (history_data : document) (w : write_outcome) : file_state * py unit :=
  (write_file fs history_data w, Return tt).

(** The structure [update_chat_title] starts from when there is no file or
    the file does not decode: it has no title yet. *)
Definition untitled_structure (cid : Z) : document :=
  {| chat_id := Some cid; chat_title := None;
     aggregated_stats := Present zero_stats; messages := Present [] |}.

(** [update_chat_title].  A decoding error re-initialises the record; any
    other exception of the read, a top-level value without [get], and
    whatever the write raises end in the outer handler, which logs. *)
Definition update_chat_title (cid : Z) (fs : file_state) (new_title : pystr)
    (w : write_outcome) : file_state * py unit :=
  let body : py file_state :=
    history_data ←
      match fs with
      | FileWith content =>
          try_ content
            (fun e =>
               if isinstance e CJSONDecodeError
               then Return (Object (untitled_structure cid))
               else Raise e)
      | NoFile => Return (Object (untitled_structure cid))
      end;
    match history_data with
    | JsonNull | JsonOther => Raise AttributeError       (* no .get *)
    | Object d =>
        if bool_decide (chat_title d <> Some new_title)
        then Return (write_file fs (with_title d new_title) w)
        else Return fs
    end in
  match body with
  | Return fs' => (fs', Return tt)
  | Raise e =>
      if isinstance e CException then (fs, Return tt) else (fs, Raise e)
  end.

(** *** Files and messages an append can work on *)

(** The structure [append_message_to_history] changes in memory: the
    stored object, the default structure when there is no file, the
    structure of a decoding error; none when the file cannot be read or
    holds no object. *)
Definition starting_point (cid : Z) (fs : file_state) : option document :=
  match fs with
  | NoFile => Some (default_structure cid)
  | FileWith (Return (Object d)) => Some d
  | FileWith (Return _) => None
  | FileWith (Raise e) =>
      if isinstance e CJSONDecodeError then Some (corrupted_structure cid)
      else None
  end.

(** The messages are a list or missing, the counters a dict or missing,
    and the two counters an append adds to are numbers or missing. *)
Definition appendable (d : document) : bool :=
  match messages d with Mistyped => false | Absent | Present _ => true end &&
  match aggregated_stats d with
  | Mistyped => false
  | Absent => true
  | Present s =>
      match s !! "text" with Some NotANumber => false | _ => true end &&
      match s !! "photo" with Some NotANumber => false | _ => true end
  end.

(** The duplicate check lets the message through: its id is missing, not
    positive, or carried by none of the messages. *)
Definition passes_duplicate_check (md : message) (msgs : list message)
  : bool :=
  match message_id md with
  | Some z => negb (0 <? z)%Z || negb (id_occurs msgs z)
  | None => true
  end.

(** [update_chat_title] gets to the comparison of the titles: there is no
    file, the file holds an object, or the file does not decode. *)
Definition retitlable (fs : file_state) : bool :=
  match fs with
  | NoFile => true
  | FileWith (Return (Object _)) => true
  | FileWith (Return _) => false
  | FileWith (Raise e) => isinstance e CJSONDecodeError
  end.


End Store.

(** ** The Python runtime and the settings *)

(** The functions of the Python runtime the code relies on. *)
Class Runtime : Type := {
  lower : pystr -> pystr;     (* str.lower *)
  is_space : N -> bool;       (* str.isspace, and \s of the re module *)
  is_word : N -> bool;        (* \w of the re module *)
  ci_eq : N -> N -> bool      (* one pattern character against one text
                                 character under re.IGNORECASE *)
}.

Fixpoint drop_while (P : N -> bool) (s : pystr) : pystr :=
  match s with
  | [] => []
  | c :: s' => if P c then drop_while P s' else s
  end.

(** [s.strip()] *)
Definition strip `{Runtime} (s : pystr) : pystr :=
  reverse (drop_while is_space (reverse (drop_while is_space s))).

(** [s.split(",")] for a one-character separator: never an empty list. *)
Fixpoint split_on (sep : N) (s : pystr) : list pystr :=
  match s with
  | [] => [[]]
  | c :: s' =>
      if (c =? sep)%N then [] :: split_on sep s'
      else match split_on sep s' with
           | [] => [[c]]
           | part :: parts => (c :: part) :: parts
           end
  end.

(** [sep.join(parts)] *)
Fixpoint join (sep : pystr) (parts : list pystr) : pystr :=
  match parts with
  | [] => []
  | [part] => part
  | part :: rest => part ++ sep ++ join sep rest
  end.

(** [needle in haystack] for strings. *)
Fixpoint starts_with (lit s : pystr) : bool :=
  match lit, s with
  | [], _ => true
  | a :: lit', b :: s' => (a =? b)%N && starts_with lit' s'
  | _ :: _, [] => false
  end.

Fixpoint contains (needle haystack : pystr) : bool :=
  starts_with needle haystack ||
  match haystack with
  | [] => false
  | _ :: rest => contains needle rest
  end.

(** The settings [SettingsManager] hands out; the core only reads them. *)
Record settings : Type := Settings {
  persona_active : bool;
  group_reply_frequency_n : Z;
  ai_detection_cooldown_hours : gmap string Z;
  excluded_chats : list Z;
  priority_initiation_chats : list Z;
  generic_error_replies : list pystr;
  persona_base_instructions : option pystr
}.

(** ** elo_calculator.py *)

Module Elo.
Import Store.

(** [HISTORY_SCORE_WEIGHTS]: 0.5, 1.0, 1.2, 1.5 and 0.2. *)
Definition HISTORY_SCORE_WEIGHTS : list (string * R) :=
  [("text", 1 / 2); ("photo", 1); ("video", 6 / 5); ("voice", 3 / 2);
   ("other_media", 1 / 5)]%R.

Definition INTEREST_BONUS_PER_MATCH : R := 5.
Definition MAX_INTEREST_BONUS : R := 100.
Definition MANUAL_BOOST_VALUE : R := 500.

(** The two attributes of [EloCalculator] that change. *)
Record calculator : Type := Calculator {
  _persona_interests : option (gset pystr);
  _elo_cache : gmap Z R
}.

(** [__init__] *)
Definition init : calculator :=
  {| _persona_interests := None; _elo_cache := ∅ |}.

(** The literal of the pattern in [_extract_interests_from_instructions]:
    "Ключевые интересы:" *)
Definition INTERESTS_MARKER : pystr :=
  [1050; 1083; 1102; 1095; 1077; 1074; 1099; 1077; 32;
   1080; 1085; 1090; 1077; 1088; 1077; 1089; 1099; 58]%N.

Section WithRuntime.
Context `{RT : Runtime}.

(** The literal matches at the head of [s], case-insensitively. *)
Fixpoint starts_with_ci (lit s : pystr) : bool :=
  match lit, s with
  | [], _ => true
  | a :: lit', b :: s' => ci_eq a b && starts_with_ci lit' s'
  | _ :: _, [] => false
  end.

(** [re.search] with the marker followed by any white space and a group
    that takes the rest of the text, under [re.IGNORECASE | re.DOTALL]:
    [group(1)] of the leftmost match is what follows the first occurrence
    of the marker and the white space after it, to the end of the text. *)
Fixpoint search_marker (s : pystr) : option pystr :=
  if starts_with_ci INTERESTS_MARKER s
  then Some (drop_while is_space (drop (length INTERESTS_MARKER) s))
  else match s with
       | [] => None
       | _ :: s' => search_marker s'
       end.

Definition _extract_interests_from_instructions (base_instructions : pystr)
  : gset pystr :=
  match search_marker base_instructions with
  | None => ∅
  | Some group1 =>
      let interests_str := strip group1 in
      list_to_set
        (lower <$> filter (fun interest => truthy_str interest = true)
                     (strip <$> split_on 44 interests_str))
  end.

(** [_get_persona_interests]: the set, and the calculator afterwards. *)
Definition _get_persona_interests (self : calculator)
    (base_instructions : option pystr) : gset pystr * calculator :=
  match _persona_interests self with
  | Some interests => (interests, self)
  | None =>
      let interests :=
        match base_instructions with
        | None | Some [] => ∅
        | Some text => _extract_interests_from_instructions text
        end in
      (interests,
       {| _persona_interests := Some interests;
          _elo_cache := _elo_cache self |})
  end.

(** [count > 0] and [math.log(count + 1)] on a stored value. *)
Definition history_term (weight : R) (count : option stat) : py R :=
  match count with
  | None => Return 0%R                         (* stats.get(key, 0) *)
  | Some (Count n) =>
      if (0 <? n)%Z then Return (weight * ln (IZR (n + 1)))%R
      else Return 0%R
  | Some NotANumber => Raise TypeError
  end.

(** [_calculate_history_score].  A value under ["aggregated_stats"] that is
    not a dict cannot come out of [load_chat_history]; it is taken here as
    one whose [get] is missing. *)
Definition _calculate_history_score (history_data : document) : py R :=
  match aggregated_stats history_data with
  | Absent => Return 0%R
  | Mistyped => Raise AttributeError
  | Present stats =>
      if decide (stats = ∅) then Return 0%R
      else
        foldl (fun acc '(key, weight) =>
                 score ← acc;
                 term_score ← history_term weight (stats !! key);
                 Return (score + term_score)%R)
              (Return 0%R) HISTORY_SCORE_WEIGHTS
  end.

(** *** The pattern: the escaped interest between two word boundaries *)

Definition word_at (c : option N) : bool :=
  match c with Some x => is_word x | None => false end.

(** [\b] between two neighbours; the ends of the text count as non-word. *)
Definition boundary (before after : option N) : bool :=
  xorb (word_at before) (word_at after).

(** The pattern matches at the head of [s], [before] being the character
    in front of it. *)
Definition matches_here (lit : pystr) (before : option N) (s : pystr)
  : bool :=
  boundary before (head s) && starts_with lit s &&
  boundary (match last lit with Some c => Some c | None => before end)
           (head (drop (length lit) s)).

(** [len(re.findall(pattern, s))]: the scan goes left to right, a match
    consumes its characters ([skip] counts the ones still to pass over),
    and an empty match moves on by one. *)
Fixpoint count_matches (lit : pystr) (before : option N) (s : pystr)
    (skip : nat) : nat :=
  match s with
  | [] =>
      match skip with
      | O => if matches_here lit before [] then 1 else 0
      | S _ => 0
      end
  | c :: s' =>
      match skip with
      | S k => count_matches lit (Some c) s' k
      | O =>
          if matches_here lit before s
          then S (count_matches lit (Some c) s' (length lit - 1))
          else count_matches lit (Some c) s' 0
      end
  end.

Definition findall_count (lit s : pystr) : nat := count_matches lit None s 0.

(** The texts [_calculate_interest_bonus] collects: lowered, from the
    messages that have a text and were not sent by the persona. *)
Definition contact_messages_text (msgs : list message) : list pystr :=
  lower <$> (text <$> filter (fun msg => sender msg <> u "You" /\
                                        truthy_str (text msg) = true) msgs).

Definition match_count (persona_interests : gset pystr) (full_text : pystr)
  : nat :=
  sum_list ((fun interest => findall_count interest full_text)
              <$> elements persona_interests).

(** [_calculate_interest_bonus] *)
Definition _calculate_interest_bonus (history_data : document)
    (persona_interests : gset pystr) : py R :=
  if decide (persona_interests = ∅) then Return 0%R
  else
    match messages history_data with
    | Absent | Present [] => Return 0%R
    | Mistyped => Raise TypeError
    | Present msgs =>
        match contact_messages_text msgs with
        | [] => Return 0%R
        | texts =>
            let full_text := join (u " ") texts in
            let bonus := (INR (match_count persona_interests full_text)
                          * INTEREST_BONUS_PER_MATCH)%R in
            Return (Rmin bonus MAX_INTEREST_BONUS)
        end
    end.

(** [_get_manual_boost] *)
Definition _get_manual_boost (cfg : settings) (cid : Z) : R :=
  if decide (cid ∈ priority_initiation_chats cfg) then MANUAL_BOOST_VALUE
  else 0%R.

(** The [try] block of [calculate_elo], entered on a cache miss: what it
    evaluates to, and the calculator after it. *)
Definition elo_body (cfg : settings) (files : Z -> file_state)
    (self : calculator) (cid : Z) (base_instructions : option pystr)
  : py R * calculator :=
  match load_chat_history cid (files cid) with
  | Raise e => (Raise e, self)
  | Return history_data =>
      match messages history_data with
      | Absent => (Raise KeyError, self)
      | Present [] => (Return (_get_manual_boost cfg cid), self)
      | Mistyped | Present (_ :: _) =>
          match _calculate_history_score history_data with
          | Raise e => (Raise e, self)
          | Return history_score =>
              let '(persona_interests, self1) :=
                _get_persona_interests self base_instructions in
              match _calculate_interest_bonus history_data persona_interests with
              | Raise e => (Raise e, self1)
              | Return interest_bonus =>
                  let manual_boost := _get_manual_boost cfg cid in
                  (Return (history_score + interest_bonus + manual_boost)%R,
                   self1)
              end
          end
      end
  end.

(** [calculate_elo] *)
Definition calculate_elo (cfg : settings) (files : Z -> file_state)
    (self : calculator) (cid : Z) (base_instructions : option pystr)
  : py R * calculator :=
  match _elo_cache self !! cid with
  | Some cached => (Return cached, self)
  | None =>
      match elo_body cfg files self cid base_instructions with
      | (Return final_elo, self1) =>
          (Return final_elo,
           {| _persona_interests := _persona_interests self1;
              _elo_cache := <[cid := final_elo]> (_elo_cache self1) |})
      | (Raise e, self1) =>
          if isinstance e CFileNotFoundError
          then (Return (_get_manual_boost cfg cid), self1)
          else if isinstance e CException then (Return 0%R, self1)
          else (Raise e, self1)
      end
  end.

(** [asyncio.gather] with [return_exceptions=True] over the calls of
    [calculate_elo], run here one after the other in the order of the
    list. *)
Fixpoint gather_elo (cfg : settings) (files : Z -> file_state)
    (self : calculator) (ids : list Z) (base_instructions : option pystr)
  : list (py R) * calculator :=
  match ids with
  | [] => ([], self)
  | cid :: rest =>
      let '(result, self1) :=
        calculate_elo cfg files self cid base_instructions in
      let '(results, self2) :=
        gather_elo cfg files self1 rest base_instructions in
      (result :: results, self2)
  end.

End WithRuntime.

(** A Python [dict] from ids to scores, in insertion order. *)
Fixpoint dict_set (d : list (Z * R)) (key : Z) (value : R) : list (Z * R) :=
  match d with
  | [] => [(key, value)]
  | (k, v) :: d' =>
      if decide (k = key) then (k, value) :: d'
      else (k, v) :: dict_set d' key value
  end.

Fixpoint dict_get (d : list (Z * R)) (key : Z) : option R :=
  match d with
  | [] => None
  | (k, v) :: d' => if decide (k = key) then Some v else dict_get d' key
  end.

(** The loop over [zip(eligible_chat_ids, results)]. *)
Fixpoint collect_scores (elo_scores : list (Z * R)) (ids : list Z)
    (results : list (py R)) : list (Z * R) :=
  match ids, results with
  | cid :: ids', result :: results' =>
      let value := match result with Return r => r | Raise _ => 0%R end in
      collect_scores (dict_set elo_scores cid value) ids' results'
  | _, _ => elo_scores
  end.

(** [max(d, key=d.get)] on a non-empty dict: the first key whose value no
    later key exceeds. *)
Definition max_by_value (first : Z * R) (rest : list (Z * R)) : Z * R :=
  foldl (fun best item => if Rlt_dec best.2 item.2 then item else best)
        first rest.

(** The part of [get_top_chat_for_initiation] after the gather. *)
Definition pick_top (ids : list Z) (results : list (py R)) : option Z :=
  match collect_scores [] ids results with
  | [] => None
  | first :: rest =>
      let '(top_chat_id, max_elo) := max_by_value first rest in
      if Rle_dec max_elo 0 then None else Some top_chat_id
  end.

(** [get_top_chat_for_initiation] *)
Definition get_top_chat_for_initiation `{Runtime} (cfg : settings)
    (files : Z -> file_state) (self : calculator)
    (eligible_chat_ids : list Z) (base_instructions : option pystr)
  : option Z * calculator :=
  match eligible_chat_ids with
  | [] => (None, self)
  | _ =>
      let '(results, self1) :=
        gather_elo cfg files self eligible_chat_ids base_instructions in
      (pick_top eligible_chat_ids results, self1)
  end.

(** [clear_cache] *)
Definition clear_cache (self : calculator) : calculator :=
  {| _persona_interests := None; _elo_cache := ∅ |}.

(** *** The score in the words of the specification *)

(** The record a scoring call works on. *)
Definition loaded_record (cid : Z) (fs : file_state) : document :=
  match load_chat_history cid fs with
  | Return d => d
  | Raise _ => default_structure cid
  end.

(** Every counter the weights name is missing or a non-negative integer. *)
Definition counters_are_counts (d : document) : bool :=
  match aggregated_stats d with
  | Present stats =>
      forallb (fun '(key, _) =>
                 match stats !! key with
                 | None => true
                 | Some (Count n) => (0 <=? n)%Z
                 | Some NotANumber => false
                 end) HISTORY_SCORE_WEIGHTS
  | Absent | Mistyped => false
  end.

(** [weight(k) * ln(count_k + 1)], summed over the five kinds. *)
Definition history_score_formula (d : document) : R :=
  (1 / 2 * ln (IZR (doc_counter d "text" + 1))
   + 1 * ln (IZR (doc_counter d "photo" + 1))
   + 6 / 5 * ln (IZR (doc_counter d "video" + 1))
   + 3 / 2 * ln (IZR (doc_counter d "voice" + 1))
   + 1 / 5 * ln (IZR (doc_counter d "other_media" + 1)))%R.

(** The number of matches of the interests, as whole words, in the lowered
    texts of the messages not sent by the persona. *)
Definition matches `{Runtime} (persona_interests : gset pystr)
    (msgs : list message) : nat :=
  match_count persona_interests (join (u " ") (contact_messages_text msgs)).

(** [min(100, 5 * matches)] *)
Definition interest_bonus_formula `{Runtime} (persona_interests : gset pystr)
    (msgs : list message) : R :=
  Rmin 100 (5 * INR (matches persona_interests msgs)).

(** 500 for a thread of the priority list, 0 otherwise. *)
Definition manual_boost_formula (cfg : settings) (cid : Z) : R :=
  if decide (cid ∈ priority_initiation_chats cfg) then 500%R else 0%R.

(** The interests a calculator without a parsed set derives from the
    instructions it is given. *)
Definition interests_from `{Runtime} (base_instructions : option pystr)
  : gset pystr :=
  match base_instructions with
  | None | Some [] => ∅
  | Some text => _extract_interests_from_instructions text
  end.

(** The interests a scoring call consults. *)
Definition effective_interests `{Runtime} (self : calculator)
    (base_instructions : option pystr) : gset pystr :=
  (_get_persona_interests self base_instructions).1.

(** The number [calculate_elo] answers for a thread. *)
Definition elo_value `{Runtime} (cfg : settings) (files : Z -> file_state)
    (self : calculator) (base_instructions : option pystr) (cid : Z) : R :=
  match (calculate_elo cfg files self cid base_instructions).1 with
  | Return r => r
  | Raise _ => 0%R
  end.

(** The ids of a list in the order of their first appearance, leaving out
    those already [seen]. *)
Fixpoint first_seen (seen ids : list Z) : list Z :=
  match ids with
  | [] => []
  | x :: rest =>
      if decide (x ∈ seen) then first_seen seen rest
      else x :: first_seen (seen ++ [x]) rest
  end.

End Elo.

(** ** A small runtime for the examples

    Lower case, white space and word characters for ASCII and the basic
    Cyrillic block only. *)

Definition lower_point (c : N) : N :=
  if (65 <=? c)%N && (c <=? 90)%N then (c + 32)%N
  else if (1040 <=? c)%N && (c <=? 1071)%N then (c + 32)%N
  else if (1024 <=? c)%N && (c <=? 1039)%N then (c + 80)%N
  else c.

Definition space_point (c : N) : bool :=
  (9 <=? c)%N && (c <=? 13)%N || (c =? 32)%N.

Definition word_point (c : N) : bool :=
  (48 <=? c)%N && (c <=? 57)%N || (65 <=? c)%N && (c <=? 90)%N ||
  (c =? 95)%N || (97 <=? c)%N && (c <=? 122)%N ||
  (1024 <=? c)%N && (c <=? 1119)%N.

Definition small_runtime : Runtime :=
  {| lower := fmap lower_point;
     is_space := space_point;
     is_word := word_point;
     ci_eq := fun a b => (lower_point a =? lower_point b)%N |}.


(** ** ai_module.py and interaction.py *)

Module Interaction.
Import Store.

Definition CONTEXT_MESSAGE_COUNT : nat := 10.
Definition GROUP_CONTEXT_MESSAGE_COUNT : nat := 30.
Definition MIN_TIME_BEFORE_INITIATION_HOURS : Z := 12.

(** [timedelta(hours=h)] for an integer [h], in microseconds. *)
Definition hours (h : Z) : Z := h * 3600000000.

(** [timedelta(days=1)] *)
Definition MIN_INTERVAL_BETWEEN_AI_INITIATION : Z := hours 24.

(** [datetime.min.replace(tzinfo=timezone.utc)]: the first instant of the
    year 1, 62135596800 seconds before the epoch. *)
Definition DATETIME_MIN : Z := -62135596800000000.

(** [AI_DETECTION_KEYWORDS]: "ты бот", "ты ии", "ты ai", "автоответчик". *)
Definition AI_DETECTION_KEYWORDS : list pystr :=
  [ [1090; 1099; 32; 1073; 1086; 1090];
    [1090; 1099; 32; 1080; 1080];
    [1090; 1099; 32; 97; 105];
    [1072; 1074; 1090; 1086; 1086; 1090; 1074; 1077; 1090; 1095; 1080; 1082]
  ]%N.

Definition AI_DETECTION_ATTEMPTS : Z := 3.

(** [AIModule.max_retries] *)
Definition max_retries : nat := 3.

(** What one call of [model.generate_content_async] leads to inside the
    loop of [generate_response]: a candidate that passes every check, with
    the joined text of its parts; [AIContentSafetyError]; [AIGenerationError];
    an error of the provider's API; any other exception. *)
Inductive attempt : Type :=
| Generated (parts_text : pystr)
| Blocked
| Unusable
| ApiError
| Crashed.

(** What [client.send_message] does. *)
Inductive delivery : Type :=
| Delivered (msg_id date : Z)
| FloodWait (seconds : Z)
| Forbidden
| SendFailed.

(** Calls that leave the engine. *)
Inductive effect : Type :=
| AskedModel (cid : Z) (instructions : pystr) (context : list message)
    (incoming : option pystr) (with_image : bool)
| SendMessage (cid : Z) (body : pystr) (outcome : delivery)
| SavingSent (cid : Z) (message_data : message)
| NotifyAdmin (admin_id cid : Z) (sender_id : option Z) (body : pystr)
    (until : Z) (delivered : bool).

(** What the outside world answers during one run of a handler or of
    [_try_initiate_conversation]. *)
Record world : Type := World {
  now_utc : Z;            (* datetime.now in _handle_new_message *)
  now_cooldown : Z;       (* datetime.now in _check_ai_detection *)
  now_quiet : Z;          (* datetime.now for time_since_last *)
  now_spacing : Z;        (* datetime.now for the last own initiation *)
  now_sent : Z;           (* datetime.now after the opener was sent *)
  random_unit : Q;        (* random.random() inside random.uniform *)
  random_index : nat;     (* the draw of random.choice *)
  provider_denial : nat -> attempt;  (* the call in _check_ai_detection *)
  provider : nat -> attempt;         (* the call for a reply or an opener *)
  resolves : bool;        (* client.get_entity in _resolve_entity *)
  delivery_outcome : delivery;
  download_ok : bool;     (* client.download_media *)
  permit : bool;          (* the semaphore was acquired within 60 s *)
  notify_ok : bool;       (* bot.send_message to the admin *)
  files : Z -> file_state
}.

(** An incoming [events.NewMessage]. *)
Record incoming : Type := Incoming {
  ev_chat_id : Z;
  ev_message_id : Z;
  ev_sender_id : option Z;
  ev_text : pystr;        (* message.text, empty when there is none *)
  ev_photo : bool;
  ev_is_group : bool      (* isinstance(event.chat, (Chat, Channel)) *)
}.

(** The attributes of [InteractionModule] that change. *)
Record engine : Type := Engine {
  _is_running : bool;
  _me_id : option Z;
  _admin_id : Z;
  _group_message_counters : gmap Z Z;
  _ai_detection_counters : gmap Z Z;
  _cooldown_until : gmap Z Z;
  _last_initiated_time : gmap Z Z
}.

Definition set_detection_counter (self : engine) (cid n : Z) : engine :=
  {| _is_running := _is_running self; _me_id := _me_id self;
     _admin_id := _admin_id self;
     _group_message_counters := _group_message_counters self;
     _ai_detection_counters := <[cid := n]> (_ai_detection_counters self);
     _cooldown_until := _cooldown_until self;
     _last_initiated_time := _last_initiated_time self |}.

Definition set_cooldown (self : engine) (cid until : Z) : engine :=
  {| _is_running := _is_running self; _me_id := _me_id self;
     _admin_id := _admin_id self;
     _group_message_counters := _group_message_counters self;
     _ai_detection_counters := _ai_detection_counters self;
     _cooldown_until := <[cid := until]> (_cooldown_until self);
     _last_initiated_time := _last_initiated_time self |}.

(** [self._cooldown_until.pop(chat_id, None)] and
    [self._ai_detection_counters.pop(chat_id, None)] *)
Definition end_cooldown (self : engine) (cid : Z) : engine :=
  {| _is_running := _is_running self; _me_id := _me_id self;
     _admin_id := _admin_id self;
     _group_message_counters := _group_message_counters self;
     _ai_detection_counters := delete cid (_ai_detection_counters self);
     _cooldown_until := delete cid (_cooldown_until self);
     _last_initiated_time := _last_initiated_time self |}.

Definition set_group_counter (self : engine) (cid n : Z) : engine :=
  {| _is_running := _is_running self; _me_id := _me_id self;
     _admin_id := _admin_id self;
     _group_message_counters := <[cid := n]> (_group_message_counters self);
     _ai_detection_counters := _ai_detection_counters self;
     _cooldown_until := _cooldown_until self;
     _last_initiated_time := _last_initiated_time self |}.

Definition set_last_initiated (self : engine) (cid t : Z) : engine :=
  {| _is_running := _is_running self; _me_id := _me_id self;
     _admin_id := _admin_id self;
     _group_message_counters := _group_message_counters self;
     _ai_detection_counters := _ai_detection_counters self;
     _cooldown_until := _cooldown_until self;
     _last_initiated_time := <[cid := t]> (_last_initiated_time self) |}.

(** [stop_persona], for what it does to the counters and the clocks. *)
Definition stop_persona (self : engine) : engine :=
  {| _is_running := false; _me_id := _me_id self;
     _admin_id := _admin_id self;
     _group_message_counters := ∅; _ai_detection_counters := ∅;
     _cooldown_until := ∅; _last_initiated_time := ∅ |}.

(** [random.choice(seq)] *)
Definition random_choice (pool : list pystr) (draw : nat) : py pystr :=
  match pool with
  | [] => Raise IndexError
  | _ =>
      match pool !! (draw mod length pool)%nat with
      | Some reply => Return reply
      | None => Raise IndexError
      end
  end.

(** Rounding to the nearest integer, ties to the even one, as [timedelta]
    rounds to microseconds. *)
Definition round_half_even (x : Q) : Z :=
  let low := Qfloor x in
  match (x - inject_Z low ?= 1 # 2)%Q with
  | Lt => low
  | Gt => (low + 1)%Z
  | Eq => if Z.even low then low else (low + 1)%Z
  end.

(** [random.uniform(a, b)] is [a + (b - a) * random()]. *)
Definition random_uniform (a b : Z) (unit : Q) : Q :=
  (inject_Z a + (inject_Z b - inject_Z a) * unit)%Q.

(** [timedelta(hours=h)] for a fractional [h], in microseconds. *)
Definition timedelta_hours (h : Q) : Z :=
  round_half_even (h * inject_Z 3600000000)%Q.

(** [_get_base_instructions] *)
Definition _get_base_instructions (cfg : settings) : option pystr :=
  match persona_base_instructions cfg with
  | None | Some [] => None
  | Some instructions => Some instructions
  end.

(** [f"{a}\n\n{b}"] *)
Definition two_paragraphs (a b : pystr) : pystr := a ++ [10; 10]%N ++ b.

(** The fixed prompts; their wording plays no part here. *)
Definition denial_prompt : pystr := u "denial".
Definition initiation_prompt : pystr := u "initiation".
Definition priority_initiation_prompt : pystr := u "priority initiation".

Section WithRuntime.
Context `{RT : Runtime}.

(** [response_text.replace("*", "")] *)
Definition without_stars (s : pystr) : pystr :=
  filter (fun c => c <> 42%N) s.

(** The retry loop of [generate_response]: an API error is retried until
    the last attempt, everything else ends the loop. *)
Fixpoint generate_loop (answers : nat -> attempt) (attempt_no left : nat)
  : option pystr :=
  match left with
  | O => None
  | S left' =>
      match answers attempt_no with
      | Generated parts_text =>
          let response_text := strip parts_text in
          if truthy_str response_text
          then Some (without_stars response_text)
          else None
      | Blocked | Unusable | Crashed => None
      | ApiError =>
          if (attempt_no + 1 =? max_retries)%nat then None
          else generate_loop answers (attempt_no + 1) left'
      end
  end.

(** [AIModule.generate_response], as far as its result goes. *)
Definition generate_response (answers : nat -> attempt) : option pystr :=
  generate_loop answers 0 max_retries.

Definition truthy_response (response_text : option pystr) : bool :=
  match response_text with
  | Some t => truthy_str t
  | None => false
  end.

(** [_send_message_with_delay]: whether the message went out, and the
    calls made. *)
Definition _send_message_with_delay (w : world) (cid : Z) (body : pystr)
  : bool * list effect :=
  if negb (truthy_str body) then (false, [])
  else if negb (resolves w) then (false, [])
  else
    match delivery_outcome w with
    | Delivered msg_id date =>
        let message_data :=
          {| message_id := Some msg_id; sender := u "You";
             timestamp := At date; text := body; is_forward := false;
             forward_source := None; reply_to_message_id := None;
             media_attached := false; photo_attached := false |} in
        (true, [SendMessage cid body (Delivered msg_id date);
                SavingSent cid message_data])
    | outcome => (false, [SendMessage cid body outcome])
    end.

(** [any(keyword in text_lower for keyword in AI_DETECTION_KEYWORDS)] *)
Definition detected (body : pystr) : bool :=
  existsb (fun keyword => contains keyword (lower body)) AI_DETECTION_KEYWORDS.

(** The cooldown branch draws its deadline. *)
Definition draw_cooldown_until (cfg : settings) (w : world) : Z :=
  let cooldown_config := ai_detection_cooldown_hours cfg in
  let cooldown_hours :=
    random_uniform (default 2%Z (cooldown_config !! "min"%string))
                   (default 24%Z (cooldown_config !! "max"%string))
                   (random_unit w) in
  (now_cooldown w + timedelta_hours cooldown_hours)%Z.

(** [random.choice] among the canned replies, then the send. *)
Definition send_generic_reply (cfg : settings) (w : world) (cid : Z)
  : py unit * list effect :=
  match random_choice (generic_error_replies cfg) (random_index w) with
  | Raise e => (Raise e, [])
  | Return generic_reply =>
      (Return tt, (_send_message_with_delay w cid generic_reply).2)
  end.

(** The reply of the first [AI_DETECTION_ATTEMPTS] detections: generated
    from the denial prompt, or drawn from the canned replies when the
    generation gives nothing or there are no base instructions. *)
Definition deflect (cfg : settings) (w : world) (ev : incoming)
  : py unit * list effect :=
  let cid := ev_chat_id ev in
  match _get_base_instructions cfg with
  | Some base_instructions =>
      let asked :=
        AskedModel cid (two_paragraphs base_instructions denial_prompt) []
          (Some (ev_text ev)) false in
      let response_text := generate_response (provider_denial w) in
      if truthy_response response_text then
        (Return tt,
         asked :: (_send_message_with_delay w cid
                     (default [] response_text)).2)
      else
        let '(result, effects) := send_generic_reply cfg w cid in
        (result, asked :: effects)
  | None => send_generic_reply cfg w cid
  end.

(** [_check_ai_detection]: what it returns or raises, the engine after it
    and the calls made. *)
Definition _check_ai_detection (self : engine) (cfg : settings) (w : world)
    (ev : incoming) : py bool * engine * list effect :=
  let cid := ev_chat_id ev in
  if detected (ev_text ev) then
    let detection_count :=
      (default 0 (_ai_detection_counters self !! cid) + 1)%Z in
    let self1 := set_detection_counter self cid detection_count in
    if (detection_count <=? AI_DETECTION_ATTEMPTS)%Z then
      match deflect cfg w ev with
      | (Return _, effects) => (Return true, self1, effects)
      | (Raise e, effects) => (Raise e, self1, effects)
      end
    else
      let cooldown_until := draw_cooldown_until cfg w in
      let self2 := set_cooldown self1 cid cooldown_until in
      (Return true, self2,
       [NotifyAdmin (_admin_id self) cid (ev_sender_id ev) (ev_text ev)
          cooldown_until (notify_ok w)])
  else (Return false, self, []).

(** [history_data["messages"][-context_limit:]] *)
Definition last_messages (n : nat) (msgs : list message) : list message :=
  drop (length msgs - n) msgs.

(** [_generate_and_send_response]: it catches whatever is raised inside,
    so only the calls made remain. *)
Definition _generate_and_send_response (cfg : settings) (w : world)
    (ev : incoming) (is_group : bool) : list effect :=
  let cid := ev_chat_id ev in
  let context_limit :=
    if is_group then GROUP_CONTEXT_MESSAGE_COUNT else CONTEXT_MESSAGE_COUNT in
  match load_chat_history cid (files w cid) with
  | Raise _ => []
  | Return history_data =>
      match messages history_data with
      | Absent | Mistyped => []           (* KeyError or TypeError, caught *)
      | Present msgs =>
          let dialog_context := last_messages context_limit msgs in
          match _get_base_instructions cfg with
          | None => []
          | Some base_instructions =>
              if ev_photo ev && negb (download_ok w) then []
              else
                let asked :=
                  AskedModel cid base_instructions dialog_context
                    (if truthy_str (ev_text ev) then Some (ev_text ev)
                     else None)
                    (ev_photo ev) in
                let response_text := generate_response (provider w) in
                if truthy_response response_text then
                  asked :: (_send_message_with_delay w cid
                              (default [] response_text)).2
                else
                  (* an IndexError of random.choice is caught *)
                  asked :: (send_generic_reply cfg w cid).2
          end
      end
  end.

(** The first checks of [_handle_new_message]: the persona runs and is
    active, its own id is known, the sender is known and is not the
    persona, and the thread is not excluded. *)
Definition admitted (self : engine) (cfg : settings) (ev : incoming) : bool :=
  _is_running self && persona_active cfg &&
  match _me_id self with
  | None => false
  | Some me =>
      negb (me =? 0)%Z &&
      match ev_sender_id ev with
      | None => false
      | Some sender_id => negb (sender_id =? 0)%Z && negb (sender_id =? me)%Z
      end
  end &&
  bool_decide (ev_chat_id ev ∉ excluded_chats cfg).

(** The part of [_handle_new_message] under the semaphore. *)
Definition respond (self : engine) (cfg : settings) (w : world)
    (ev : incoming) : engine * list effect :=
  let cid := ev_chat_id ev in
  if negb (permit w) then (self, [])          (* TimeoutError, logged *)
  else if ev_is_group ev then
    let count := (default 0 (_group_message_counters self !! cid) + 1)%Z in
    let self1 := set_group_counter self cid count in
    if (group_reply_frequency_n cfg <=? count)%Z then
      (set_group_counter self1 cid 0,
       _generate_and_send_response cfg w ev true)
    else
      (* self.data_collector is never assigned: AttributeError, caught *)
      (self1, [])
  else if truthy_str (ev_text ev) || ev_photo ev then
    (self, _generate_and_send_response cfg w ev false)
  else
    (* self.data_collector is never assigned: AttributeError, caught *)
    (self, []).

(** [_handle_new_message] *)
Definition _handle_new_message (self : engine) (cfg : settings) (w : world)
    (ev : incoming) : engine * list effect :=
  let cid := ev_chat_id ev in
  if negb (admitted self cfg ev) then (self, [])
  else
    let on_cooldown :=
      match _cooldown_until self !! cid with
      | Some until => (now_utc w <? until)%Z
      | None => false
      end in
    if on_cooldown then (self, [])
    else
      let self1 :=
        match _cooldown_until self !! cid with
        | Some _ => end_cooldown self cid
        | None => self
        end in
      if truthy_str (ev_text ev) then
        match _check_ai_detection self1 cfg w ev with
        | (Return true, self2, effects) => (self2, effects)
        | (Return false, self2, effects)
        | (Raise _, self2, effects) =>
            let '(self3, effects') := respond self2 cfg w ev in
            (self3, effects ++ effects')
        end
      else respond self1 cfg w ev.

(** The instant of the last stored message, as [_try_initiate_conversation]
    reads it. *)
Definition last_msg_time (msgs : list message) : Z :=
  match last msgs with
  | Some m =>
      match timestamp m with
      | At t => t
      | NoStamp | BadStamp => DATETIME_MIN
      end
  | None => DATETIME_MIN
  end.

(** Lines 851-880: the opener is generated, sent, and the instant
    recorded. *)
Definition initiate (self : engine) (w : world) (cid : Z)
    (base_instructions : pystr) (msgs : list message)
  : engine * list effect :=
  let dialog_context := last_messages 5 msgs in
  let asked :=
    AskedModel cid (two_paragraphs base_instructions initiation_prompt)
      dialog_context None false in
  match generate_response (provider w) with
  | Some response_text =>
      if truthy_str response_text
      then (set_last_initiated self cid (now_sent w),
            asked :: (_send_message_with_delay w cid response_text).2)
      else (self, [asked])
  | None => (self, [asked])
  end.

(** The handler of [FileNotFoundError] in [_try_initiate_conversation]. *)
Definition initiate_without_history (self : engine) (cfg : settings)
    (w : world) (cid : Z) (base_instructions : pystr)
  : engine * list effect :=
  if bool_decide (cid ∈ priority_initiation_chats cfg) then
    if negb (truthy_str base_instructions) then (self, [])
    else
      let asked :=
        AskedModel cid
          (two_paragraphs base_instructions priority_initiation_prompt)
          [] None false in
      match generate_response (provider w) with
      | Some response_text =>
          if truthy_str response_text
          then (set_last_initiated self cid (now_sent w),
                asked :: (_send_message_with_delay w cid response_text).2)
          else (self, [asked])
      | None => (self, [asked])
      end
  else (self, []).

(** [_try_initiate_conversation] *)
Definition _try_initiate_conversation (self : engine) (cfg : settings)
    (w : world) (cid : Z) (base_instructions : pystr)
  : engine * list effect :=
  match load_chat_history cid (files w cid) with
  | Raise e =>
      if isinstance e CFileNotFoundError
      then initiate_without_history self cfg w cid base_instructions
      else (self, [])
  | Return history_data =>
      let msgs :=
        match messages history_data with
        | Present l => l
        | Absent | Mistyped => []
        end in
      let time_since_last := (now_quiet w - last_msg_time msgs)%Z in
      let min_time_delta := hours MIN_TIME_BEFORE_INITIATION_HOURS in
      if bool_decide (msgs <> []) && (time_since_last <? min_time_delta)%Z
      then (self, [])
      else
        let initiated_recently :=
          match _last_initiated_time self !! cid with
          | Some t =>
              (now_spacing w - t <? MIN_INTERVAL_BETWEEN_AI_INITIATION)%Z
          | None => false
          end in
        if initiated_recently then (self, [])
        else initiate self w cid base_instructions msgs
  end.

(** *** The states of a thread, in the words of the specification *)

(** The thread is on cooldown at [now]. *)
Definition suppressed (self : engine) (cid now : Z) : bool :=
  match _cooldown_until self !! cid with
  | Some until => (now <? until)%Z
  | None => false
  end.


(** The detection hits counted for a thread. *)
Definition hits (self : engine) (cid : Z) : Z :=
  default 0%Z (_ai_detection_counters self !! cid).

(** The generation is reached: there are base instructions, and the photo
    of the message, if it has one, was downloaded. *)
Definition reaches_model (cfg : settings) (w : world) (ev : incoming) : bool :=
  match _get_base_instructions cfg with
  | Some _ => negb (ev_photo ev) || download_ok w
  | None => false
  end.

(** The gate of an initiation: no stored message or a last message at
    least twelve hours old, and no own initiation yet or one at least a
    day old. *)
Definition may_initiate (self : engine) (w : world) (cid : Z)
    (msgs : list message) : bool :=
  (bool_decide (msgs = []) ||
   (hours MIN_TIME_BEFORE_INITIATION_HOURS <=? now_quiet w - last_msg_time msgs)%Z)
  && match _last_initiated_time self !! cid with
     | Some t => (MIN_INTERVAL_BETWEEN_AI_INITIATION <=? now_spacing w - t)%Z
     | None => true
     end.

(** The same gate with both elapsed times required to exceed their
    minimum. *)
Definition may_initiate_strictly (self : engine) (w : world) (cid : Z)
    (msgs : list message) : bool :=
  (bool_decide (msgs = []) ||
   (hours MIN_TIME_BEFORE_INITIATION_HOURS <? now_quiet w - last_msg_time msgs)%Z)
  && match _last_initiated_time self !! cid with
     | Some t => (MIN_INTERVAL_BETWEEN_AI_INITIATION <? now_spacing w - t)%Z
     | None => true
     end.

(** A call of [client.send_message] is among the calls. *)
Definition sends_something (effects : list effect) : bool :=
  existsb (fun e => match e with SendMessage _ _ _ => true | _ => false end)
          effects.

(** A run of the handler over a list of events, each with its world. *)
Fixpoint handle_all (self : engine) (cfg : settings)
    (events : list (world * incoming)) : engine * list (list effect) :=
  match events with
  | [] => (self, [])
  | (w, ev) :: rest =>
      let '(self1, effects) := _handle_new_message self cfg w ev in
      let '(self2, trace) := handle_all self1 cfg rest in
      (self2, effects :: trace)
  end.

End WithRuntime.

(** *** The calls made, and the saving of what was sent *)

(** The thread a call concerns. *)
Definition effect_chat (e : effect) : Z :=
  match e with
  | AskedModel cid _ _ _ _ => cid
  | SendMessage cid _ _ => cid
  | SavingSent cid _ => cid
  | NotifyAdmin _ cid _ _ _ _ => cid
  end.

(** A call that stays within bounds: it concerns the thread [cid]; a
    message sent has a body; a record saved is that of a message of the
    persona, with its text; a notification goes to the admin. *)
Definition within_bounds (admin cid : Z) (e : effect) : Prop :=
  effect_chat e = cid /\
  match e with
  | AskedModel _ _ _ _ _ => True
  | SendMessage _ body _ => body <> []
  | SavingSent _ message_data =>
      sender message_data = u "You" /\ text message_data <> []
  | NotifyAdmin admin_id _ _ _ _ _ => admin_id = admin
  end.

(** [_save_sent_message_task]: the task that [_send_message_with_delay]
    creates for the record of a delivered message.  Whatever the append
    raises is caught and logged. *)
Definition _save_sent_message_task (cid : Z) (fs : file_state)
    (message_data : message) (w : write_outcome) : file_state * py unit :=
  let '(fs', result) :=
    append_message_to_history cid fs (Some message_data) w in
  (fs', try_ result
          (fun e => if isinstance e CException then Return tt else Raise e)).


Section Counting.
Context `{RT : Runtime}.


End Counting.


End Interaction.

(** ** interaction.py: starting, stopping, and the initiation loop *)

Module Lifecycle.
Import Store Elo Interaction.

(** [SettingsManager.set("persona_active", value)]: the value changes in
    memory whether or not the settings file could be written. *)
Definition set_persona_active (cfg : settings) (value : bool) : settings :=
  {| persona_active := value;
     group_reply_frequency_n := group_reply_frequency_n cfg;
     ai_detection_cooldown_hours := ai_detection_cooldown_hours cfg;
     excluded_chats := excluded_chats cfg;
     priority_initiation_chats := priority_initiation_chats cfg;
     generic_error_replies := generic_error_replies cfg;
     persona_base_instructions := persona_base_instructions cfg |}.

Definition set_running (self : engine) (value : bool) : engine :=
  {| _is_running := value; _me_id := _me_id self;
     _admin_id := _admin_id self;
     _group_message_counters := _group_message_counters self;
     _ai_detection_counters := _ai_detection_counters self;
     _cooldown_until := _cooldown_until self;
     _last_initiated_time := _last_initiated_time self |}.

Definition set_me_id (self : engine) (user_id : Z) : engine :=
  {| _is_running := _is_running self; _me_id := Some user_id;
     _admin_id := _admin_id self;
     _group_message_counters := _group_message_counters self;
     _ai_detection_counters := _ai_detection_counters self;
     _cooldown_until := _cooldown_until self;
     _last_initiated_time := _last_initiated_time self |}.

(** [is_active] *)
Definition is_active (cfg : settings) : bool := persona_active cfg.

(** [start_persona]: the engine and the settings afterwards.  The task it
    creates runs [_initiation_loop]. *)
Definition start_persona (self : engine) (cfg : settings)
  : engine * settings :=
  if _is_running self then (self, cfg)
  else
    match _me_id self with
    | None => (self, set_persona_active cfg false)
    | Some me =>
        if (me =? 0)%Z then (self, set_persona_active cfg false)
        else (set_running self true, set_persona_active cfg true)
    end.

(** [set_client_ready]; the key ["telethon_user_id"] it also sets is not
    read by the engine. *)
Definition set_client_ready (self : engine) (cfg : settings) (user_id : Z)
  : engine * settings :=
  let self1 := set_me_id self user_id in
  if is_active cfg then start_persona self1 cfg else (self1, cfg).

(** [stop_persona], with its early return and the setting it clears. *)
Definition stop_persona (self : engine) (cfg : settings)
  : engine * settings :=
  if negb (_is_running self) && negb (is_active cfg) then (self, cfg)
  else (Interaction.stop_persona self, set_persona_active cfg false).

(** A dialog as [client.iter_dialogs] yields it. *)
Record dialog : Type := Dialog {
  dialog_id : Z;
  is_user : bool;
  has_entity : bool;      (* dialog.entity is not None *)
  entity_bot : bool       (* dialog.entity.bot *)
}.

(** The test of the loop on one dialog, [now] being the clock reading
    taken for it. *)
Definition eligible (self : engine) (cfg : settings) (d : dialog) (now : Z)
  : bool :=
  bool_decide (Some (dialog_id d) <> _me_id self)
  && is_user d && has_entity d && negb (entity_bot d)
  && bool_decide (dialog_id d ∉ excluded_chats cfg)
  && match _cooldown_until self !! dialog_id d with
     | None => true
     | Some until => (until <=? now)%Z
     end.

(** [eligible_chats] after the iteration over the dialogs. *)
Definition eligible_chats (self : engine) (cfg : settings)
    (dialogs : list (dialog * Z)) : list Z :=
  (fun item => dialog_id item.1)
    <$> filter (fun item => eligible self cfg item.1 item.2 = true) dialogs.

Section WithRuntime.
Context `{RT : Runtime}.

(** One turn of the loop of [_initiation_loop], after its sleep: the
    engine, the calculator and the calls made.  [dialogs] is what the
    iteration over the dialogs yields, each dialog with the clock reading
    taken for it, or the exception that ends the iteration.  The length of
    the sleep is drawn anew on the way; it plays no part here. *)
Definition initiation_round (self : engine) (calc : calculator)
    (cfg : settings) (w : world) (dialogs : py (list (dialog * Z)))
  : engine * calculator * list effect :=
  if negb (_is_running self) || negb (is_active cfg) then (self, calc, [])
  else
    match dialogs with
    | Raise _ => (self, calc, [])
    | Return listed =>
        match eligible_chats self cfg listed with
        | [] => (self, calc, [])
        | chats =>
            match _get_base_instructions cfg with
            | None => (self, calc, [])
            | Some base_instructions =>
                let '(top_chat_id, calc1) :=
                  get_top_chat_for_initiation cfg (files w) calc chats
                    (Some base_instructions) in
                let '(self1, effects) :=
                  match top_chat_id with
                  | Some top =>
                      if (top =? 0)%Z then (self, [])
                      else _try_initiate_conversation self cfg w top
                             base_instructions
                  | None => (self, [])
                  end in
                (self1, clear_cache calc1, effects)
            end
        end
    end.

(** [_initiation_loop] over the turns it gets to make, each with its
    world and its dialogs. *)
Fixpoint _initiation_loop (self : engine) (calc : calculator)
    (cfg : settings) (turns : list (world * py (list (dialog * Z))))
  : engine * calculator * list (list effect) :=
  match turns with
  | [] => (self, calc, [])
  | (w, dialogs) :: rest =>
      if _is_running self then
        let '(self1, calc1, effects) :=
          initiation_round self calc cfg w dialogs in
        let '(self2, calc2, trace) := _initiation_loop self1 calc1 cfg rest in
        (self2, calc2, effects :: trace)
      else (self, calc, [])
  end.

End WithRuntime.

End Lifecycle.


(** ** data_collector.py: what is made of a message of Telegram *)

Module Collector.
Import Store.

(** [message.peer_id], and the peers of a forward header. *)
Inductive peer : Set :=
| PeerUser (user_id : Z)
| PeerChannel (channel_id : Z)
| PeerChat (group_id : Z).

(** [fwd.user_id if isinstance(fwd, PeerUser) else fwd.channel_id if
    isinstance(fwd, PeerChannel) else fwd.chat_id] *)
Definition peer_number (p : peer) : Z :=
  match p with
  | PeerUser user_id => user_id
  | PeerChannel channel_id => channel_id
  | PeerChat group_id => group_id
  end.

(** [message.forward], when the message is a forward. *)
Record forward_header : Set := ForwardHeader {
  from_id : option peer;
  forward_chat : option Z;        (* forward.chat.id *)
  from_name : pystr;              (* empty when it is None *)
  saved_from_peer : option peer
}.

(** [message.sender], as far as its class and its id go. *)
Inductive entity : Set :=
| UserEntity (entity_id : Z)
| ChatEntity (entity_id : Z)
| ChannelEntity (entity_id : Z).

(** A [Message] of Telethon, with the attributes the collector reads.
    [tg_media] is none without media, and otherwise the [ttl_seconds] of
    the media, if it has one. *)
Record tl_message : Set := TlMessage {
  tg_id : Z;
  tg_sender_id : option Z;
  tg_peer_id : option peer;
  tg_sender : option entity;
  tg_text : pystr;                (* empty when there is none *)
  tg_photo : bool;
  tg_video : bool;
  tg_voice : bool;
  tg_media : option (option Z);
  tg_forward : option forward_header;
  tg_date : Z;
  tg_reply_to_msg_id : option Z
}.

(** [_get_sender_info], [me_id] being what [_get_me_id] returned. *)
Definition _get_sender_info (me_id : Z) (message : tl_message)
  : pystr * option Z :=
  let without_sender_id :=
    match tg_sender message with
    | Some (ChatEntity entity_id) | Some (ChannelEntity entity_id) =>
        (u "Peer_" ++ str_of_int entity_id, Some entity_id)
    | Some (UserEntity _) | None => (u "Unknown", None)
    end in
  match tg_sender_id message with
  | Some sender_id =>
      if (sender_id =? 0)%Z then without_sender_id
      else if (sender_id =? me_id)%Z then (u "You", Some sender_id)
      else
        match tg_peer_id message with
        | Some (PeerUser _) => (u "Contact", Some sender_id)
        | Some (PeerChat _) | Some (PeerChannel _) =>
            match tg_sender message with
            | Some (UserEntity _) =>
                (u "User_" ++ str_of_int sender_id, Some sender_id)
            | Some (ChannelEntity _) =>
                (u "Channel_" ++ str_of_int sender_id, Some sender_id)
            | Some (ChatEntity _) | None =>
                (u "Peer_" ++ str_of_int sender_id, Some sender_id)
            end
        | None => (u "Sender_" ++ str_of_int sender_id, Some sender_id)
        end
  | None => without_sender_id
  end.

(** The [source_info] of a forward. *)
Definition forward_source_info (forward : forward_header) : pystr :=
  if truthy_str (from_name forward) then from_name forward
  else
    match from_id forward with
    | Some fwd_from => u "Peer_" ++ str_of_int (peer_number fwd_from)
    | None =>
        match forward_chat forward with
        | Some fwd_chat => u "Peer_" ++ str_of_int fwd_chat
        | None =>
            match saved_from_peer forward with
            | Some saved => u "Peer_" ++ str_of_int (peer_number saved)
            | None => u "Unknown Forward Source"
            end
        end
    end.

(** The [stats] of [_format_message_data]: a 1 under each kind the message
    is of. *)
Definition message_stats (message : tl_message) : gmap string stat :=
  let mark (key : string) (hit : bool) (stats : gmap string stat) :=
    if hit then <[key := Count 1]> stats else stats in
  mark "other_media"
    (bool_decide (is_Some (tg_media message))
     && negb (tg_photo message || tg_video message || tg_voice message)
     && (truthy_str (tg_text message)
         || bool_decide (tg_media message = Some None)))
    (mark "voice" (tg_voice message)
       (mark "video" (tg_video message)
          (mark "photo" (tg_photo message)
             (mark "text" (truthy_str (tg_text message)) zero_stats)))).

(** [_format_message_data]: the record to store, if the message is to be
    stored, and the stats. *)
Definition _format_message_data (message : tl_message) (sender_type : pystr)
  : option Store.message * gmap string stat :=
  let stats := message_stats message in
  let is_text := truthy_str (tg_text message) in
  let is_photo := tg_photo message in
  let forwarded := bool_decide (is_Some (tg_forward message)) in
  let should_store := is_text || is_photo || forwarded in
  if negb should_store then (None, stats)
  else
    (Some {| message_id := Some (tg_id message);
             sender := sender_type;
             timestamp := At (tg_date message);
             text := tg_text message;
             is_forward := forwarded;
             forward_source := forward_source_info <$> tg_forward message;
             reply_to_message_id := tg_reply_to_msg_id message;
             media_attached := bool_decide (is_Some (tg_media message));
             photo_attached := is_photo |},
     stats).

(** The count a dict of stats holds under a key. *)
Definition stat_count (stats : gmap string stat) (key : string) : Z :=
  match stats !! key with Some (Count n) => n | _ => 0%Z end.

End Collector.


(** ** Sample data for the examples *)

Module Samples.
Import Store Elo.

(** Base instructions that end in the marker and two interests. *)
Definition instructions : pystr :=
  u "Style: short. " ++ INTERESTS_MARKER ++ u " Music, cats".

Definition cfg : settings :=
  {| persona_active := true;
     group_reply_frequency_n := 50;
     ai_detection_cooldown_hours := {[ "min" := 2%Z; "max" := 24%Z ]};
     excluded_chats := [13%Z];
     priority_initiation_chats := [5%Z; 9%Z];
     generic_error_replies := [u "lol"; u "))"];
     persona_base_instructions := Some instructions |}.

(** Thread 7 after three appends, thread 8 with a file that does not
    decode, thread 11 with counters but no stored message, thread 12 with
    a counter that is not a number; no file for the others. *)
Definition files (cid : Z) : file_state :=
  if (cid =? 7)%Z then
    appends 7 NoFile
      [(Some (text_message 1 (u "Contact") (u "I like MUSIC, cats and music") 0),
        Saved);
       (Some (text_message 2 (u "You") (u "music is fine") 60000000), Saved);
       (Some (photo_message 3 (u "Contact") 120000000), Saved)]
  else if (cid =? 8)%Z then FileWith (Raise JSONDecodeError)
  else if (cid =? 11)%Z then
    FileWith (Return (Object
      {| chat_id := Some 11%Z; chat_title := Some (u "Eleven");
         aggregated_stats := Present {[ "text" := Count 3 ]};
         messages := Present [] |}))
  else if (cid =? 12)%Z then
    FileWith (Return (Object
      {| chat_id := Some 12%Z; chat_title := Some (u "Twelve");
         aggregated_stats := Present {[ "text" := NotANumber ]};
         messages := Present [text_message 1 (u "Contact") (u "hi") 0] |}))
  else NoFile.

(** The engine of a running persona whose own id is 1 and whose admin
    is 99. *)
Definition engine0 : Interaction.engine :=
  {| Interaction._is_running := true;
     Interaction._me_id := Some 1%Z;
     Interaction._admin_id := 99%Z;
     Interaction._group_message_counters := ∅;
     Interaction._ai_detection_counters := ∅;
     Interaction._cooldown_until := ∅;
     Interaction._last_initiated_time := ∅ |}.

(** A world at the instant [now] (in microseconds) where the provider
    answers [answer] to every call, the transport delivers, and the random
    draws are one half and 0. *)
Definition world_at (now : Z) (answer : Interaction.attempt)
  : Interaction.world :=
  {| Interaction.now_utc := now;
     Interaction.now_cooldown := now;
     Interaction.now_quiet := now;
     Interaction.now_spacing := now;
     Interaction.now_sent := now;
     Interaction.random_unit := 1 # 2;
     Interaction.random_index := 0;
     Interaction.provider_denial := fun _ => answer;
     Interaction.provider := fun _ => answer;
     Interaction.resolves := true;
     Interaction.delivery_outcome := Interaction.Delivered 1000 now;
     Interaction.download_ok := true;
     Interaction.permit := true;
     Interaction.notify_ok := true;
     Interaction.files := files |}.

(** "Ты бот?" from the contact 2 in the private thread [cid]. *)
Definition accusation (cid msg_id : Z) : Interaction.incoming :=
  {| Interaction.ev_chat_id := cid;
     Interaction.ev_message_id := msg_id;
     Interaction.ev_sender_id := Some 2%Z;
     Interaction.ev_text := [1058; 1099; 32; 1073; 1086; 1090; 63]%N;
     Interaction.ev_photo := false;
     Interaction.ev_is_group := false |}.

(** An ordinary text from the same contact. *)
Definition greeting (cid msg_id : Z) : Interaction.incoming :=
  {| Interaction.ev_chat_id := cid;
     Interaction.ev_message_id := msg_id;
     Interaction.ev_sender_id := Some 2%Z;
     Interaction.ev_text := u "hello";
     Interaction.ev_photo := false;
     Interaction.ev_is_group := false |}.



(** The settings without base instructions, and without canned replies. *)
Definition cfg_without_instructions : settings :=
  {| persona_active := true;
     group_reply_frequency_n := 50;
     ai_detection_cooldown_hours := {[ "min" := 2%Z; "max" := 24%Z ]};
     excluded_chats := [13%Z];
     priority_initiation_chats := [5%Z; 9%Z];
     generic_error_replies := [u "lol"; u "))"];
     persona_base_instructions := None |}.

Definition cfg_without_replies : settings :=
  {| persona_active := true;
     group_reply_frequency_n := 50;
     ai_detection_cooldown_hours := {[ "min" := 2%Z; "max" := 24%Z ]};
     excluded_chats := [13%Z];
     priority_initiation_chats := [5%Z; 9%Z];
     generic_error_replies := [];
     persona_base_instructions := Some instructions |}.



(** The world of [world_at] in which no chat resolves. *)
Definition world_offline (now : Z) (answer : Interaction.attempt)
  : Interaction.world :=
  {| Interaction.now_utc := now;
     Interaction.now_cooldown := now;
     Interaction.now_quiet := now;
     Interaction.now_spacing := now;
     Interaction.now_sent := now;
     Interaction.random_unit := 1 # 2;
     Interaction.random_index := 0;
     Interaction.provider_denial := fun _ => answer;
     Interaction.provider := fun _ => answer;
     Interaction.resolves := false;
     Interaction.delivery_outcome := Interaction.Delivered 1000 now;
     Interaction.download_ok := true;
     Interaction.permit := true;
     Interaction.notify_ok := true;
     Interaction.files := files |}.


End Samples.

(** * Theorems *)

(** ** The conversation store *)

Section StoreFacts.
Import Store.

Lemma isinstance_Exception e : isinstance e CException = true.
Proof. by destruct e. Qed.

Lemma zero_stats_lookup key :
  key ∈ STATS_KEYS -> zero_stats !! key = Some (Count 0).
Proof.
  unfold STATS_KEYS, zero_stats. rewrite !elem_of_cons, elem_of_nil.
  intros H; simpl.
  repeat (destruct H as [-> | H]; [by simplify_map_eq |]). done.
Qed.

(** The repair loop of [load_chat_history] only adds keys. *)
Lemma fill_missing_keys keys (s : gmap string stat) key :
  let fill := foldl (fun s key =>
                       match s !! key with
                       | None => <[key := Count 0]> s
                       | Some _ => s
                       end) in
  (is_Some (s !! key) -> fill s keys !! key = s !! key) /\
  (key ∈ keys -> is_Some (fill s keys !! key)) /\
  (s !! key = None -> key ∈ keys -> fill s keys !! key = Some (Count 0)).
Proof.
  simpl. revert s. induction keys as [|k keys IH]; intros s; simpl.
  - split; [done|]. split; intros; exfalso; by eapply not_elem_of_nil.
  - destruct (s !! k) as [v|] eqn:Hk.
    + destruct (IH s) as (IH1 & IH2 & IH3). split; [done|]. split.
      * intros [->|Hin]%elem_of_cons; [|by auto].
        rewrite IH1; rewrite Hk; eauto.
      * intros Hnone [->|Hin]%elem_of_cons; [congruence | by auto].
    + destruct (IH (<[k := Count 0]> s)) as (IH1 & IH2 & IH3).
      split; [|split].
      * intros Hs. destruct (decide (k = key)) as [->|Hne].
        { rewrite Hk in Hs. by destruct Hs. }
        rewrite IH1; rewrite lookup_insert_ne by done; done.
      * intros [->|Hin]%elem_of_cons; [|by auto].
        rewrite IH1; rewrite lookup_insert_eq; eauto.
      * intros Hnone [->|Hin]%elem_of_cons.
        { rewrite IH1; rewrite lookup_insert_eq; eauto. }
        destruct (decide (k = key)) as [->|Hne].
        { rewrite IH1; rewrite lookup_insert_eq; eauto. }
        apply IH3; [by rewrite lookup_insert_ne | done].
Qed.

Lemma validate_well_formed cid data d :
  validate cid data = Return d -> well_formed d.
Proof.
  destruct data as [| |d0]; simpl; try discriminate.
  intros [= <-]. unfold well_formed; simpl. split_and!.
  - destruct (chat_id d0); eauto.
  - destruct (chat_title d0); eauto.
  - eexists; split; [done|]. intros key Hkey.
    by apply (fill_missing_keys STATS_KEYS _ key).
  - eauto.
Qed.

Lemma default_structure_well_formed cid t :
  well_formed (default_structure cid) /\
  well_formed (with_title (default_structure cid) t) /\
  is_empty_record cid (with_title (default_structure cid) t) /\
  is_empty_record cid (default_structure cid).
Proof.
  unfold well_formed, is_empty_record; simpl. split_and!; eauto.
  - eexists; split; [done|]. intros key Hk. rewrite zero_stats_lookup; eauto.
  - eexists; split; [done|]. intros key Hk. rewrite zero_stats_lookup; eauto.
  - eexists; split; [done|]. apply zero_stats_lookup.
  - eexists; split; [done|]. apply zero_stats_lookup.
Qed.

(** Reading or decoding failed: the default record under the title of
    the error. *)
Lemma load_chat_history_unreadable cid e :
  load_chat_history cid (FileWith (Raise e))
  = Return (with_title (default_structure cid)
              (u "Error Loading Chat " ++ str_of_int cid)).
Proof. by destruct e. Qed.

(** Whatever the file, [load_chat_history] returns, and what it returns
    has the shape its callers rely on. *)
Lemma load_chat_history_returns cid fs :
  exists d, load_chat_history cid fs = Return d /\ well_formed d.
Proof.
  destruct fs as [|[v|e]].
  - eexists; split; [done|]. apply (default_structure_well_formed cid []).
  - unfold load_chat_history; cbn [try_ mbind py_bind].
    destruct (validate cid v) as [d|e] eqn:Hv; cbn.
    + eexists; split; [done|]. by eapply validate_well_formed.
    + eexists; split; [by destruct e|].
      apply default_structure_well_formed.
  - rewrite load_chat_history_unreadable. eexists; split; [done|].
    apply default_structure_well_formed.
Qed.

(** C6.  [load_chat_history] never raises.  With no file it returns the
    default record (no messages, all counters zero, title "Unknown Chat
    <id>"); when reading or decoding the file raises (malformed JSON or an
    unreadable file), and when the file holds a JSON value that is not an
    object, it returns the default record under the title "Error Loading
    Chat <id>"; whatever the file, the record returned has the four keys,
    a dict of counters with every key of [STATS_KEYS], and a list of
    messages. *)
Theorem load_chat_history_never_raises (cid : Z) :
  load_chat_history cid NoFile = Return (default_structure cid) /\
  is_empty_record cid (default_structure cid) /\
  (forall e,
     load_chat_history cid (FileWith (Raise e))
     = Return (with_title (default_structure cid)
                 (u "Error Loading Chat " ++ str_of_int cid))) /\
  load_chat_history cid (FileWith (Return JsonNull))
  = Return (with_title (default_structure cid)
              (u "Error Loading Chat " ++ str_of_int cid)) /\
  load_chat_history cid (FileWith (Return JsonOther))
  = Return (with_title (default_structure cid)
              (u "Error Loading Chat " ++ str_of_int cid)) /\
  (forall fs, exists d, load_chat_history cid fs = Return d /\ well_formed d).
Proof.
  split_and!; try done.
  - apply (default_structure_well_formed cid []).
  - apply load_chat_history_unreadable.
  - apply load_chat_history_returns.
Qed.

Lemma count_where_snoc P l m :
  count_where P (l ++ [m]) = (count_where P l + (if P m then 1 else 0))%Z.
Proof.
  unfold count_where. rewrite filter_app, length_app.
  rewrite Nat2Z.inj_add. f_equal.
  rewrite filter_cons, filter_nil. by destruct (P m); case_decide.
Qed.

Lemma id_occurs_spec l z : id_occurs l z = true <-> z ∈ ids_of l.
Proof.
  unfold id_occurs, ids_of. rewrite existsb_exists, list_elem_of_omap.
  split.
  - intros (m & Hin & Hm). apply bool_decide_eq_true in Hm.
    exists m. split; [by apply list_elem_of_In | done].
  - intros (m & Hin & Hm). exists m.
    split; [by apply list_elem_of_In | by apply bool_decide_eq_true].
Qed.

Lemma checked_ids_snoc l m :
  checked_ids (l ++ [m])
  = checked_ids l ++
    match message_id m with
    | Some z => if (0 <? z)%Z then [z] else []
    | None => []
    end.
Proof.
  unfold checked_ids, ids_of. rewrite omap_app, filter_app. f_equal.
  simpl. destruct (message_id m) as [z|]; [|done].
  rewrite filter_cons, filter_nil.
  destruct (Z.ltb_spec 0 z); case_decide; done || lia.
Qed.

Lemma bump_counter key stats stats' :
  bump key stats = Return stats' ->
  exists s n,
    stats = Present s /\
    (s !! key = Some (Count n) \/ s !! key = None /\ n = 0%Z) /\
    stats' = Present (<[key := Count (n + 1)]> s).
Proof.
  destruct stats as [| |s]; simpl; try discriminate.
  destruct (s !! key) as [[n|]|] eqn:Hk; simpl; try discriminate.
  - intros [= <-]. exists s, n. eauto.
  - intros [= <-]. exists s, 0%Z. eauto.
Qed.

(** One change in memory: the message goes to the end, its positive id was
    not there, and the two counters follow. *)
Lemma append_in_memory_spec md d d' :
  append_in_memory md (Object d) = Return (Some d') ->
  doc_messages d' = doc_messages d ++ [md] /\
  (forall z, message_id md = Some z -> (0 < z)%Z ->
             z ∉ ids_of (doc_messages d)) /\
  doc_counter d' "text"
  = (doc_counter d "text" + if has_text md then 1 else 0)%Z /\
  doc_counter d' "photo"
  = (doc_counter d "photo" + if photo_attached md then 1 else 0)%Z /\
  (forall key, key <> "text"%string -> key <> "photo"%string ->
               doc_counter d' key = doc_counter d key) /\
  chat_id d' = chat_id d /\ chat_title d' = chat_title d.
Proof.
  unfold append_in_memory, doc_messages, doc_counter, has_text.
  destruct d as [ci ct st ms]; simpl.
  set (dup := match message_id md with
              | Some msg_id => _
              | None => _
              end).
  destruct dup as [[|]|e] eqn:Hdup; simpl; try discriminate.
  assert (Hfresh : forall z, message_id md = Some z -> (0 < z)%Z ->
                    z ∉ ids_of match ms with Present l => l | _ => [] end).
  { intros z Hz Hpos Hin. subst dup. rewrite Hz in Hdup.
    destruct (Z.ltb_spec 0 z); [|lia].
    destruct ms as [| |l]; simpl in *; try discriminate.
    - by apply not_elem_of_nil in Hin.
    - apply id_occurs_spec in Hin. congruence. }
  clear Hdup dup.
  destruct ms as [| |l]; simpl; try discriminate.
  all: destruct st as [| |s]; simpl.
  all: destruct (truthy_str (text md)) eqn:Ht;
       destruct (photo_attached md) eqn:Hp; simpl;
       try discriminate.
  all: repeat match goal with
       | |- context [default (Count 0) (?m !! ?k)] =>
           let H := fresh "Hk" in
           destruct (m !! k) as [[?|]|] eqn:H; simpl; try discriminate
       end.
  all: intros [= <-]; simpl; split_and!; try done.
  all: try (intros key Hne1 Hne2).
  all: unfold zero_stats, STATS_KEYS in *; simpl in *.
  all: simplify_map_eq; try done; try lia.
  all: repeat match goal with
       | |- context [<[?k := _]> _ !! ?key] =>
           destruct (decide (k = key)); simplify_map_eq
       end; done.
Qed.

Lemma append_in_memory_invariant md d d' :
  append_in_memory md (Object d) = Return (Some d') ->
  doc_invariant d -> doc_invariant d'.
Proof.
  intros (Hm & Hfresh & Ht & Hp & _)%append_in_memory_spec (Hnd & Hct & Hcp).
  unfold doc_invariant. rewrite Hm, Ht, Hp, !count_where_snoc, Hct, Hcp.
  split_and!; try done.
  rewrite checked_ids_snoc.
  destruct (message_id md) as [z|] eqn:Hz; [|by rewrite app_nil_r].
  destruct (Z.ltb_spec 0 z); [|by rewrite app_nil_r].
  apply NoDup_app. split_and!; [done| |apply NoDup_singleton].
  intros x Hx Hx'. apply list_elem_of_singleton in Hx'. subst x.
  apply (Hfresh z); [done..|].
  unfold checked_ids in Hx. by apply list_elem_of_filter in Hx as [_ ?].
Qed.

Lemma default_structure_invariant cid t :
  doc_invariant (default_structure cid) /\
  doc_invariant (with_title (default_structure cid) t).
Proof. unfold doc_invariant; simpl. split; split_and!; done || constructor. Qed.

Lemma store_invariant_document fs :
  store_invariant fs <->
  match stored_document fs with Some d => doc_invariant d | None => True end.
Proof.
  unfold store_invariant, stored_messages, stored_counter, doc_invariant.
  destruct (stored_document fs); simpl; [done|].
  split; [done|]. intros _. split_and!; done || constructor.
Qed.

Lemma write_file_invariant fs d w :
  store_invariant fs -> doc_invariant d -> store_invariant (write_file fs d w).
Proof.
  intros Hfs Hd. destruct w; simpl; [|done|].
  - by apply store_invariant_document.
  - by apply store_invariant_document.
Qed.

(** What one append does to the file: nothing, or it writes the change made
    in memory to the default structure (no file), to the structure used
    after a decoding error, or to the stored document. *)
Lemma append_message_cases cid fs md w :
  (append_message_to_history cid fs (Some md) w).1 = fs \/
  exists d0 d',
    (fs = NoFile /\ d0 = default_structure cid \/
     fs = FileWith (Raise JSONDecodeError) /\ d0 = corrupted_structure cid \/
     fs = FileWith (Return (Object d0))) /\
    append_in_memory md (Object d0) = Return (Some d') /\
    append_message_to_history cid fs (Some md) w
    = (write_file fs d' w, Return tt).
Proof.
  unfold append_message_to_history.
  destruct fs as [|[[| |d]|e]]; cbn [try_ mbind py_bind].
  - destruct (append_in_memory md (Object (default_structure cid)))
      as [[d'|]|e] eqn:Ha; cbn; eauto 10.
  - by left.
  - by left.
  - destruct (append_in_memory md (Object d)) as [[d'|]|e] eqn:Ha;
      cbn; eauto 10.
  - destruct e; cbn [isinstance]; try by left.
    destruct (append_in_memory md (Object (corrupted_structure cid)))
      as [[d'|]|e'] eqn:Ha; cbn; eauto 10.
Qed.

(** One append keeps the invariant, whatever the file held and however the
    write ends. *)
Lemma append_message_invariant cid fs message_data w :
  store_invariant fs ->
  store_invariant (append_message_to_history cid fs message_data w).1.
Proof.
  intros Hfs. destruct message_data as [md|]; [|done].
  destruct (append_message_cases cid fs md w)
    as [-> | (d0 & d' & Hd0 & Ha & ->)]; [done|].
  cbn [fst]. apply write_file_invariant; [done|].
  eapply append_in_memory_invariant; [done|].
  destruct Hd0 as [[_ ->] | [[_ ->] | ->]].
  - apply (default_structure_invariant cid []).
  - apply default_structure_invariant.
  - by apply store_invariant_document in Hfs.
Qed.

Lemma zero_stats_value key v : zero_stats !! key = Some v -> v = Count 0.
Proof.
  unfold zero_stats, STATS_KEYS; simpl. intros H.
  repeat (apply lookup_insert_Some in H as [[_ <-]|[_ H]]; [done|]).
  by rewrite lookup_empty in H.
Qed.

Lemma zero_stats_counter cid key :
  doc_counter (default_structure cid) key = 0%Z /\
  doc_counter (corrupted_structure cid) key = 0%Z.
Proof.
  unfold doc_counter; cbn [aggregated_stats default_structure
                           corrupted_structure with_title].
  destruct (zero_stats !! key) as [v|] eqn:Hz; [|done].
  by apply zero_stats_value in Hz as ->.
Qed.

Lemma store_invariant_NoFile : store_invariant NoFile.
Proof. split_and!; done || constructor. Qed.

Lemma append_message_other_counters cid fs message_data w key :
  key <> "text"%string -> key <> "photo"%string ->
  let fs' := (append_message_to_history cid fs message_data w).1 in
  stored_counter fs' key = stored_counter fs key \/
  stored_counter fs' key = 0%Z.
Proof.
  intros Hk1 Hk2. destruct message_data as [md|]; [|by left].
  destruct (append_message_cases cid fs md w)
    as [-> | (d0 & d' & Hd0 & Ha & ->)]; [by left|].
  cbn [fst]. apply append_in_memory_spec in Ha as (_ & _ & _ & _ & Hother & _).
  specialize (Hother key Hk1 Hk2).
  destruct w; cbn; [|by left|by right].
  unfold stored_counter at 1; cbn. rewrite Hother.
  destruct Hd0 as [[-> ->] | [[-> ->] | ->]]; [right|right|by left].
  - apply (zero_stats_counter cid key).
  - apply (zero_stats_counter cid key).
Qed.

(** C2, as amended.  Whatever the thread's file holds, provided the stored
    record (if there is one) has no two messages with the same positive id
    and its text and photo counters agree with its messages: after any
    sequence of appends, each with any outcome of its write, the stored
    record still has no two messages with the same positive id, its text
    counter is the number of stored messages with non-empty text and its
    photo counter is the number of stored messages with [photo_attached];
    every other counter is what it was, or 0 after the record was started
    afresh.  Ids that are missing, zero or negative are not looked at. *)
Theorem appends_keep_store_invariant cid fs ops :
  store_invariant fs ->
  store_invariant (appends cid fs ops) /\
  forall key, key <> "text"%string -> key <> "photo"%string ->
    stored_counter (appends cid fs ops) key = stored_counter fs key \/
    stored_counter (appends cid fs ops) key = 0%Z.
Proof.
  unfold appends. revert fs.
  induction ops as [|[md w] ops IH]; intros fs Hfs; cbn [foldl fst snd].
  - split; [done|]. by left.
  - pose proof (append_message_invariant cid fs md w Hfs) as Hstep.
    destruct (IH _ Hstep) as [Hinv Hkeys]. split; [done|].
    intros key Hk1 Hk2.
    destruct (Hkeys key Hk1 Hk2) as [-> | ->]; [|by right].
    by apply append_message_other_counters.
Qed.

(** Three appends to a thread without a file: a text, the same id again,
    a photo. *)
Lemma appends_keep_store_invariant_witness :
  store_invariant NoFile /\
  store_invariant
    (appends 7 NoFile
       [(Some (text_message 1 (u "Contact") (u "hi") 0), Saved);
        (Some (text_message 1 (u "Contact") (u "hi") 0), Saved);
        (Some (photo_message 2 (u "Contact") 5), Saved)]).
Proof.
  split; [exact store_invariant_NoFile|].
  exact (proj1 (appends_keep_store_invariant 7 NoFile _ store_invariant_NoFile)).
Defined.

(** C2, as stated, fails: a message whose id is 0 passes the guard
    [if msg_id and msg_id > 0] unchecked, so appending it twice stores it
    twice. *)
Lemma appends_id_zero_stored_twice :
  ~ unique_ids
      (stored_messages
         (appends 7 NoFile
            [(Some (text_message 0 (u "Contact") (u "hi") 0), Saved);
             (Some (text_message 0 (u "Contact") (u "hi") 0), Saved)])).
Proof.
  unfold unique_ids. vm_compute. intros H.
  apply NoDup_cons in H as [H _]. apply H. by left.
Qed.

(** The duplicate check: a positive id that a stored message carries makes
    the coroutine return before it writes. *)
Lemma append_duplicate_returns_early cid fs md w z :
  message_id md = Some z -> (0 < z)%Z ->
  z ∈ ids_of (stored_messages fs) ->
  append_message_to_history cid fs (Some md) w = (fs, Return tt).
Proof.
  intros Hz Hpos Hin. unfold stored_messages in Hin.
  destruct fs as [|[[| |d]|e]]; cbn in Hin;
    try by apply not_elem_of_nil in Hin.
  unfold doc_messages in Hin.
  destruct d as [ci ct st [| |l]]; cbn in Hin;
    try by apply not_elem_of_nil in Hin.
  apply id_occurs_spec in Hin.
  unfold append_message_to_history, append_in_memory; cbn.
  rewrite Hz. destruct (Z.ltb_spec 0 z); [|lia]. cbn. by rewrite Hin.
Qed.

(** C7, as amended.  Appending a message whose id is positive and already
    carried by a stored message changes nothing: the coroutine returns
    before it writes, and the file is what it was. *)
Theorem append_known_positive_id_is_noop cid fs md w z :
  message_id md = Some z -> (0 < z)%Z ->
  z ∈ ids_of (stored_messages fs) ->
  append_message_to_history cid fs (Some md) w = (fs, Return tt) /\
  appends cid fs [(Some md, w)] = fs.
Proof.
  intros Hz Hpos Hin. unfold appends; cbn [foldl fst snd].
  by rewrite (append_duplicate_returns_early cid fs md w z).
Qed.

Lemma append_known_positive_id_is_noop_witness :
  let fs := appends 7 NoFile
              [(Some (text_message 5 (u "Contact") (u "hi") 0), Saved)] in
  append_message_to_history 7 fs
    (Some (text_message 5 (u "Contact") (u "hi again") 9)) Saved
  = (fs, Return tt).
Proof.
  cbv zeta.
  apply (append_known_positive_id_is_noop 7 _ _ Saved 5); [done|lia|].
  vm_compute. by left.
Defined.

(** C7, as stated, fails: the id 0 occurs in the stored record, and
    appending a message with that id changes the file. *)
Lemma append_id_zero_is_not_noop :
  let fs := appends 7 NoFile
              [(Some (text_message 0 (u "Contact") (u "hi") 0), Saved)] in
  0%Z ∈ ids_of (stored_messages fs) /\
  (append_message_to_history 7 fs
     (Some (text_message 0 (u "Contact") (u "hi") 0)) Saved).1 <> fs.
Proof.
  cbv zeta. split; [vm_compute; by left|].
  intros H. apply (f_equal (fun fs => length (stored_messages fs))) in H.
  vm_compute in H. discriminate.
Qed.

(** After a successful write of a message with a positive id, the same
    message is absorbed: [append] is idempotent on such messages. *)
Lemma append_twice_same_positive_id cid fs md w z :
  message_id md = Some z -> (0 < z)%Z ->
  let fs1 := (append_message_to_history cid fs (Some md) Saved).1 in
  (append_message_to_history cid fs1 (Some md) w).1 = fs1 \/
  fs1 = fs.
Proof.
  intros Hz Hpos.
  destruct (append_message_cases cid fs md Saved)
    as [-> | (d0 & d' & Hd0 & Ha & ->)]; [by right|].
  left. cbn [fst write_file].
  rewrite (append_duplicate_returns_early cid _ md w z); [done..|].
  apply append_in_memory_spec in Ha as (Hm & _).
  unfold stored_messages, ids_of; cbn. rewrite Hm, omap_app.
  apply elem_of_app; right. cbn. rewrite Hz. by left.
Qed.

(** A file whose object lacks keys, or has them with the wrong type, is
    repaired key by key: the messages and the title it has are kept, and
    the title of an error is not used. *)
Example load_chat_history_repairs_keys :
  load_chat_history 7
    (FileWith (Return (Object
       {| chat_id := None; chat_title := Some (u "Ann");
          aggregated_stats := Mistyped;
          messages := Present [text_message 1 (u "Contact") (u "hi") 0] |})))
  = Return {| chat_id := Some 7%Z; chat_title := Some (u "Ann");
              aggregated_stats := Present zero_stats;
              messages := Present [text_message 1 (u "Contact") (u "hi") 0] |}.
Proof. by vm_compute. Qed.

End StoreFacts.

(** ** The scoring engine *)

Section EloFacts.
Import Store Elo.
Context `{RT : Runtime}.

(** Nothing matches in an empty text, whatever the interest. *)
Lemma findall_count_nil lit : findall_count lit [] = 0%nat.
Proof. unfold findall_count. simpl. by unfold matches_here, boundary. Qed.

Lemma match_count_nil (persona_interests : gset pystr) :
  match_count persona_interests [] = 0%nat.
Proof.
  unfold match_count.
  induction (elements persona_interests) as [|i l IH]; [done|].
  rewrite fmap_cons. change (sum_list (?x :: ?l)) with (x + sum_list l)%nat.
  by rewrite findall_count_nil, IH.
Qed.

Lemma match_count_empty full_text : match_count ∅ full_text = 0%nat.
Proof. unfold match_count. by rewrite elements_empty. Qed.

Lemma Rmin_zero_bonus : Rmin 100 (5 * INR 0) = 0%R.
Proof. simpl. rewrite Rmult_0_r. apply Rmin_right. lra. Qed.

(** The early returns of [_calculate_interest_bonus] agree with the
    formula, so the function is the formula on every record whose messages
    are a list. *)
Lemma interest_bonus_is_formula (d : document) (msgs : list message)
    (persona_interests : gset pystr) :
  messages d = Present msgs ->
  _calculate_interest_bonus d persona_interests
  = Return (interest_bonus_formula persona_interests msgs).
Proof.
  intros Hm. unfold _calculate_interest_bonus, interest_bonus_formula, matches.
  rewrite Hm. case_decide as Hi.
  { subst. by rewrite match_count_empty, Rmin_zero_bonus. }
  destruct msgs as [|m msgs].
  { cbn. by rewrite match_count_nil, Rmin_zero_bonus. }
  destruct (contact_messages_text (m :: msgs)) as [|t ts] eqn:Ht.
  { cbn. by rewrite match_count_nil, Rmin_zero_bonus. }
  f_equal. unfold INTEREST_BONUS_PER_MATCH, MAX_INTEREST_BONUS.
  by rewrite Rmin_comm, Rmult_comm.
Qed.


(** *** [calculate_elo] *)

Lemma load_chat_history_loaded cid fs :
  load_chat_history cid fs = Return (loaded_record cid fs) /\
  well_formed (loaded_record cid fs).
Proof.
  unfold loaded_record.
  destruct (load_chat_history_returns cid fs) as (d & -> & Hd). done.
Qed.

Lemma loaded_record_shape cid fs :
  exists stats,
    aggregated_stats (loaded_record cid fs) = Present stats /\
    messages (loaded_record cid fs)
    = Present (doc_messages (loaded_record cid fs)).
Proof.
  destruct (load_chat_history_loaded cid fs) as [_ (_ & _ & Hs & Hm)].
  destruct Hs as (stats & Hs & _). destruct Hm as (l & Hm).
  exists stats. split; [done|]. unfold doc_messages. by rewrite Hm.
Qed.

Lemma history_term_formula weight (count : option stat) :
  match count with
  | None => true
  | Some (Count n) => (0 <=? n)%Z
  | Some NotANumber => false
  end = true ->
  history_term weight count
  = Return (weight * ln (IZR (match count with
                             | Some (Count n) => n
                             | _ => 0%Z
                             end + 1)))%R.
Proof.
  assert (Hln : (weight * ln (IZR (0 + 1)) = 0)%R).
  { change (0 + 1)%Z with 1%Z. rewrite ln_1. lra. }
  destruct count as [[n|]|]; cbn [history_term]; try done.
  - intros Hn%Z.leb_le. destruct (Z.ltb_spec 0 n); [done|].
    assert (n = 0%Z) as -> by lia. by rewrite Hln.
  - intros _. by rewrite Hln.
Qed.

(** On counters that are counts, [_calculate_history_score] is the weighted
    sum of logarithms. *)
Lemma history_score_is_formula (d : document) :
  counters_are_counts d = true ->
  _calculate_history_score d = Return (history_score_formula d).
Proof.
  unfold counters_are_counts, _calculate_history_score, history_score_formula,
    doc_counter.
  destruct (aggregated_stats d) as [| |stats]; try done.
  cbn [forallb HISTORY_SCORE_WEIGHTS]. rewrite !andb_true_iff.
  intros (H1 & H2 & H3 & H4 & H5 & _).
  case_decide as Hempty.
  { subst stats. rewrite !lookup_empty. change (0 + 1)%Z with 1%Z.
    rewrite ln_1. f_equal. lra. }
  cbn [foldl HISTORY_SCORE_WEIGHTS mbind py_bind].
  rewrite (history_term_formula _ _ H1). cbn [mbind py_bind].
  rewrite (history_term_formula _ _ H2). cbn [mbind py_bind].
  rewrite (history_term_formula _ _ H3). cbn [mbind py_bind].
  rewrite (history_term_formula _ _ H4). cbn [mbind py_bind].
  rewrite (history_term_formula _ _ H5). cbn [mbind py_bind].
  f_equal. lra.
Qed.

Lemma manual_boost_is_formula cfg cid :
  _get_manual_boost cfg cid = manual_boost_formula cfg cid.
Proof. done. Qed.

(** The state after the [try] block: untouched, or with the interests the
    call consulted. *)
Lemma elo_body_state cfg files self cid bi :
  (elo_body cfg files self cid bi).2 = self \/
  (elo_body cfg files self cid bi).2
  = {| _persona_interests := Some (effective_interests self bi);
       _elo_cache := _elo_cache self |}.
Proof.
  unfold elo_body, effective_interests, _get_persona_interests.
  destruct (load_chat_history cid (files cid)) as [d|e]; [|by left].
  destruct (messages d) as [| |[|m l]]; try by left.
  all: destruct (_calculate_history_score d); [|by left].
  all: destruct (_persona_interests self) as [i|] eqn:Hi; cbn.
  all: repeat case_match; simplify_eq/=; eauto.
  all: left; destruct self; cbn in *; by subst.
Qed.

(** What the [try] block evaluates to, through the record it loaded. *)
Lemma elo_body_value cfg files self cid bi :
  let d := loaded_record cid (files cid) in
  (elo_body cfg files self cid bi).1
  = match doc_messages d with
    | [] => Return (manual_boost_formula cfg cid)
    | _ :: _ =>
        history_score ← _calculate_history_score d;
        interest_bonus ←
          _calculate_interest_bonus d (effective_interests self bi);
        Return (history_score + interest_bonus
                + manual_boost_formula cfg cid)%R
    end.
Proof.
  cbv zeta. unfold elo_body, effective_interests.
  destruct (load_chat_history_loaded cid (files cid)) as [-> _].
  destruct (loaded_record_shape cid (files cid)) as (stats & Hs & ->).
  destruct (doc_messages (loaded_record cid (files cid))) as [|m l]; [done|].
  destruct (_calculate_history_score _) as [h|e]; [|done].
  destruct (_get_persona_interests self bi) as [i self1]; cbn.
  by destruct (_calculate_interest_bonus _ i).
Qed.

(** C4, as amended.  On a cache miss and with counters that are counts:
    for a record with at least one stored message the score is
    [historyScore + interestBonus + manualBoost], with [historyScore] the
    sum over the five kinds of [weight * ln(count + 1)] under the weights
    0.5, 1.0, 1.2, 1.5 and 0.2, [interestBonus] the clamped bonus for the
    interests the call consults, and [manualBoost] 500 for a thread of the
    priority list and 0 otherwise; for a record without stored messages
    the score is [manualBoost] alone, whatever its counters say. *)
Theorem calculate_elo_formula cfg files self cid bi :
  _elo_cache self !! cid = None ->
  counters_are_counts (loaded_record cid (files cid)) = true ->
  let d := loaded_record cid (files cid) in
  (calculate_elo cfg files self cid bi).1
  = Return (match doc_messages d with
            | [] => manual_boost_formula cfg cid
            | _ :: _ =>
                history_score_formula d
                + interest_bonus_formula (effective_interests self bi)
                    (doc_messages d)
                + manual_boost_formula cfg cid
            end)%R.
Proof.
  intros Hmiss Hcounts d. unfold calculate_elo. rewrite Hmiss.
  pose proof (elo_body_value cfg files self cid bi) as Hv. cbv zeta in Hv.
  destruct (elo_body cfg files self cid bi) as [r self1]. cbn [fst] in Hv.
  subst r. fold d.
  destruct (loaded_record_shape cid (files cid)) as (stats & Hs & Hm).
  fold d in Hs, Hm.
  destruct (doc_messages d) as [|m l] eqn:Hd; [done|].
  rewrite (history_score_is_formula d Hcounts). cbn [mbind py_bind].
  rewrite (interest_bonus_is_formula d (m :: l)) by done. done.
Qed.

(** *** [clear_cache] *)


(** A calculator that has parsed a set keeps it, whatever instructions it
    is given later. *)
Lemma effective_interests_kept (self : calculator) bi parsed :
  _persona_interests self = Some parsed ->
  effective_interests self bi = parsed.
Proof. unfold effective_interests, _get_persona_interests. by intros ->. Qed.



(** *** [get_top_chat_for_initiation] *)

Lemma elo_value_unfold cfg files self bi cid :
  elo_value cfg files self bi cid
  = match _elo_cache self !! cid with
    | Some cached => cached
    | None =>
        match (elo_body cfg files self cid bi).1 with
        | Return r => r
        | Raise e =>
            if isinstance e CFileNotFoundError
            then _get_manual_boost cfg cid else 0%R
        end
    end.
Proof.
  unfold elo_value, calculate_elo.
  destruct (_elo_cache self !! cid); [done|].
  destruct (elo_body cfg files self cid bi) as [[r|e] self1]; [done|].
  by destruct e.
Qed.

(** [calculate_elo] never lets an exception out. *)
Lemma calculate_elo_returns cfg files self cid bi :
  (calculate_elo cfg files self cid bi).1
  = Return (elo_value cfg files self bi cid).
Proof.
  unfold elo_value, calculate_elo.
  destruct (_elo_cache self !! cid); [done|].
  destruct (elo_body cfg files self cid bi) as [[r|e] self1]; [done|].
  by destruct e.
Qed.

Lemma history_score_failure d e :
  _calculate_history_score d = Raise e -> e = TypeError \/ e = AttributeError.
Proof.
  unfold _calculate_history_score.
  destruct (aggregated_stats d) as [| |stats]; try done.
  { intros [= <-]. by right. }
  case_decide; [done|].
  assert (Hfold : forall ws acc,
    (forall e', acc = Raise e' -> e' = TypeError) ->
    foldl (fun acc '(key, weight) =>
             score ← acc;
             term_score ← history_term weight (stats !! key);
             Return (score + term_score)%R) acc ws = Raise e ->
    e = TypeError).
  { induction ws as [|[key w] ws IH]; intros acc Hacc; cbn [foldl].
    - apply Hacc.
    - apply IH. intros e'. destruct acc as [r|e0]; cbn.
      + unfold history_term.
        destruct (stats !! key) as [[n|]|]; cbn;
          try destruct (0 <? n)%Z; cbn; try done.
        by intros [= <-].
      + intros [= <-]. by apply Hacc. }
  intros Hr. left. by apply (Hfold HISTORY_SCORE_WEIGHTS (Return 0%R)).
Qed.

Lemma interest_bonus_failure (d : document) (interests : gset pystr)
    (e : exn) :
  _calculate_interest_bonus d interests = Raise e -> e = TypeError.
Proof.
  unfold _calculate_interest_bonus.
  repeat case_match; try done; by intros [= <-].
Qed.

(** The [try] block never raises [FileNotFoundError]: a failure in it is
    answered by 0. *)
Lemma elo_body_failure cfg files self cid bi e :
  (elo_body cfg files self cid bi).1 = Raise e ->
  isinstance e CFileNotFoundError = false.
Proof.
  rewrite elo_body_value. cbv zeta.
  destruct (doc_messages _); [done|].
  destruct (_calculate_history_score _) as [h|e1] eqn:Hh; cbn.
  - destruct (_calculate_interest_bonus _ _) as [b|e2] eqn:Hb; cbn; [done|].
    intros [= <-]. by apply interest_bonus_failure in Hb as ->.
  - intros [= <-]. by apply history_score_failure in Hh as [-> | ->].
Qed.

(** The interests consulted depend on the parsed set only, and parsing
    them changes nothing for the calls that follow. *)
Lemma effective_interests_cache (self : calculator) bi cache :
  effective_interests
    {| _persona_interests := _persona_interests self; _elo_cache := cache |}
    bi
  = effective_interests self bi /\
  effective_interests
    {| _persona_interests := Some (effective_interests self bi);
       _elo_cache := cache |} bi
  = effective_interests self bi.
Proof.
  unfold effective_interests, _get_persona_interests; cbn.
  by destruct (_persona_interests self).
Qed.

(** One call changes the calculator only in ways later calls with the same
    instructions cannot tell from the calculator before. *)
Lemma calculate_elo_state cfg files self c bi :
  let self1 := (calculate_elo cfg files self c bi).2 in
  effective_interests self1 bi = effective_interests self bi /\
  (_elo_cache self1 = _elo_cache self \/
   _elo_cache self !! c = None /\
   _elo_cache self1
   = <[c := elo_value cfg files self bi c]> (_elo_cache self)).
Proof.
  cbv zeta. rewrite (elo_value_unfold cfg files self bi c).
  unfold calculate_elo.
  destruct (_elo_cache self !! c) as [v|] eqn:Hc; [eauto|].
  pose proof (elo_body_state cfg files self c bi) as Hst.
  destruct (elo_body cfg files self c bi) as [[r|e] self1]; cbn [fst snd] in *.
  - split.
    + destruct Hst as [-> | ->]; cbn [_persona_interests];
        apply effective_interests_cache.
    + right. split; [done|]. by destruct Hst as [-> | ->].
  - assert (effective_interests self1 bi = effective_interests self bi
            /\ _elo_cache self1 = _elo_cache self) as [Hi' Hc'].
    { destruct Hst as [-> | ->]; [done|]. split; [|done].
      apply effective_interests_cache. }
    destruct e; cbn; eauto.
Qed.

Lemma elo_body_value_stable cfg files self self' cid bi :
  effective_interests self' bi = effective_interests self bi ->
  (elo_body cfg files self' cid bi).1 = (elo_body cfg files self cid bi).1.
Proof. intros H. rewrite !elo_body_value. cbv zeta. by rewrite H. Qed.

Lemma elo_value_stable cfg files self c bi cid :
  elo_value cfg files (calculate_elo cfg files self c bi).2 bi cid
  = elo_value cfg files self bi cid.
Proof.
  destruct (calculate_elo_state cfg files self c bi) as [Hi Hc].
  cbv zeta in Hi, Hc.
  set (self1 := (calculate_elo cfg files self c bi).2) in *.
  rewrite (elo_value_unfold cfg files self1), (elo_value_unfold cfg files self).
  rewrite (elo_body_value_stable cfg files self self1) by done.
  destruct Hc as [-> | [Hmiss ->]]; [done|].
  destruct (decide (c = cid)) as [->|Hne].
  - rewrite lookup_insert_eq, Hmiss. by rewrite elo_value_unfold, Hmiss.
  - by rewrite lookup_insert_ne.
Qed.

(** Every id of the list gets its score: the gather yields, in order, what
    [calculate_elo] answers for each id on the calculator it started
    from. *)
Lemma gather_elo_results cfg files self ids bi :
  (gather_elo cfg files self ids bi).1
  = (fun cid => Return (elo_value cfg files self bi cid)) <$> ids.
Proof.
  revert self. induction ids as [|c ids IH]; intros self; [done|].
  cbn [gather_elo].
  pose proof (calculate_elo_returns cfg files self c bi) as Hr.
  pose proof (fun cid => elo_value_stable cfg files self c bi cid) as Hs.
  destruct (calculate_elo cfg files self c bi) as [r self1].
  cbn [fst snd] in Hr, Hs. subst r.
  specialize (IH self1).
  destruct (gather_elo cfg files self1 ids bi) as [rs self2].
  cbn [fst] in IH |- *. rewrite IH, fmap_cons. f_equal.
  apply list_fmap_ext. intros _ cid _. by rewrite Hs.
Qed.

Section Ranking.
Variable f : Z -> R.

Lemma dict_set_known d k :
  (forall k' v', (k', v') ∈ d -> v' = f k') ->
  k ∈ d.*1 -> dict_set d k (f k) = d.
Proof.
  induction d as [|[k0 v0] d IH]; intros Hd Hk.
  - by apply not_elem_of_nil in Hk.
  - cbn. case_decide as Hk0.
    + subst. rewrite (Hd k v0); [done|by left].
    + f_equal. apply IH.
      * intros k' v' Hin. apply Hd. by right.
      * cbn in Hk. apply elem_of_cons in Hk as [?|?]; [congruence|done].
Qed.

Lemma dict_set_new d k v : k ∉ d.*1 -> dict_set d k v = d ++ [(k, v)].
Proof.
  induction d as [|[k0 v0] d IH]; intros Hk; [done|].
  cbn in *. apply not_elem_of_cons in Hk as [Hne Hk].
  case_decide; [congruence|]. by rewrite IH.
Qed.

Lemma collect_scores_first_seen d ids :
  (forall k v, (k, v) ∈ d -> v = f k) ->
  collect_scores d ids ((fun cid => Return (f cid)) <$> ids)
  = d ++ ((fun k => (k, f k)) <$> first_seen (d.*1) ids).
Proof.
  revert d. induction ids as [|x ids IH]; intros d Hd; cbn.
  - by rewrite app_nil_r.
  - case_decide as Hx.
    + rewrite dict_set_known by done. by apply IH.
    + rewrite dict_set_new by done. rewrite IH.
      * rewrite fmap_app. cbn. by rewrite <- app_assoc.
      * intros k v [Hin|Hin]%elem_of_app; [by apply Hd|].
        apply list_elem_of_singleton in Hin. by simplify_eq.
Qed.

(** [max] keeps the first of the greatest. *)
Lemma max_by_value_spec rest front best0 mid :
  (forall y, y ∈ front -> (y.2 < best0.2)%R) ->
  (forall y, y ∈ mid -> (y.2 <= best0.2)%R) ->
  exists L1 L2,
    front ++ best0 :: mid ++ rest = L1 ++ max_by_value best0 rest :: L2 /\
    (forall y, y ∈ L1 -> (y.2 < (max_by_value best0 rest).2)%R) /\
    (forall y, y ∈ L2 -> (y.2 <= (max_by_value best0 rest).2)%R).
Proof.
  unfold max_by_value.
  revert front best0 mid. induction rest as [|x rest IH];
    intros front best0 mid Hfront Hmid; cbn [foldl].
  - exists front, mid. by rewrite app_nil_r.
  - destruct (Rlt_dec best0.2 x.2) as [Hlt|Hge].
    + destruct (IH (front ++ best0 :: mid) x []) as (L1 & L2 & Heq & H1 & H2).
      * intros y [Hy|Hy]%elem_of_app.
        { specialize (Hfront y Hy). lra. }
        apply elem_of_cons in Hy as [->|Hy]; [done|].
        specialize (Hmid y Hy). lra.
      * intros y Hy. by apply not_elem_of_nil in Hy.
      * exists L1, L2. split; [|done]. rewrite <- Heq.
        by rewrite <- app_assoc.
    + destruct (IH front best0 (mid ++ [x])) as (L1 & L2 & Heq & H1 & H2).
      * done.
      * intros y [Hy|Hy]%elem_of_app; [by apply Hmid|].
        apply list_elem_of_singleton in Hy as ->. lra.
      * exists L1, L2. split; [|done]. rewrite <- Heq.
        by rewrite <- (app_assoc mid [x] rest).
Qed.

Lemma first_seen_covers seen ids x :
  x ∈ ids -> x ∈ seen \/ x ∈ first_seen seen ids.
Proof.
  revert seen. induction ids as [|y ids IH]; intros seen Hx.
  - by apply not_elem_of_nil in Hx.
  - cbn. apply elem_of_cons in Hx as [->|Hx].
    + case_decide; [by left|]. right. by left.
    + case_decide.
      * by apply IH.
      * destruct (IH (seen ++ [y]) Hx) as [Hs|Hs].
        { apply elem_of_app in Hs as [?|Hs]; [by left|].
          apply list_elem_of_singleton in Hs as ->. right. by left. }
        right. by right.
Qed.

Lemma first_seen_split seen ids L1 t L2 :
  first_seen seen ids = L1 ++ t :: L2 ->
  exists front back,
    ids = front ++ t :: back /\
    (forall x, x ∈ front -> x ∈ seen \/ x ∈ L1) /\
    (forall x, x ∈ back -> x ∈ seen \/ x ∈ L1 \/ x = t \/ x ∈ L2).
Proof.
  revert seen L1. induction ids as [|y ids IH]; intros seen L1 Heq; cbn in Heq.
  - by destruct L1.
  - case_decide as Hy.
    + destruct (IH _ _ Heq) as (front & back & -> & Hf & Hb).
      exists (y :: front), back. split; [done|]. split; [|done].
      intros x [->|Hx]%elem_of_cons; [by left|by apply Hf].
    + destruct L1 as [|z L1]; cbn in Heq; simplify_eq.
      * exists [], ids. split; [done|]. split.
        { intros x Hx. by apply not_elem_of_nil in Hx. }
        intros x Hx.
        destruct (first_seen_covers (seen ++ [t]) ids x Hx) as [Hs|Hs].
        { apply elem_of_app in Hs as [?|Hs]; [by left|].
          apply list_elem_of_singleton in Hs as ->. eauto. }
        eauto.
      * destruct (IH _ _ H0) as (front & back & -> & Hf & Hb).
        exists (z :: front), back. split; [done|]. split.
        { intros x [->|Hx]%elem_of_cons; [right; by left|].
          destruct (Hf x Hx) as [Hs|Hs]; [|right; by right].
          apply elem_of_app in Hs as [?|Hs]; [by left|].
          apply list_elem_of_singleton in Hs as ->. right. by left. }
        intros x Hx. destruct (Hb x Hx) as [Hs|[Hs|[Hs|Hs]]]; eauto.
        { apply elem_of_app in Hs as [?|Hs]; [by left|].
          apply list_elem_of_singleton in Hs as ->. right. left. by left. }
        right. left. by right.
Qed.

(** The choice made after the gather, on results that are all scores. *)
Lemma pick_top_spec ids :
  ids <> [] ->
  match pick_top ids ((fun cid => Return (f cid)) <$> ids) with
  | None => forall x, x ∈ ids -> (f x <= 0)%R
  | Some t =>
      (0 < f t)%R /\
      exists front back,
        ids = front ++ t :: back /\
        (forall x, x ∈ front -> (f x < f t)%R) /\
        (forall x, x ∈ back -> (f x <= f t)%R)
  end.
Proof.
  intros Hne. unfold pick_top.
  rewrite (collect_scores_first_seen [] ids)
    by (intros k v Hin; by apply not_elem_of_nil in Hin).
  cbn [app fmap list_fmap].
  destruct (first_seen [] ids) as [|k0 ks] eqn:Hfs.
  { destruct ids as [|x ids]; [done|]. cbn in Hfs.
    case_decide as Hx; [by apply not_elem_of_nil in Hx|done]. }
  cbn [fmap list_fmap].
  destruct (max_by_value_spec ((fun k => (k, f k)) <$> ks) [] (k0, f k0) [])
    as (P1 & P2 & Heq & H1 & H2).
  { intros y Hy. by apply not_elem_of_nil in Hy. }
  { intros y Hy. by apply not_elem_of_nil in Hy. }
  cbn [app] in Heq. change (list_fmap _ _ ?g ks) with (g <$> ks).
  destruct (max_by_value (k0, f k0) ((fun k => (k, f k)) <$> ks))
    as [t v] eqn:Hmax.
  change ((k0, f k0) :: ((fun k => (k, f k)) <$> ks))
    with ((fun k => (k, f k)) <$> (k0 :: ks)) in Heq.
  apply fmap_app_inv in Heq as (L1 & L2' & -> & HL2 & HL).
  symmetry in HL2. apply fmap_cons_inv in HL2 as (t' & L2 & Ht & -> & ->).
  simplify_eq. rewrite <- Hfs in HL.
  destruct (first_seen_split [] ids L1 t' L2 HL) as (front & back & -> & Hf & Hb).
  assert (Hfront : forall x, x ∈ front -> (f x < f t')%R).
  { intros x Hx. destruct (Hf x Hx) as [Hs|Hs];
      [by apply not_elem_of_nil in Hs|].
    apply (H1 (x, f x)). by apply list_elem_of_fmap_2'  with x. }
  assert (Hback : forall x, x ∈ back -> (f x <= f t')%R).
  { intros x Hx. destruct (Hb x Hx) as [Hs|[Hs|[->|Hs]]].
    - by apply not_elem_of_nil in Hs.
    - apply Rlt_le. apply (H1 (x, f x)). by apply list_elem_of_fmap_2' with x.
    - lra.
    - apply (H2 (x, f x)). by apply list_elem_of_fmap_2' with x. }
  destruct (Rle_dec (f t') 0) as [Hle|Hgt].
  - intros x [Hx|Hx]%elem_of_app.
    + specialize (Hfront x Hx). lra.
    + apply elem_of_cons in Hx as [->|Hx]; [done|].
      specialize (Hback x Hx). lra.
  - split; [lra|]. eauto.
Qed.

End Ranking.

(** C3.  For a non-empty list of candidates, every id is scored: the
    gather yields one result per id, in order, each the number
    [calculate_elo] answers for that id, and a failure inside the scoring
    of one id is answered by 0 without touching the others.  The result is
    none exactly when no score exceeds 0; otherwise it is an id of the
    list whose score is positive, strictly greater than the score of every
    id in front of it and at least the score of every id behind it. *)
Theorem get_top_chat_for_initiation_spec cfg files self ids bi :
  ids <> [] ->
  let score := elo_value cfg files self bi in
  (gather_elo cfg files self ids bi).1
  = (fun cid => Return (score cid)) <$> ids /\
  (forall cid e,
     _elo_cache self !! cid = None ->
     (elo_body cfg files self cid bi).1 = Raise e -> score cid = 0%R) /\
  match (get_top_chat_for_initiation cfg files self ids bi).1 with
  | None => forall x, x ∈ ids -> (score x <= 0)%R
  | Some t =>
      (0 < score t)%R /\
      exists front back,
        ids = front ++ t :: back /\
        (forall x, x ∈ front -> (score x < score t)%R) /\
        (forall x, x ∈ back -> (score x <= score t)%R)
  end.
Proof.
  intros Hne score. split_and!.
  - apply gather_elo_results.
  - intros cid e Hmiss Hraise. subst score.
    rewrite elo_value_unfold, Hmiss, Hraise.
    by rewrite (elo_body_failure cfg files self cid bi e).
  - unfold get_top_chat_for_initiation.
    destruct ids as [|c ids]; [done|].
    pose proof (gather_elo_results cfg files self (c :: ids) bi) as Hg.
    destruct (gather_elo cfg files self (c :: ids) bi) as [results self1].
    cbn [fst] in Hg |- *. subst results.
    by apply (pick_top_spec score).
Qed.

(** *** Whole words *)

(** For an interest that begins and ends with a word character, the
    pattern matches exactly where the interest stands with no word
    character right before it and none right after it. *)
Lemma matches_here_whole_word lit first_point last_point before s :
  head lit = Some first_point -> last lit = Some last_point ->
  is_word first_point = true -> is_word last_point = true ->
  matches_here lit before s
  = starts_with lit s && negb (word_at before)
    && negb (word_at (head (drop (length lit) s))).
Proof.
  intros Hhead Hlast Hw1 Hw2. unfold matches_here, boundary. rewrite Hlast.
  destruct (starts_with lit s) eqn:Hs.
  - destruct lit as [|c lit]; [done|]. destruct s as [|c' s]; [done|].
    cbn in Hs, Hhead. apply andb_true_iff in Hs as [Hc _].
    apply N.eqb_eq in Hc. simplify_eq. cbn [head word_at].
    rewrite Hw1, Hw2. cbn.
    by destruct (word_at before), (word_at (head (drop (length lit) s))).
  - by rewrite andb_false_r.
Qed.

(** Every interest taken from the instructions is the lower case of a
    non-empty, stripped part between two commas. *)
Lemma extracted_interests_lowered base_instructions interest :
  interest ∈ _extract_interests_from_instructions base_instructions ->
  exists part, interest = lower part /\ truthy_str part = true.
Proof.
  unfold _extract_interests_from_instructions.
  destruct (search_marker base_instructions) as [group1|]; [|set_solver].
  rewrite elem_of_list_to_set, list_elem_of_fmap.
  intros (part & -> & Hpart). exists part. split; [done|].
  by apply list_elem_of_filter in Hpart as [? _].
Qed.

(** A cached score is answered as it is, whatever the record has become. *)
Lemma calculate_elo_cached cfg files self cid bi cached :
  _elo_cache self !! cid = Some cached ->
  calculate_elo cfg files self cid bi = (Return cached, self).
Proof. unfold calculate_elo. by intros ->. Qed.

End EloFacts.

(** *** The scoring engine on the sample data *)

Section EloExamples.
Import Store Elo Samples.


(** The sample thread has three matches (two of "music", one of "cats",
    none from the persona's own message): a bonus of 15. *)
Example interest_bonus_sample :
  @matches small_runtime {[ u "music"; u "cats" ]}
    (doc_messages (loaded_record 7 (files 7))) = 3%nat.
Proof. by vm_compute. Qed.

Lemma calculate_elo_formula_witness :
  let d := loaded_record 7 (files 7) in
  _elo_cache init !! 7%Z = None /\
  counters_are_counts d = true /\
  (@calculate_elo small_runtime cfg files init 7 (Some instructions)).1
  = Return (match doc_messages d with
            | [] => manual_boost_formula cfg 7
            | _ :: _ =>
                history_score_formula d
                + @interest_bonus_formula small_runtime
                    (@effective_interests small_runtime init (Some instructions))
                    (doc_messages d)
                + manual_boost_formula cfg 7
            end)%R.
Proof.
  cbv zeta. split; [done|]. split; [by vm_compute|].
  apply (@calculate_elo_formula small_runtime); [done | by vm_compute].
Defined.

(** C4, as stated, fails: thread 11 has a text counter of 3 and no stored
    message.  [calculate_elo] answers the manual boost alone, which is 0
    here, while the sum of the three components is [0.5 * ln 4]. *)
Lemma calculate_elo_skips_history_without_messages :
  let d := loaded_record 11 (files 11) in
  (@calculate_elo small_runtime cfg files init 11 (Some instructions)).1
  = Return 0%R /\
  (history_score_formula d
   + @interest_bonus_formula small_runtime
       (@effective_interests small_runtime init (Some instructions))
       (doc_messages d)
   + manual_boost_formula cfg 11 <> 0)%R.
Proof.
  cbv zeta. split.
  - reflexivity.
  - unfold history_score_formula, interest_bonus_formula.
    replace (doc_counter (loaded_record 11 (files 11)) "text") with 3%Z
      by by vm_compute.
    replace (doc_counter (loaded_record 11 (files 11)) "photo") with 0%Z
      by by vm_compute.
    replace (doc_counter (loaded_record 11 (files 11)) "video") with 0%Z
      by by vm_compute.
    replace (doc_counter (loaded_record 11 (files 11)) "voice") with 0%Z
      by by vm_compute.
    replace (doc_counter (loaded_record 11 (files 11)) "other_media") with 0%Z
      by by vm_compute.
    replace (doc_messages (loaded_record 11 (files 11))) with (@nil message)
      by by vm_compute.
    replace (manual_boost_formula cfg 11) with 0%R by by vm_compute.
    change (0 + 1)%Z with 1%Z. change (3 + 1)%Z with 4%Z. rewrite ln_1.
    unfold matches. cbn [contact_messages_text filter fmap list_fmap join].
    rewrite (@match_count_nil small_runtime). cbn [INR].
    assert (0 < ln 4)%R by (rewrite <- ln_1; apply ln_increasing; lra).
    rewrite Rmult_0_r, Rmin_right by lra. lra.
Qed.


(** The interests parsed from the sample instructions. *)
Example interests_from_sample :
  @interests_from small_runtime (Some instructions)
  = {[ u "music"; u "cats" ]}.
Proof. by vm_compute. Qed.

(** Thread 12, whose text counter is not a number: the failure is
    answered by 0. *)
Example elo_value_of_failing_thread :
  (@elo_body small_runtime cfg files init 12 (Some instructions)).1
  = Raise TypeError /\
  @elo_value small_runtime cfg files init (Some instructions) 12 = 0%R.
Proof. split; reflexivity. Qed.

Lemma get_top_chat_for_initiation_spec_witness :
  let ids := [3; 5; 12; 9; 5]%Z in
  let score := @elo_value small_runtime cfg files init (Some instructions) in
  ids <> [] /\
  match (@get_top_chat_for_initiation small_runtime cfg files init ids
           (Some instructions)).1 with
  | None => forall x, x ∈ ids -> (score x <= 0)%R
  | Some t =>
      (0 < score t)%R /\
      exists front back,
        ids = front ++ t :: back /\
        (forall x, x ∈ front -> (score x < score t)%R) /\
        (forall x, x ∈ back -> (score x <= score t)%R)
  end.
Proof.
  cbv zeta. split; [done|].
  apply (@get_top_chat_for_initiation_spec small_runtime cfg files init
           [3; 5; 12; 9; 5]%Z (Some instructions)).
  done.
Defined.

(** Threads 5 and 9 are both on the priority list and have no history:
    both score 500, thread 3 scores 0, the scoring of thread 12 fails.
    The first of the two greatest is chosen. *)
Example get_top_chat_sample :
  (@get_top_chat_for_initiation small_runtime cfg files init
     [3; 5; 12; 9; 5]%Z (Some instructions)).1 = Some 5%Z.
Proof.
  unfold get_top_chat_for_initiation.
  pose proof (@gather_elo_results small_runtime cfg files init
                [3; 5; 12; 9; 5]%Z (Some instructions)) as Hg.
  destruct (gather_elo _ _ _ _ _) as [results self1]. cbn [fst] in Hg |- *.
  subst results. unfold pick_top.
  change (collect_scores _ _ _)
    with [(3%Z, 0%R); (5%Z, MANUAL_BOOST_VALUE); (12%Z, 0%R);
          (9%Z, MANUAL_BOOST_VALUE)].
  unfold max_by_value, MANUAL_BOOST_VALUE. cbn [foldl snd].
  repeat (destruct (Rlt_dec _ _); cbn [snd] in *; try (exfalso; lra)).
  destruct (Rle_dec _ _); [exfalso; lra|done].
Qed.

(** With no candidate on the priority list and no history, nobody is
    chosen. *)
Example get_top_chat_none :
  (@get_top_chat_for_initiation small_runtime cfg files init
     [3; 12; 4]%Z (Some instructions)).1 = None.
Proof.
  unfold get_top_chat_for_initiation.
  pose proof (@gather_elo_results small_runtime cfg files init
                [3; 12; 4]%Z (Some instructions)) as Hg.
  destruct (gather_elo _ _ _ _ _) as [results self1]. cbn [fst] in Hg |- *.
  subst results. unfold pick_top.
  change (collect_scores _ _ _) with [(3%Z, 0%R); (12%Z, 0%R); (4%Z, 0%R)].
  unfold max_by_value. cbn [foldl snd].
  repeat (destruct (Rlt_dec _ _); cbn [snd] in *; try (exfalso; lra)).
  destruct (Rle_dec _ _); [done|exfalso; lra].
Qed.

End EloExamples.

(** ** The interaction engine *)

Section InteractionFacts.
Import Store Interaction.
Context `{RT : Runtime}.

Lemma random_choice_in_pool (pool : list pystr) (draw : nat) :
  pool <> [] ->
  exists reply, random_choice pool draw = Return reply /\ reply ∈ pool.
Proof.
  intros Hpool. unfold random_choice.
  destruct pool as [|r0 pool]; [done|].
  set (full := r0 :: pool).
  assert (Hlt : (draw mod length full < length full)%nat).
  { apply Nat.mod_upper_bound. done. }
  destruct (lookup_lt_is_Some_2 full _ Hlt) as [reply Hreply].
  rewrite Hreply. exists reply. split; [done|].
  by eapply list_elem_of_lookup_2.
Qed.

Lemma random_choice_empty (draw : nat) : random_choice [] draw = Raise IndexError.
Proof. done. Qed.

(** With canned replies at hand, the fallback passes one of them to the
    send routine. *)
Lemma send_generic_reply_spec cfg w cid :
  generic_error_replies cfg <> [] ->
  exists reply,
    reply ∈ generic_error_replies cfg /\
    send_generic_reply cfg w cid
    = (Return tt, (_send_message_with_delay w cid reply).2).
Proof.
  intros Hpool. unfold send_generic_reply.
  destruct (random_choice_in_pool _ (random_index w) Hpool)
    as (reply & -> & Hin).
  by exists reply.
Qed.

(** The send routine calls [client.send_message] exactly when the text is
    not empty and the chat resolves. *)
Lemma send_message_with_delay_calls w cid body :
  sends_something (_send_message_with_delay w cid body).2
  = truthy_str body && resolves w.
Proof.
  unfold _send_message_with_delay.
  destruct (truthy_str body), (resolves w); cbn; try done.
  by destruct (delivery_outcome w).
Qed.

Lemma generate_and_send_unfold cfg w ev is_group :
  _generate_and_send_response cfg w ev is_group
  = match _get_base_instructions cfg with
    | None => []
    | Some base_instructions =>
        if ev_photo ev && negb (download_ok w) then []
        else
          let cid := ev_chat_id ev in
          let msgs := doc_messages (Elo.loaded_record cid (files w cid)) in
          let asked :=
            AskedModel cid base_instructions
              (last_messages
                 (if is_group then GROUP_CONTEXT_MESSAGE_COUNT
                  else CONTEXT_MESSAGE_COUNT) msgs)
              (if truthy_str (ev_text ev) then Some (ev_text ev) else None)
              (ev_photo ev) in
          if truthy_response (generate_response (provider w)) then
            asked :: (_send_message_with_delay w cid
                        (default [] (generate_response (provider w)))).2
          else asked :: (send_generic_reply cfg w cid).2
    end.
Proof.
  unfold _generate_and_send_response.
  destruct (load_chat_history_loaded (ev_chat_id ev) (files w (ev_chat_id ev)))
    as [-> _].
  destruct (loaded_record_shape (ev_chat_id ev) (files w (ev_chat_id ev)))
    as (stats & _ & ->).
  done.
Qed.

(** C8, as amended.  Once [_generate_and_send_response] has been called:
    if there are base instructions and the photo of the message, if any,
    was downloaded, the model is asked, and when it gives no text (it
    returned nothing, or every attempt failed) and there are canned
    replies, one of them is passed to the send routine in its place; if
    the base instructions are missing, or the photo cannot be downloaded,
    the call ends with nothing asked and nothing sent. *)
Theorem generate_and_send_fallback cfg w ev is_group :
  (reaches_model cfg w ev = true ->
   truthy_response (generate_response (provider w)) = false ->
   generic_error_replies cfg <> [] ->
   exists asked reply,
     reply ∈ generic_error_replies cfg /\
     _generate_and_send_response cfg w ev is_group
     = asked :: (_send_message_with_delay w (ev_chat_id ev) reply).2) /\
  (reaches_model cfg w ev = true ->
   truthy_response (generate_response (provider w)) = true ->
   exists asked reply,
     generate_response (provider w) = Some reply /\
     _generate_and_send_response cfg w ev is_group
     = asked :: (_send_message_with_delay w (ev_chat_id ev) reply).2) /\
  (reaches_model cfg w ev = false ->
   _generate_and_send_response cfg w ev is_group = []).
Proof.
  rewrite generate_and_send_unfold. unfold reaches_model.
  destruct (_get_base_instructions cfg) as [bi|]; [|done].
  destruct (ev_photo ev), (download_ok w); cbn [negb andb orb]; try done.
  all: split_and!; try done.
  all: try (intros _ Hnone Hpool; cbv zeta; rewrite Hnone;
            destruct (send_generic_reply_spec cfg w (ev_chat_id ev) Hpool)
              as (reply & Hin & ->); by eauto).
  all: intros _ Hsome; cbv zeta; rewrite Hsome;
       destruct (generate_response (provider w)) as [reply|]; [|done];
       by eauto.
Qed.

(** *** [_try_initiate_conversation] *)

(** Once past the gate, the model is asked for an opener; a message goes
    to the send routine, and the instant is recorded, only when the model
    gave a text. *)
Lemma initiate_asks self w cid bi msgs :
  exists asked rest,
    (initiate self w cid bi msgs).2 = asked :: rest /\
    asked = AskedModel cid (two_paragraphs bi initiation_prompt)
              (last_messages 5 msgs) None false /\
    (truthy_response (generate_response (provider w)) = true ->
     rest = (_send_message_with_delay w cid
               (default [] (generate_response (provider w)))).2 /\
     (initiate self w cid bi msgs).1 = set_last_initiated self cid (now_sent w)) /\
    (truthy_response (generate_response (provider w)) = false ->
     rest = [] /\ (initiate self w cid bi msgs).1 = self).
Proof.
  unfold initiate.
  destruct (generate_response (provider w)) as [reply|]; cbn.
  - destruct (truthy_str reply) eqn:Ht; cbn [snd fst truthy_response default];
      do 2 eexists; (split; [done|]); (split; [done|]); rewrite ?Ht;
      split; intros; try done.
  - do 2 eexists. split; [done|]. split; [done|]. split; intros; done.
Qed.

(** C9, as amended.  An initiation attempt goes on to generate an opener
    exactly when the thread has no stored message or its last stored
    message is at least twelve hours old (a last message without a
    readable timestamp counting as older than any), and the engine has
    not initiated in that thread yet or did so at least twenty-four hours
    ago; otherwise the attempt ends with nothing asked, nothing sent and
    the engine unchanged. *)
Theorem try_initiate_conversation_gate self cfg w cid bi :
  let msgs := doc_messages (Elo.loaded_record cid (files w cid)) in
  _try_initiate_conversation self cfg w cid bi
  = (if may_initiate self w cid msgs
     then initiate self w cid bi msgs
     else (self, [])) /\
  (exists asked rest, (initiate self w cid bi msgs).2 = asked :: rest) /\
  (may_initiate self w cid msgs = false ->
   sends_something (_try_initiate_conversation self cfg w cid bi).2 = false).
Proof.
  cbv zeta.
  assert (Heq : _try_initiate_conversation self cfg w cid bi
    = (if may_initiate self w cid
            (doc_messages (Elo.loaded_record cid (files w cid)))
       then initiate self w cid bi
              (doc_messages (Elo.loaded_record cid (files w cid)))
       else (self, []))).
  { unfold _try_initiate_conversation, may_initiate.
    destruct (load_chat_history_loaded cid (files w cid)) as [-> _].
    destruct (loaded_record_shape cid (files w cid)) as (stats & _ & ->).
    set (msgs := doc_messages (Elo.loaded_record cid (files w cid))).
    destruct (decide (msgs = [])) as [Hnil|Hcons].
    - rewrite (bool_decide_eq_false_2 (msgs <> [])) by naive_solver.
      rewrite (bool_decide_eq_true_2 (msgs = [])) by done. cbn [andb orb].
      destruct (_last_initiated_time self !! cid) as [t|]; [|done].
      destruct (Z.ltb_spec (now_spacing w - t)
                  MIN_INTERVAL_BETWEEN_AI_INITIATION),
               (Z.leb_spec MIN_INTERVAL_BETWEEN_AI_INITIATION
                  (now_spacing w - t)); done || lia.
    - rewrite (bool_decide_eq_true_2 (msgs <> [])) by done.
      rewrite (bool_decide_eq_false_2 (msgs = [])) by done. cbn [andb orb].
      destruct (Z.ltb_spec (now_quiet w - last_msg_time msgs)
                  (hours MIN_TIME_BEFORE_INITIATION_HOURS)),
               (Z.leb_spec (hours MIN_TIME_BEFORE_INITIATION_HOURS)
                  (now_quiet w - last_msg_time msgs)); try lia; [done|].
      cbn [andb].
      destruct (_last_initiated_time self !! cid) as [t|]; [|done].
      destruct (Z.ltb_spec (now_spacing w - t)
                  MIN_INTERVAL_BETWEEN_AI_INITIATION),
               (Z.leb_spec MIN_INTERVAL_BETWEEN_AI_INITIATION
                  (now_spacing w - t)); done || lia. }
  split_and!.
  - exact Heq.
  - destruct (initiate_asks self w cid bi
                (doc_messages (Elo.loaded_record cid (files w cid))))
      as (asked & rest & -> & _). eauto.
  - intros Hgate. by rewrite Heq, Hgate.
Qed.

(** *** The draw of the cooldown *)





(** *** The detection and cooldown state machine *)












(** [stop_persona] forgets every cooldown and every count: after it no
    event is admitted, and no thread is suppressed. *)
Lemma stop_persona_forgets self cfg ev cid now :
  admitted (stop_persona self) cfg ev = false /\
  suppressed (stop_persona self) cid now = false /\
  hits (stop_persona self) cid = 0%Z.
Proof. done. Qed.

(** An API error on each of the three attempts gives nothing; a text on
    the third attempt is returned, stripped and without its stars. *)
Lemma generate_response_retries parts_text :
  generate_response (fun _ => ApiError) = None /\
  generate_response
    (fun attempt_no =>
       if (attempt_no <? 2)%nat then ApiError else Generated parts_text)
  = (if truthy_str (strip parts_text)
     then Some (without_stars (strip parts_text)) else None) /\
  generate_response (fun _ => Blocked) = None /\
  generate_response (fun _ => Crashed) = None.
Proof. done. Qed.

End InteractionFacts.

(** *** The interaction engine on the sample data *)

Section InteractionExamples.
Import Store Interaction Samples.


(** The deadline drawn in the sample world: 13 hours after the reading. *)
Example draw_cooldown_until_sample :
  draw_cooldown_until cfg (world_at 30 Blocked) = (30 + hours 13)%Z.
Proof. by vm_compute. Qed.

(** Three accusations answered, the fourth starts the cooldown, two events
    before the deadline are ignored, the event at the deadline is handled
    again and the next accusation counts as the first. *)
Example detection_scenario :
  let run :=
    @handle_all small_runtime engine0 cfg
      [ (world_at 0 (Generated (u " no *way* ")), accusation 7 10);
        (world_at 10 Blocked, accusation 7 11);
        (world_at 20 ApiError, accusation 7 12);
        (world_at 30 Blocked, accusation 7 13);
        (world_at (hours 5) Blocked, accusation 7 14);
        (world_at (hours 13 + 29) Blocked, greeting 7 15);
        (world_at (hours 13 + 30) Blocked, greeting 7 16);
        (world_at (hours 13 + 40) Blocked, accusation 7 17) ] in
  sends_something <$> run.2
  = [true; true; true; false; false; false; true; true] /\
  hits run.1 7 = 1%Z /\ _cooldown_until run.1 !! 7%Z = None.
Proof. by vm_compute. Qed.


Lemma generate_and_send_fallback_witness :
  let w := world_at 0 Blocked in
  @reaches_model cfg w (greeting 7 15) = true /\
  truthy_response (@generate_response small_runtime (provider w)) = false /\
  generic_error_replies cfg <> [] /\
  exists asked reply,
    reply ∈ generic_error_replies cfg /\
    @_generate_and_send_response small_runtime cfg w (greeting 7 15) false
    = asked :: (_send_message_with_delay w 7 reply).2.
Proof.
  cbv zeta. split; [done|]. split; [done|]. split; [done|].
  by apply (proj1 (@generate_and_send_fallback small_runtime cfg
                     (world_at 0 Blocked) (greeting 7 15) false)).
Defined.

(** C8, as stated, fails: without base instructions a private text
    triggers the response generation, the provider would answer and the
    transport would deliver, and yet nothing is asked and nothing is
    sent. *)
Lemma response_skipped_without_instructions :
  let w := world_at 0 (Generated (u "hi there")) in
  admitted engine0 cfg_without_instructions (greeting 7 15) = true /\
  truthy_str (ev_text (greeting 7 15)) = true /\
  @_generate_and_send_response small_runtime cfg_without_instructions w
    (greeting 7 15) false = [] /\
  @_handle_new_message small_runtime engine0 cfg_without_instructions w
    (greeting 7 15) = (engine0, []) /\
  sends_something
    (@_handle_new_message small_runtime engine0 cfg w (greeting 7 15)).2
  = true.
Proof. by vm_compute. Qed.

(** Two hours after the last stored message of thread 7 nothing is
    initiated. *)
Lemma try_initiate_conversation_gate_witness :
  let w := world_at (120000000 + hours 2) (Generated (u "hey")) in
  let msgs := doc_messages (Elo.loaded_record 7 (files 7)) in
  may_initiate engine0 w 7 msgs = false /\
  @_try_initiate_conversation small_runtime engine0 cfg w 7 instructions
  = (engine0, []).
Proof.
  cbv zeta. split; [done|].
  rewrite (proj1 (@try_initiate_conversation_gate small_runtime engine0 cfg
                    (world_at (120000000 + hours 2) (Generated (u "hey")))
                    7 instructions)).
  done.
Defined.

(** C9, as stated, fails: exactly twelve hours after the last stored
    message the elapsed time does not exceed the minimum, and the opener
    is generated and sent all the same. *)
Lemma initiates_at_exactly_twelve_hours :
  let w := world_at (120000000 + hours 12) (Generated (u "hey")) in
  let msgs := doc_messages (Elo.loaded_record 7 (files 7)) in
  msgs <> [] /\
  (now_quiet w - last_msg_time msgs = hours 12)%Z /\
  may_initiate_strictly engine0 w 7 msgs = false /\
  sends_something
    (@_try_initiate_conversation small_runtime engine0 cfg w 7
       instructions).2 = true.
Proof. by vm_compute. Qed.

(** One microsecond earlier the attempt is skipped; once the opener went
    out, the next attempt within a day is skipped as well. *)
Example initiation_spacing :
  let early := world_at (120000000 + hours 12 - 1) (Generated (u "hey")) in
  let due := world_at (120000000 + hours 12) (Generated (u "hey")) in
  let later := world_at (120000000 + hours 30) (Generated (u "hey")) in
  let first :=
    @_try_initiate_conversation small_runtime engine0 cfg due 7
      instructions in
  @_try_initiate_conversation small_runtime engine0 cfg early 7 instructions
  = (engine0, []) /\
  _last_initiated_time first.1 !! 7%Z = Some (120000000 + hours 12)%Z /\
  @_try_initiate_conversation small_runtime first.1 cfg later 7 instructions
  = (first.1, []).
Proof. by vm_compute. Qed.

End InteractionExamples.
(** ** More on the conversation store *)

Section StoreMoreFacts.
Import Store.

Lemma u_inj : Inj (=) (=) u.
Proof.
  assert (Hascii : Inj (=) (=) N_of_ascii).
  { intros a b Hab.
    rewrite <- (ascii_N_embedding a), <- (ascii_N_embedding b).
    by rewrite Hab. }
  intros s1 s2 H. unfold u in H.
  apply (inj (fmap N_of_ascii)) in H.
  rewrite <- (string_of_list_ascii_of_string s1),
    <- (string_of_list_ascii_of_string s2). by rewrite H.
Qed.

Lemma str_of_int_inj : Inj (=) (=) str_of_int.
Proof. intros a b H. apply u_inj in H. by apply pretty_Z_inj in H. Qed.

(** X1.  Two threads never share a directory or a history file: under one
    data directory, [_get_chat_dir] and the path of the history file are
    injective in the thread id. *)
Theorem filepath_injective (data_dir : list pystr) (cid1 cid2 : Z) :
  (_get_chat_dir data_dir cid1 = _get_chat_dir data_dir cid2 -> cid1 = cid2) /\
  (filepath data_dir cid1 = filepath data_dir cid2 -> cid1 = cid2) /\
  (cid1 <> cid2 -> filepath data_dir cid1 <> filepath data_dir cid2).
Proof.
  assert (Hdir : _get_chat_dir data_dir cid1 = _get_chat_dir data_dir cid2 ->
                 cid1 = cid2).
  { unfold _get_chat_dir. intros H. apply app_inj_tail in H as [_ H].
    by apply str_of_int_inj. }
  assert (Hfile : filepath data_dir cid1 = filepath data_dir cid2 ->
                  cid1 = cid2).
  { unfold filepath. intros H. apply app_inj_tail in H as [H _]. auto. }
  split_and!; [done..|]. intros Hne H. by apply Hne, Hfile.
Qed.

(** *** Saving and loading *)

(** The repair loop leaves a dict that has every key as it is. *)
Lemma fill_complete keys (s : gmap string stat) :
  (forall key, key ∈ keys -> is_Some (s !! key)) ->
  foldl (fun s key =>
           match s !! key with
           | None => <[key := Count 0]> s
           | Some _ => s
           end) s keys = s.
Proof.
  induction keys as [|k keys IH]; intros Hs; [done|]. cbn [foldl].
  destruct (Hs k) as [v ->]; [by left|].
  apply IH. intros key Hkey. apply Hs. by right.
Qed.

Lemma validate_well_formed_id cid d :
  well_formed d -> validate cid (Object d) = Return d.
Proof.
  destruct d as [ci ct st ms].
  intros ([c Hc] & [t Ht] & (s & Hst & Hs) & (l & Hl)).
  cbn in Hc, Ht, Hst, Hl. subst.
  unfold validate. cbn [aggregated_stats messages chat_id chat_title].
  by rewrite fill_complete.
Qed.

(** X2.  Saving and loading round-trip: after [save_chat_history] wrote a
    record of the shape [load_chat_history] promises, loading the thread
    returns that very record; a refused write leaves the file, and what
    loading returns, as they were; after a torn write loading returns the
    empty record titled "Error Loading Chat <id>".  [save_chat_history]
    itself never raises. *)
Theorem save_then_load cid fs d :
  well_formed d ->
  load_chat_history cid (save_chat_history cid fs d Saved).1 = Return d /\
  (save_chat_history cid fs d Refused).1 = fs /\
  load_chat_history cid (save_chat_history cid fs d Torn).1
  = Return (with_title (default_structure cid)
              (u "Error Loading Chat " ++ str_of_int cid)) /\
  forall w, (save_chat_history cid fs d w).2 = Return tt.
Proof.
  intros Hd. split_and!; try done.
  unfold save_chat_history, load_chat_history.
  cbn [fst write_file try_ mbind py_bind].
  by rewrite validate_well_formed_id.
Qed.

(** *** Retitling *)

Lemma zero_stats_filled :
  foldl (fun s key =>
           match s !! key with
           | None => <[key := Count 0]> s
           | Some _ => s
           end) zero_stats STATS_KEYS = zero_stats.
Proof.
  apply fill_complete. intros key Hkey. rewrite zero_stats_lookup; eauto.
Qed.

Lemma load_untitled cid t :
  load_chat_history cid
    (FileWith (Return (Object (with_title (untitled_structure cid) t))))
  = Return (with_title (default_structure cid) t).
Proof.
  unfold load_chat_history, validate, with_title, untitled_structure.
  cbn [try_ mbind py_bind aggregated_stats messages chat_id chat_title].
  by rewrite zero_stats_filled.
Qed.

(** X3.  Retitling commutes with loading: when there is no file, the file
    holds an object, or the file does not decode, then after
    [update_chat_title] wrote, [load_chat_history] returns the record it
    returned before under the new title, with the same id, counters and
    messages. *)
Theorem update_chat_title_then_load cid fs new_title :
  retitlable fs = true ->
  load_chat_history cid (update_chat_title cid fs new_title Saved).1
  = (d ← load_chat_history cid fs; Return (with_title d new_title)).
Proof.
  assert (Hfresh :
    load_chat_history cid
      (update_chat_title cid NoFile new_title Saved).1
    = Return (with_title (default_structure cid) new_title)).
  { unfold update_chat_title.
    cbn [mbind py_bind chat_title untitled_structure].
    rewrite ?bool_decide_eq_true_2 by done.
    cbn [fst write_file]. apply load_untitled. }
  destruct fs as [|[[| |d]|e]]; intros Hfs; try discriminate Hfs.
  - exact Hfresh.
  - unfold update_chat_title. cbn [try_ mbind py_bind].
    case_bool_decide as Ht; cbn [fst write_file]; [done|].
    unfold load_chat_history, validate.
    cbn [try_ mbind py_bind]. by rewrite Ht.
  - destruct e; try discriminate Hfs. exact Hfresh.
Qed.

(** X4.  [update_chat_title] never raises, and it leaves the file as it is
    when the read raises anything but a decoding error, when the file
    holds a value that is not an object, when the stored title is already
    the new one (nothing is written then, whatever a write would do), and
    when the write is refused; retitling twice with the same title writes
    once. *)
Theorem update_chat_title_untouched cid fs new_title w :
  (update_chat_title cid fs new_title w).2 = Return tt /\
  (retitlable fs = false -> (update_chat_title cid fs new_title w).1 = fs) /\
  (update_chat_title cid fs new_title Refused).1 = fs /\
  (forall d, fs = FileWith (Return (Object d)) ->
             chat_title d = Some new_title ->
             (update_chat_title cid fs new_title w).1 = fs) /\
  (let fs1 := (update_chat_title cid fs new_title Saved).1 in
   (update_chat_title cid fs1 new_title w).1 = fs1).
Proof.
  split_and!.
  - unfold update_chat_title.
    destruct fs as [|[[| |d]|e]]; cbn [try_ mbind py_bind];
      try destruct e; cbn [isinstance mbind py_bind];
      try case_bool_decide; done.
  - destruct fs as [|[[| |d]|e]]; try done. by destruct e.
  - unfold update_chat_title.
    destruct fs as [|[[| |d]|e]]; cbn [try_ mbind py_bind];
      try destruct e; cbn [isinstance mbind py_bind];
      try case_bool_decide; done.
  - intros d -> Ht. unfold update_chat_title. cbn [try_ mbind py_bind].
    by rewrite bool_decide_eq_false_2 by (by intros []).
  - cbv zeta.
    assert (Hsame : forall d, chat_title d = Some new_title ->
              (update_chat_title cid (FileWith (Return (Object d)))
                 new_title w).1 = FileWith (Return (Object d))).
    { intros d Ht. unfold update_chat_title. cbn [try_ mbind py_bind].
      by rewrite bool_decide_eq_false_2 by (by intros []). }
    assert (Hfresh :
      (update_chat_title cid NoFile new_title Saved).1
      = FileWith (Return (Object (with_title (untitled_structure cid)
                                    new_title)))).
    { unfold update_chat_title.
      cbn [mbind py_bind chat_title untitled_structure].
      by rewrite ?bool_decide_eq_true_2 by done. }
    destruct fs as [|[[| |d]|e]].
    + rewrite Hfresh. by apply Hsame.
    + done.
    + done.
    + assert (exists d', (update_chat_title cid (FileWith (Return (Object d)))
                            new_title Saved).1
                         = FileWith (Return (Object d')) /\
                         chat_title d' = Some new_title) as (d' & -> & Ht').
      { unfold update_chat_title. cbn [try_ mbind py_bind].
        case_bool_decide as Ht; cbn [fst write_file]; eauto. }
      by apply Hsame.
    + destruct e; try done.
      change (update_chat_title cid (FileWith (Raise JSONDecodeError))
                new_title Saved).1
        with (FileWith (Return (Object (with_title (untitled_structure cid)
                                          new_title)))).
      by apply Hsame.
Qed.

(** *** Appending *)

(** On a structure it can work on, and for a message the duplicate check
    lets through, the change in memory goes through, and the structure it
    yields can be worked on again. *)
Lemma append_in_memory_returns md d :
  appendable d = true ->
  passes_duplicate_check md (doc_messages d) = true ->
  exists d', append_in_memory md (Object d) = Return (Some d') /\
             appendable d' = true.
Proof.
  unfold appendable, passes_duplicate_check, append_in_memory, doc_messages.
  destruct d as [ci ct st ms]; cbn [messages aggregated_stats].
  intros [Hms Hst]%andb_true_iff Hdup.
  assert (Hcheck :
    match message_id md with
    | Some msg_id =>
        if (0 <? msg_id)%Z then
          match ms with
          | Absent => Return false
          | Present l => Return (id_occurs l msg_id)
          | Mistyped => Raise TypeError
          end
        else Return false
    | None => Return false
    end = Return false).
  { destruct (message_id md) as [z|]; [|done].
    destruct (0 <? z)%Z; [|done].
    destruct ms as [| |l]; try done. cbn in Hdup.
    by destruct (id_occurs l z). }
  rewrite Hcheck. cbn [mbind py_bind].
  assert (Hbump : forall (s : gmap string stat),
    match s !! "text"%string with Some NotANumber => false | _ => true end
    && match s !! "photo"%string with Some NotANumber => false | _ => true end
    = true ->
    exists s1 s2,
      (if truthy_str (text md) then bump "text" (Present s)
       else Return (Present s)) = Return (Present s1) /\
      (if photo_attached md then bump "photo" (Present s1)
       else Return (Present s1)) = Return (Present s2) /\
      match s2 !! "text"%string with Some NotANumber => false | _ => true end
      && match s2 !! "photo"%string with Some NotANumber => false | _ => true end
      = true).
  { intros s [Ht Hp]%andb_true_iff. unfold bump.
    destruct (s !! "text"%string) as [[nt|]|] eqn:Est; try done;
      destruct (s !! "photo"%string) as [[np|]|] eqn:Esp; try done;
      destruct (truthy_str (text md)), (photo_attached md);
      repeat first
        [ rewrite Est | rewrite Esp
        | progress cbn [default from_option Datatypes.id] ].
    all: eexists; eexists; split; [reflexivity|].
    all: split;
      [ repeat first
          [ rewrite Est | rewrite Esp
          | rewrite lookup_insert_ne by done | rewrite lookup_insert_eq
          | progress cbn [default from_option Datatypes.id] ];
        reflexivity | ].
    all: repeat first
        [ rewrite Est | rewrite Esp
        | rewrite lookup_insert_ne by done | rewrite lookup_insert_eq ].
    all: done. }
  assert (Hzero :
    match zero_stats !! "text"%string with
    | Some NotANumber => false | _ => true end
    && match zero_stats !! "photo"%string with
       | Some NotANumber => false | _ => true end = true) by done.
  destruct ms as [| |l]; try done; cbn [mbind py_bind];
    destruct st as [| |s]; try done.
  - destruct (Hbump zero_stats Hzero) as (s1 & s2 & Hs1 & Hs2 & Hok).
    rewrite Hs1. cbn [mbind py_bind]. rewrite Hs2. cbn [mbind py_bind]. eauto.
  - destruct (Hbump s Hst) as (s1 & s2 & Hs1 & Hs2 & Hok).
    rewrite Hs1. cbn [mbind py_bind]. rewrite Hs2. cbn [mbind py_bind]. eauto.
  - destruct (Hbump zero_stats Hzero) as (s1 & s2 & Hs1 & Hs2 & Hok).
    rewrite Hs1. cbn [mbind py_bind]. rewrite Hs2. cbn [mbind py_bind]. eauto.
  - destruct (Hbump s Hst) as (s1 & s2 & Hs1 & Hs2 & Hok).
    rewrite Hs1. cbn [mbind py_bind]. rewrite Hs2. cbn [mbind py_bind]. eauto.
Qed.

Lemma append_starting_point cid fs d md w :
  starting_point cid fs = Some d ->
  append_message_to_history cid fs (Some md) w
  = match append_in_memory md (Object d) with
    | Raise e => (fs, Raise e)
    | Return None => (fs, Return tt)
    | Return (Some d') => (write_file fs d' w, Return tt)
    end.
Proof.
  unfold starting_point, append_message_to_history.
  destruct fs as [|[[| |d0]|e]]; try done.
  - by intros [= <-].
  - by intros [= <-].
  - destruct e; try done. by intros [= <-].
Qed.

(** An append that starts from a structure it can work on, with a
    message the duplicate check lets through, writes the structure changed
    in memory. *)
Lemma append_writes cid fs d md w :
  starting_point cid fs = Some d ->
  appendable d = true ->
  passes_duplicate_check md (doc_messages d) = true ->
  exists d',
    append_in_memory md (Object d) = Return (Some d') /\
    appendable d' = true /\
    append_message_to_history cid fs (Some md) w
    = (write_file fs d' w, Return tt).
Proof.
  intros Hstart Hok Hnew.
  rewrite (append_starting_point cid fs d md w Hstart).
  destruct (append_in_memory_returns md d Hok Hnew) as (d' & Ha & Hok').
  rewrite Ha. eauto.
Qed.

(** X5.  A new message is stored at the end: when the append starts from
    a structure it can work on (the stored object, or the fresh one when
    there is no file or the file does not decode) and the duplicate check
    lets the message through, then after the write the stored messages are
    the ones before followed by the new one, the text and photo counters
    went up by one exactly when the message has a text, respectively a
    photo, every other counter, the id and the title are as before,
    [load_chat_history] returns these messages, and the stored record can
    be appended to again. *)
Theorem append_new_message cid fs d md :
  starting_point cid fs = Some d ->
  appendable d = true ->
  passes_duplicate_check md (doc_messages d) = true ->
  let r := append_message_to_history cid fs (Some md) Saved in
  r.2 = Return tt /\
  stored_messages r.1 = doc_messages d ++ [md] /\
  stored_counter r.1 "text"
  = (doc_counter d "text" + if has_text md then 1 else 0)%Z /\
  stored_counter r.1 "photo"
  = (doc_counter d "photo" + if photo_attached md then 1 else 0)%Z /\
  (forall key, key <> "text"%string -> key <> "photo"%string ->
               stored_counter r.1 key = doc_counter d key) /\
  (exists d', stored_document r.1 = Some d' /\
              chat_id d' = chat_id d /\ chat_title d' = chat_title d /\
              appendable d' = true) /\
  (exists loaded, load_chat_history cid r.1 = Return loaded /\
                  doc_messages loaded = doc_messages d ++ [md]).
Proof.
  intros Hstart Hok Hnew. cbv zeta.
  destruct (append_writes cid fs d md Saved Hstart Hok Hnew)
    as (d' & Ha & Hok' & ->).
  cbn [fst snd write_file].
  apply append_in_memory_spec in Ha as (Hm & _ & Ht & Hp & Hother & Hid & Htitle).
  unfold stored_messages, stored_counter. cbn [stored_document from_option].
  split_and!; try done.
  - eauto 10.
  - unfold load_chat_history, validate. cbn [try_ mbind py_bind].
    eexists. split; [done|]. unfold doc_messages in *.
    cbn [messages]. by destruct (messages d').
Qed.

(** X6.  When [append_message_to_history] lets an exception out, nothing
    was written: the file is as it was, the exception is an
    [AttributeError] or a [TypeError], and the file holds a JSON value
    that is neither [null] nor an object the append can work on. *)
Theorem append_failure_leaves_file cid fs message_data w e :
  (append_message_to_history cid fs message_data w).2 = Raise e ->
  (append_message_to_history cid fs message_data w).1 = fs /\
  (e = AttributeError \/ e = TypeError) /\
  exists v, fs = FileWith (Return v) /\ v <> JsonNull /\
            forall d, v = Object d -> appendable d = false.
Proof.
  destruct message_data as [md|]; [|done].
  assert (Hmem : forall d,
    append_in_memory md (Object d) = Raise e ->
    (e = AttributeError \/ e = TypeError) /\ appendable d = false).
  { intros d. unfold append_in_memory, appendable, bump.
    destruct d as [ci ct st ms]; cbn [messages aggregated_stats].
    destruct ms as [| |l], st as [| |s]; cbn [andb];
      repeat (case_match; simplify_eq/=; try done);
      intros; simplify_eq; eauto.
    all: exfalso.
    all: repeat match goal with
         | H : context [<[_:=_]> _ !! _] |- _ =>
             rewrite lookup_insert_ne in H by done
         end.
    all: repeat match goal with
         | H1 : ?m !! ?k = _, H2 : context [?m !! ?k] |- _ =>
             rewrite H1 in H2
         end.
    all: by simplify_eq/=. }
  unfold append_message_to_history.
  destruct fs as [|[[| |d]|e0]]; cbn [try_ mbind py_bind].
  - destruct (append_in_memory md _) as [[d'|]|e'] eqn:Ha; try done.
    cbn [snd]. intros [= ->].
    destruct (Hmem _ Ha) as [_ Hno]. by vm_compute in Hno.
  - done.
  - cbn. intros [= <-]. split; [done|]. split; [by left|].
    exists JsonOther. split_and!; done.
  - destruct (append_in_memory md _) as [[d'|]|e'] eqn:Ha; try done.
    cbn [snd fst]. intros [= ->]. destruct (Hmem _ Ha) as [He Hno].
    split; [done|]. split; [done|]. exists (Object d).
    split_and!; try done. by intros d0 [= <-].
  - destruct e0; cbn [isinstance]; try done.
    destruct (append_in_memory md _) as [[d'|]|e'] eqn:Ha; try done.
    cbn [snd]. intros [= ->].
    destruct (Hmem _ Ha) as [_ Hno]. by vm_compute in Hno.
Qed.

(** X7.  Appends only add: over any sequence of appends none of whose
    writes is torn, the messages stored before are a prefix of the
    messages stored after. *)
Theorem appends_only_grow cid fs ops :
  (forall op, op ∈ ops -> op.2 <> Torn) ->
  stored_messages fs `prefix_of` stored_messages (appends cid fs ops).
Proof.
  unfold appends. revert fs.
  induction ops as [|[md w] ops IH]; intros fs Hops; cbn [foldl fst snd].
  - done.
  - etrans; [|apply IH; intros op Hop; apply Hops; by right].
    assert (Hw : w <> Torn) by (apply (Hops (md, w)); by left).
    destruct md as [md|]; [|done].
    destruct (append_message_cases cid fs md w)
      as [-> | (d0 & d' & Hd0 & Ha & ->)]; [done|].
    cbn [fst]. destruct w; [|done|done]. cbn [write_file].
    apply append_in_memory_spec in Ha as (Hm & _).
    unfold stored_messages at 2. cbn [stored_document from_option].
    rewrite Hm. apply prefix_app_r.
    destruct Hd0 as [[-> _] | [[-> _] | ->]]; try done.
    all: unfold stored_messages; cbn; apply prefix_nil.
Qed.


End StoreMoreFacts.

(** *** The store on the sample data *)

Section StoreMoreExamples.
Import Store Samples.

(** An empty record under a title of its own, saved over the undecodable
    file of thread 8 and loaded again. *)
Lemma save_then_load_witness :
  let d := with_title (default_structure 8) (u "Ann") in
  well_formed d /\
  load_chat_history 8 (save_chat_history 8 (files 8) d Saved).1 = Return d.
Proof.
  cbv zeta.
  pose proof (proj1 (proj2 (default_structure_well_formed 8 (u "Ann")))) as Hd.
  split; [exact Hd|].
  exact (proj1 (save_then_load 8 (files 8) _ Hd)).
Defined.

(** Thread 7 retitled, then loaded. *)
Lemma update_chat_title_then_load_witness :
  retitlable (files 7) = true /\
  load_chat_history 7 (update_chat_title 7 (files 7) (u "Ann") Saved).1
  = (d ← load_chat_history 7 (files 7); Return (with_title d (u "Ann"))).
Proof.
  split; [by vm_compute|].
  apply (update_chat_title_then_load 7 (files 7) (u "Ann")). by vm_compute.
Defined.

(** A first message for a thread without a file. *)
Lemma append_new_message_witness :
  let md := text_message 1 (u "Contact") (u "hi") 0 in
  let r := append_message_to_history 9 NoFile (Some md) Saved in
  starting_point 9 NoFile = Some (default_structure 9) /\
  appendable (default_structure 9) = true /\
  passes_duplicate_check md (doc_messages (default_structure 9)) = true /\
  r.2 = Return tt /\
  stored_messages r.1 = [md] /\
  stored_counter r.1 "text" = 1%Z.
Proof.
  cbv zeta. split; [done|]. split; [done|]. split; [done|].
  pose proof (append_new_message 9 NoFile (default_structure 9)
                (text_message 1 (u "Contact") (u "hi") 0)
                eq_refl eq_refl eq_refl) as (H1 & H2 & H3 & _).
  split; [exact H1|]. split; [exact H2|]. exact H3.
Defined.

(** A file that holds a JSON array: the append raises and writes
    nothing. *)
Lemma append_failure_leaves_file_witness :
  let fs := FileWith (Return JsonOther) in
  let md := text_message 1 (u "Contact") (u "hi") 0 in
  (append_message_to_history 9 fs (Some md) Saved).2 = Raise AttributeError /\
  (append_message_to_history 9 fs (Some md) Saved).1 = fs.
Proof.
  cbv zeta. split; [done|].
  exact (proj1 (append_failure_leaves_file 9 (FileWith (Return JsonOther))
                  (Some (text_message 1 (u "Contact") (u "hi") 0)) Saved
                  AttributeError eq_refl)).
Defined.

(** Thread 7 after a refused write and a further message. *)
Lemma appends_only_grow_witness :
  let ops := [(Some (text_message 8 (u "Contact") (u "lost") 5), Refused);
              (Some (text_message 9 (u "You") (u "kept") 6), Saved)] in
  (forall op, op ∈ ops -> op.2 <> Torn) /\
  stored_messages (files 7) `prefix_of` stored_messages (appends 7 (files 7) ops).
Proof.
  cbv zeta.
  assert (Hops : forall op : option message * write_outcome,
            op ∈ [(Some (text_message 8 (u "Contact") (u "lost") 5), Refused);
                  (Some (text_message 9 (u "You") (u "kept") 6), Saved)] ->
            op.2 <> Torn).
  { intros op Hop. rewrite !elem_of_cons, elem_of_nil in Hop.
    destruct Hop as [->|[->|[]]]; done. }
  split; [exact Hops|].
  exact (appends_only_grow 7 (files 7) _ Hops).
Defined.

End StoreMoreExamples.

(** ** More on the scoring engine *)

Section EloMoreFacts.
Import Store Elo.
Context `{RT : Runtime}.

Lemma history_term_nonneg weight count t :
  (0 <= weight)%R -> history_term weight count = Return t -> (0 <= t)%R.
Proof.
  intros Hw. unfold history_term.
  destruct count as [[n|]|]; try discriminate.
  - destruct (Z.ltb_spec 0 n); intros [= <-]; [|lra].
    apply Rmult_le_pos; [done|]. rewrite <- ln_1. left.
    apply ln_increasing; [lra|]. apply IZR_lt. lia.
  - intros [= <-]. lra.
Qed.

(** The history score, when there is one, is not negative. *)
Lemma history_score_nonneg d h :
  _calculate_history_score d = Return h -> (0 <= h)%R.
Proof.
  unfold _calculate_history_score.
  destruct (aggregated_stats d) as [| |stats]; try discriminate.
  { intros [= <-]. lra. }
  case_decide; [intros [= <-]; lra|].
  assert (Hfold : forall ws acc,
    Forall (fun kw => 0 <= kw.2)%R ws ->
    (forall a, acc = Return a -> (0 <= a)%R) ->
    foldl (fun acc '(key, weight) =>
             score ← acc;
             term_score ← history_term weight (stats !! key);
             Return (score + term_score)%R) acc ws = Return h ->
    (0 <= h)%R).
  { induction ws as [|[key w] ws IH]; intros acc Hws Hacc; cbn [foldl].
    - apply Hacc.
    - apply Forall_cons in Hws as [Hw Hws]. apply IH; [done|].
      intros a. destruct acc as [a0|e0]; cbn [mbind py_bind]; [|done].
      destruct (history_term w (stats !! key)) as [t|e] eqn:Ht;
        cbn [mbind py_bind]; [|done].
      intros [= <-]. apply (history_term_nonneg _ _ _ Hw) in Ht.
      specialize (Hacc a0 eq_refl). lra. }
  apply Hfold.
  - unfold HISTORY_SCORE_WEIGHTS. repeat constructor; cbn; lra.
  - intros a [= <-]. lra.
Qed.

Lemma manual_boost_values cfg cid :
  (cid ∈ priority_initiation_chats cfg ->
   manual_boost_formula cfg cid = 500%R) /\
  (cid ∉ priority_initiation_chats cfg ->
   manual_boost_formula cfg cid = 0%R) /\
  (0 <= manual_boost_formula cfg cid)%R.
Proof.
  unfold manual_boost_formula. case_decide; split_and!; try done; lra.
Qed.

(** What the [try] block of [calculate_elo] yields is not negative, is
    the manual boost for a thread without stored messages, and is at
    least the manual boost otherwise. *)
Lemma elo_body_nonneg cfg files self cid bi r :
  (elo_body cfg files self cid bi).1 = Return r ->
  (manual_boost_formula cfg cid <= r)%R /\
  (doc_messages (loaded_record cid (files cid)) = [] ->
   r = manual_boost_formula cfg cid).
Proof.
  rewrite elo_body_value. cbv zeta.
  destruct (loaded_record_shape cid (files cid)) as (stats & _ & Hm).
  destruct (doc_messages (loaded_record cid (files cid))) as [|m l] eqn:Hd.
  { intros [= <-]. split; [lra|done]. }
  destruct (_calculate_history_score _) as [h|e] eqn:Hh;
    cbn [mbind py_bind]; [|done].
  rewrite (interest_bonus_is_formula _ (m :: l)) by done.
  cbn [mbind py_bind]. intros [= <-].
  apply history_score_nonneg in Hh.
  assert (0 <= interest_bonus_formula (effective_interests self bi) (m :: l))%R.
  { unfold interest_bonus_formula. apply Rmin_glb; [lra|].
    pose proof (pos_INR (matches (effective_interests self bi) (m :: l))).
    lra. }
  split; [lra|done].
Qed.

(** X9.  On a cache miss [calculate_elo] never raises and answers a score
    that is not negative.  The score of a thread without stored messages
    is its manual boost alone; a score that was computed is at least the
    manual boost, so at least 500 for a priority thread; and when the
    computation fails (a counter that is not a number) the answer is 0,
    for a priority thread as well, and nothing is cached. *)
Theorem calculate_elo_on_miss cfg files self cid bi :
  _elo_cache self !! cid = None ->
  exists r,
    (calculate_elo cfg files self cid bi).1 = Return r /\
    (0 <= r)%R /\
    (doc_messages (loaded_record cid (files cid)) = [] ->
     r = manual_boost_formula cfg cid) /\
    (forall r', (elo_body cfg files self cid bi).1 = Return r' ->
       r = r' /\ (manual_boost_formula cfg cid <= r)%R /\
       (cid ∈ priority_initiation_chats cfg -> (500 <= r)%R)) /\
    (forall e, (elo_body cfg files self cid bi).1 = Raise e ->
       r = 0%R /\
       _elo_cache (calculate_elo cfg files self cid bi).2 = _elo_cache self).
Proof.
  intros Hmiss. exists (elo_value cfg files self bi cid).
  split; [apply calculate_elo_returns|].
  rewrite elo_value_unfold, Hmiss.
  pose proof (elo_body_nonneg cfg files self cid bi) as Hbody.
  pose proof (elo_body_failure cfg files self cid bi) as Hfail.
  pose proof (elo_body_value cfg files self cid bi) as Hval. cbv zeta in Hval.
  pose proof (elo_body_state cfg files self cid bi) as Hst.
  destruct (manual_boost_values cfg cid) as (Hprio & _ & Hpos).
  unfold calculate_elo. rewrite Hmiss.
  destruct (elo_body cfg files self cid bi) as [[r|e] self1];
    cbn [fst snd] in *.
  - destruct (Hbody r eq_refl) as [Hge Hnil]. split_and!.
    + lra.
    + done.
    + intros r' [= <-]. split_and!; [done..|].
      intros Hin. rewrite <- (Hprio Hin). done.
    + done.
  - rewrite (Hfail e eq_refl). split_and!.
    + lra.
    + intros Hnil. by rewrite Hnil in Hval.
    + done.
    + intros e' _. split; [done|].
      destruct e; cbn [isinstance snd];
        by destruct Hst as [-> | ->].
Qed.

(** X10.  A computed score is answered again as it is until the cache is
    cleared: after a call that missed the cache and whose computation
    went through, every later call for the same thread returns the same
    score and leaves the calculator alone, whatever the files, the
    settings and the instructions have become in between. *)
Theorem calculate_elo_memoised cfg files self cid bi r :
  _elo_cache self !! cid = None ->
  (elo_body cfg files self cid bi).1 = Return r ->
  let first := calculate_elo cfg files self cid bi in
  first.1 = Return r /\
  _elo_cache first.2 !! cid = Some r /\
  (forall cfg' files' bi',
     calculate_elo cfg' files' first.2 cid bi' = (Return r, first.2)) /\
  _elo_cache (clear_cache first.2) !! cid = None.
Proof.
  intros Hmiss Hbody. cbv zeta.
  assert (Hfirst : calculate_elo cfg files self cid bi
    = (Return r,
       {| _persona_interests :=
            _persona_interests (elo_body cfg files self cid bi).2;
          _elo_cache :=
            <[cid := r]> (_elo_cache (elo_body cfg files self cid bi).2) |})).
  { unfold calculate_elo. rewrite Hmiss.
    destruct (elo_body cfg files self cid bi) as [r0 self1].
    cbn [fst] in Hbody. by subst r0. }
  rewrite Hfirst. cbn [fst snd _elo_cache].
  rewrite lookup_insert_eq. split_and!; try done.
  intros cfg' files' bi'. unfold calculate_elo. cbn [_elo_cache].
  by rewrite lookup_insert_eq.
Qed.

Lemma calculate_elo_keeps_interests cfg files self cid bi parsed :
  _persona_interests self = Some parsed ->
  _persona_interests (calculate_elo cfg files self cid bi).2 = Some parsed.
Proof.
  intros Hp. unfold calculate_elo.
  destruct (_elo_cache self !! cid); [done|].
  pose proof (elo_body_state cfg files self cid bi) as Hst.
  rewrite (effective_interests_kept self bi parsed Hp) in Hst.
  destruct (elo_body cfg files self cid bi) as [[r|e] self1];
    cbn [snd] in Hst |- *.
  - by destruct Hst as [-> | ->].
  - destruct e; cbn [isinstance snd]; by destruct Hst as [-> | ->].
Qed.

Lemma gather_elo_keeps_interests cfg files self ids bi parsed :
  _persona_interests self = Some parsed ->
  _persona_interests (gather_elo cfg files self ids bi).2 = Some parsed.
Proof.
  revert self. induction ids as [|c ids IH]; intros self Hp; [done|].
  cbn [gather_elo].
  pose proof (calculate_elo_keeps_interests cfg files self c bi parsed Hp) as H1.
  destruct (calculate_elo cfg files self c bi) as [r self1]. cbn [snd] in H1.
  specialize (IH self1 H1).
  by destruct (gather_elo cfg files self1 ids bi) as [rs self2].
Qed.

(** X11.  The interests are parsed once: a calculator that holds a parsed
    set keeps it through every scoring and every ranking, whatever
    instructions these calls are given, and the interest bonus is computed
    against that set; only [clear_cache] makes the calculator parse
    again. *)
Theorem persona_interests_parsed_once cfg files self parsed :
  _persona_interests self = Some parsed ->
  (forall bi, _get_persona_interests self bi = (parsed, self)) /\
  (forall cid bi,
     _persona_interests (calculate_elo cfg files self cid bi).2
     = Some parsed) /\
  (forall ids bi,
     _persona_interests (get_top_chat_for_initiation cfg files self ids bi).2
     = Some parsed) /\
  (forall cid bi,
     let d := loaded_record cid (files cid) in
     _elo_cache self !! cid = None -> doc_messages d <> [] ->
     counters_are_counts d = true ->
     (calculate_elo cfg files self cid bi).1
     = Return (history_score_formula d
               + interest_bonus_formula parsed (doc_messages d)
               + manual_boost_formula cfg cid)%R) /\
  _persona_interests (clear_cache self) = None.
Proof.
  intros Hp. split_and!.
  - intros bi. unfold _get_persona_interests. by rewrite Hp.
  - intros cid bi. by apply calculate_elo_keeps_interests.
  - intros ids bi. unfold get_top_chat_for_initiation.
    destruct ids as [|c ids]; [done|].
    pose proof (gather_elo_keeps_interests cfg files self (c :: ids) bi
                  parsed Hp) as Hg.
    by destruct (gather_elo cfg files self (c :: ids) bi) as [rs self1].
  - intros cid bi d Hmiss Hmsgs Hcounts.
    rewrite calculate_elo_returns, elo_value_unfold, Hmiss.
    rewrite elo_body_value. cbv zeta. fold d.
    destruct (loaded_record_shape cid (files cid)) as (stats & _ & Hm).
    fold d in Hm.
    destruct (doc_messages d) as [|m l] eqn:Hd; [done|].
    rewrite (history_score_is_formula d Hcounts). cbn [mbind py_bind].
    rewrite (interest_bonus_is_formula d (m :: l)) by done.
    cbn [mbind py_bind]. by rewrite (effective_interests_kept self bi parsed).
  - done.
Qed.

(** The thread the ranking picks is one of the candidates, and its score
    is positive. *)
Lemma get_top_chat_positive cfg files self ids bi t :
  (get_top_chat_for_initiation cfg files self ids bi).1 = Some t ->
  t ∈ ids /\ (0 < elo_value cfg files self bi t)%R.
Proof.
  intros Ht. destruct ids as [|c ids]; [done|].
  unfold get_top_chat_for_initiation in Ht.
  pose proof (gather_elo_results cfg files self (c :: ids) bi) as Hg.
  destruct (gather_elo cfg files self (c :: ids) bi) as [results self1].
  cbn [fst] in Hg, Ht. subst results.
  pose proof (pick_top_spec (elo_value cfg files self bi) (c :: ids)) as Hpick.
  rewrite Ht in Hpick.
  destruct Hpick as (Hpos & front & back & Hids & _); [done|].
  split; [|done]. rewrite Hids. apply elem_of_app. right. by left.
Qed.

(** X12.  The ranking never picks a thread that has nothing to show: with
    no candidates it answers none and leaves the calculator alone, and a
    thread it picks is one of the candidates and, unless its score came
    from the cache, is a priority thread or has stored messages. *)
Theorem get_top_chat_has_history cfg files self ids bi :
  get_top_chat_for_initiation cfg files self [] bi = (None, self) /\
  forall t,
    (get_top_chat_for_initiation cfg files self ids bi).1 = Some t ->
    t ∈ ids /\
    (_elo_cache self !! t = None ->
     t ∈ priority_initiation_chats cfg \/
     doc_messages (loaded_record t (files t)) <> []).
Proof.
  split; [done|]. intros t Ht.
  destruct (get_top_chat_positive cfg files self ids bi t Ht) as [Hin Hpos].
  split; [done|]. intros Hmiss.
  destruct (decide (doc_messages (loaded_record t (files t)) = []))
    as [Hnil|Hne]; [|by right].
  left. rewrite elo_value_unfold, Hmiss in Hpos.
  pose proof (elo_body_nonneg cfg files self t bi) as Hbody.
  pose proof (elo_body_failure cfg files self t bi) as Hfail.
  destruct ((elo_body cfg files self t bi).1) as [r|e].
  - destruct (Hbody r eq_refl) as [_ Hr]. rewrite (Hr Hnil) in Hpos.
    destruct (decide (t ∈ priority_initiation_chats cfg)) as [|Hno]; [done|].
    apply manual_boost_values in Hno. lra.
  - rewrite (Hfail e eq_refl) in Hpos. lra.
Qed.

End EloMoreFacts.

(** *** More of the scoring engine on the sample data *)

Section EloMoreExamples.
Import Store Elo Samples.

(** Thread 12 has a counter that is not a number: the answer is 0. *)
Lemma calculate_elo_on_miss_witness :
  _elo_cache init !! 12%Z = None /\
  exists r,
    (@calculate_elo small_runtime cfg files init 12 (Some instructions)).1
    = Return r /\ (0 <= r)%R.
Proof.
  split; [done|].
  destruct (@calculate_elo_on_miss small_runtime cfg files init 12
              (Some instructions) eq_refl) as (r & Hr & Hpos & _).
  exists r. split; [exact Hr | exact Hpos].
Defined.

(** The priority thread 5 has no file: its score is the boost, and it is
    answered again after the thread got a file and left the priority
    list. *)
Lemma calculate_elo_memoised_witness :
  let first := @calculate_elo small_runtime cfg files init 5
                 (Some instructions) in
  _elo_cache init !! 5%Z = None /\
  (@elo_body small_runtime cfg files init 5 (Some instructions)).1
  = Return 500%R /\
  @calculate_elo small_runtime cfg_without_replies (fun _ => files 7)
    first.2 5 None
  = (Return 500%R, first.2).
Proof.
  cbv zeta. split; [done|].
  assert (Hbody :
    (@elo_body small_runtime cfg files init 5 (Some instructions)).1
    = Return 500%R) by (by vm_compute).
  split; [exact Hbody|].
  destruct (@calculate_elo_memoised small_runtime cfg files init 5
              (Some instructions) 500%R eq_refl Hbody) as (_ & _ & H & _).
  apply H.
Defined.

(** A calculator that parsed "dogs" keeps it when thread 7 is scored
    with instructions that name other interests. *)
Lemma persona_interests_parsed_once_witness :
  let self := {| _persona_interests := Some {[ u "dogs" ]};
                 _elo_cache := ∅ |} in
  _persona_interests self = Some {[ u "dogs" ]} /\
  _persona_interests
    (@calculate_elo small_runtime cfg files self 7 (Some instructions)).2
  = Some {[ u "dogs" ]}.
Proof.
  cbv zeta. split; [done|].
  destruct (@persona_interests_parsed_once small_runtime cfg files
              {| _persona_interests := Some {[ u "dogs" ]};
                 _elo_cache := ∅ |} {[ u "dogs" ]} eq_refl)
    as (_ & H & _).
  apply H.
Defined.

End EloMoreExamples.

(** ** More on the interaction engine *)

Section InteractionMoreFacts.
Import Store Elo Interaction Lifecycle.
Context `{RT : Runtime}.

(** *** What the engine sends, and where *)

Lemma send_within_bounds admin w cid body :
  Forall (within_bounds admin cid) (_send_message_with_delay w cid body).2.
Proof.
  unfold _send_message_with_delay.
  destruct body as [|c body]; cbn [truthy_str negb]; [by constructor|].
  destruct (resolves w); cbn [negb]; [|by constructor].
  destruct (delivery_outcome w); cbn [snd];
    repeat constructor; done.
Qed.

Lemma send_generic_within_bounds admin cfg w cid :
  Forall (within_bounds admin cid) (send_generic_reply cfg w cid).2.
Proof.
  unfold send_generic_reply.
  destruct (random_choice _ _); cbn [snd]; [|by constructor].
  apply send_within_bounds.
Qed.

Lemma deflect_within_bounds admin cfg w ev :
  Forall (within_bounds admin (ev_chat_id ev)) (deflect cfg w ev).2.
Proof.
  unfold deflect.
  destruct (_get_base_instructions cfg);
    [|apply send_generic_within_bounds].
  destruct (truthy_response _).
  - cbn [snd]. constructor; [done|]. apply send_within_bounds.
  - pose proof (send_generic_within_bounds admin cfg w (ev_chat_id ev)) as H.
    destruct (send_generic_reply cfg w (ev_chat_id ev)) as [r eff].
    cbn [snd] in *. by constructor.
Qed.

Lemma check_ai_detection_within_bounds self cfg w ev :
  Forall (within_bounds (_admin_id self) (ev_chat_id ev))
    (_check_ai_detection self cfg w ev).2.
Proof.
  unfold _check_ai_detection.
  destruct (detected (ev_text ev)); [|by constructor].
  destruct (_ <=? _)%Z.
  - pose proof (deflect_within_bounds (_admin_id self) cfg w ev) as H.
    by destruct (deflect cfg w ev) as [[[]|e] eff].
  - cbn [snd]. by repeat constructor.
Qed.

Lemma generate_and_send_within_bounds admin cfg w ev is_group :
  Forall (within_bounds admin (ev_chat_id ev))
    (_generate_and_send_response cfg w ev is_group).
Proof.
  rewrite generate_and_send_unfold.
  destruct (_get_base_instructions cfg); [|by constructor].
  destruct (ev_photo ev && negb (download_ok w)); [by constructor|].
  cbv zeta. destruct (truthy_response _); (constructor; [done|]).
  - apply send_within_bounds.
  - apply send_generic_within_bounds.
Qed.

Lemma respond_within_bounds admin self cfg w ev :
  Forall (within_bounds admin (ev_chat_id ev)) (respond self cfg w ev).2.
Proof.
  unfold respond.
  repeat case_match; cbn [snd]; try by constructor.
  all: apply generate_and_send_within_bounds.
Qed.

(** The equation behind the gate of an initiation. *)
Lemma try_initiate_unfold self cfg w cid bi :
  let msgs := doc_messages (loaded_record cid (files w cid)) in
  _try_initiate_conversation self cfg w cid bi
  = (if may_initiate self w cid msgs
     then initiate self w cid bi msgs
     else (self, [])).
Proof.
  cbv zeta. unfold _try_initiate_conversation, may_initiate.
  destruct (load_chat_history_loaded cid (files w cid)) as [-> _].
  destruct (loaded_record_shape cid (files w cid)) as (stats & _ & ->).
  set (msgs := doc_messages (loaded_record cid (files w cid))).
  assert (Hspacing :
    match _last_initiated_time self !! cid with
    | Some t => (now_spacing w - t <? MIN_INTERVAL_BETWEEN_AI_INITIATION)%Z
    | None => false
    end
    = negb match _last_initiated_time self !! cid with
           | Some t =>
               (MIN_INTERVAL_BETWEEN_AI_INITIATION <=? now_spacing w - t)%Z
           | None => true
           end).
  { destruct (_last_initiated_time self !! cid) as [t|]; [|done].
    by rewrite Z.leb_antisym, negb_involutive. }
  rewrite Hspacing.
  destruct (decide (msgs = [])) as [Hnil|Hcons].
  - rewrite (bool_decide_eq_false_2 (msgs <> [])) by naive_solver.
    rewrite (bool_decide_eq_true_2 (msgs = [])) by done. cbn [andb orb].
    by destruct (match _last_initiated_time self !! cid with
                 | Some t => _ | None => true end).
  - rewrite (bool_decide_eq_true_2 (msgs <> [])) by done.
    rewrite (bool_decide_eq_false_2 (msgs = [])) by done. cbn [andb orb].
    rewrite (Z.leb_antisym _ (hours MIN_TIME_BEFORE_INITIATION_HOURS)).
    destruct (_ <? hours MIN_TIME_BEFORE_INITIATION_HOURS)%Z;
      cbn [negb andb]; [done|].
    by destruct (match _last_initiated_time self !! cid with
                 | Some t => _ | None => true end).
Qed.

Lemma initiate_within_bounds admin self w cid bi msgs :
  Forall (within_bounds admin cid) (initiate self w cid bi msgs).2.
Proof.
  unfold initiate.
  destruct (generate_response (provider w)) as [reply|];
    [|by repeat constructor].
  destruct (truthy_str reply); cbn [snd]; [|by repeat constructor].
  constructor; [done|]. apply send_within_bounds.
Qed.

Lemma try_initiate_within_bounds admin self cfg w cid bi :
  Forall (within_bounds admin cid)
    (_try_initiate_conversation self cfg w cid bi).2.
Proof.
  rewrite try_initiate_unfold. cbv zeta.
  destruct (may_initiate _ _ _ _); [|by constructor].
  apply initiate_within_bounds.
Qed.

(** X13.  Whatever the event and whatever the outside world answers,
    every call the handler makes concerns the thread of the event: the
    model is asked about it, messages are sent to it, and the one
    notification goes to the admin.  No message is sent with an empty
    body, and the only records handed to the store are those of messages
    the persona sent, with their text: an incoming message is never saved
    by the handler.  The same holds for an initiation and its thread. *)
Theorem engine_calls_within_bounds self cfg w ev cid bi :
  Forall (within_bounds (_admin_id self) (ev_chat_id ev))
    (_handle_new_message self cfg w ev).2 /\
  Forall (within_bounds (_admin_id self) cid)
    (_try_initiate_conversation self cfg w cid bi).2.
Proof.
  split; [|apply try_initiate_within_bounds].
  unfold _handle_new_message.
  destruct (negb (admitted self cfg ev)); [by constructor|].
  destruct (match _cooldown_until self !! ev_chat_id ev with
            | Some until => (now_utc w <? until)%Z
            | None => false
            end); [by constructor|].
  set (self1 := match _cooldown_until self !! ev_chat_id ev with
                | Some _ => end_cooldown self (ev_chat_id ev)
                | None => self
                end).
  assert (Hadmin : _admin_id self1 = _admin_id self).
  { subst self1. by destruct (_cooldown_until self !! ev_chat_id ev). }
  destruct (truthy_str (ev_text ev));
    [|apply respond_within_bounds].
  pose proof (check_ai_detection_within_bounds self1 cfg w ev) as Hd.
  rewrite Hadmin in Hd.
  destruct (_check_ai_detection self1 cfg w ev) as [[r self2] eff].
  cbn [snd] in Hd.
  destruct r as [[|]|e]; cbn [snd]; [done| |].
  all: pose proof (respond_within_bounds (_admin_id self) self2 cfg w ev) as Hr.
  all: destruct (respond self2 cfg w ev) as [self3 eff']; cbn [snd] in *.
  all: by apply Forall_app.
Qed.

(** *** Groups: one reply every [n] messages *)





(** *** Initiations *)

(** X15.  An initiation is recorded whether or not its opener was
    delivered: once the gate is passed and the model gave a text, the
    instant after the send is stored for the thread even when nothing
    went out (the chat does not resolve, say), and every further attempt
    in that thread less than twenty-four hours later is skipped. *)
Theorem initiation_recorded_without_delivery self cfg w cid bi :
  may_initiate self w cid (doc_messages (loaded_record cid (files w cid)))
  = true ->
  truthy_response (generate_response (provider w)) = true ->
  let after := (_try_initiate_conversation self cfg w cid bi).1 in
  _last_initiated_time after !! cid = Some (now_sent w) /\
  (resolves w = false ->
   sends_something (_try_initiate_conversation self cfg w cid bi).2 = false) /\
  (forall w' bi',
     (now_spacing w' - now_sent w < MIN_INTERVAL_BETWEEN_AI_INITIATION)%Z ->
     _try_initiate_conversation after cfg w' cid bi' = (after, [])).
Proof.
  intros Hgate Htext. cbv zeta.
  rewrite (try_initiate_unfold self cfg w cid bi). cbv zeta. rewrite Hgate.
  destruct (initiate_asks self w cid bi
              (doc_messages (loaded_record cid (files w cid))))
    as (asked & rest & Heff & Hasked & Hyes & _).
  destruct (Hyes Htext) as [Hrest Hstate]. rewrite Heff, Hstate.
  assert (Hrec : _last_initiated_time
                   (set_last_initiated self cid (now_sent w)) !! cid
                 = Some (now_sent w)).
  { cbn. by rewrite lookup_insert_eq. }
  split_and!.
  - done.
  - intros Hres. rewrite Hasked, Hrest. cbn [sends_something existsb orb].
    fold (sends_something
            (_send_message_with_delay w cid
               (default [] (generate_response (provider w)))).2).
    rewrite send_message_with_delay_calls, Hres. apply andb_false_r.
  - intros w' bi' Hsoon. rewrite try_initiate_unfold. cbv zeta.
    unfold may_initiate at 1. rewrite Hrec.
    destruct (Z.leb_spec MIN_INTERVAL_BETWEEN_AI_INITIATION
                (now_spacing w' - now_sent w)); [lia|].
    by rewrite andb_false_r.
Qed.

(** *** Starting and stopping *)

(** X16.  A stopped persona is silent: after [stop_persona], whatever the
    engine and the settings were, no event gets an answer and no turn of
    the initiation loop does anything; and unless the persona was already
    stopped and inactive, the group counts, the detection counts, the
    cooldowns and the instants of the initiations are all forgotten. *)
Theorem stopped_persona_is_silent self cfg :
  let stopped := Lifecycle.stop_persona self cfg in
  (forall w ev,
     _handle_new_message stopped.1 stopped.2 w ev = (stopped.1, [])) /\
  (forall calc w dialogs,
     initiation_round stopped.1 calc stopped.2 w dialogs
     = (stopped.1, calc, [])) /\
  (forall calc turns,
     _initiation_loop stopped.1 calc stopped.2 turns = (stopped.1, calc, [])) /\
  (_is_running self = true \/ is_active cfg = true ->
   _is_running stopped.1 = false /\ is_active stopped.2 = false /\
   _group_message_counters stopped.1 = ∅ /\
   _ai_detection_counters stopped.1 = ∅ /\
   _cooldown_until stopped.1 = ∅ /\
   _last_initiated_time stopped.1 = ∅).
Proof.
  cbv zeta. unfold Lifecycle.stop_persona, is_active.
  destruct (_is_running self) eqn:Hrun, (persona_active cfg) eqn:Hact;
    cbn [negb andb fst snd].
  all: split_and!.
  all: try (intros w ev; unfold _handle_new_message, admitted;
            cbn [_is_running Interaction.stop_persona persona_active
                 set_persona_active];
            by rewrite ?Hrun, ?Hact).
  all: try (intros calc w dialogs; unfold initiation_round, is_active;
            cbn [_is_running Interaction.stop_persona persona_active
                 set_persona_active];
            by rewrite ?Hrun, ?Hact).
  all: try (intros calc [|[w dialogs] turns]; cbn [_initiation_loop];
            cbn [_is_running Interaction.stop_persona];
            by rewrite ?Hrun).
  all: try (intros _; by split_and!).
  intros [?|?]; done.
Qed.

(** X17.  [start_persona] needs the persona's own id: on an engine that
    is not running and does not know its id (or has 0 for it), it leaves
    the engine stopped, switches the setting off, and every event is
    ignored; with an id it switches both on and keeps the counts and the
    cooldowns; starting a running persona changes nothing.  Once the
    client is ready with a non-zero id and the settings say active, the
    persona runs. *)
Theorem start_persona_needs_identity self cfg :
  _is_running self = false ->
  let started := start_persona self cfg in
  ((_me_id self = None \/ _me_id self = Some 0%Z) ->
   started = (self, set_persona_active cfg false) /\
   forall w ev,
     _handle_new_message started.1 started.2 w ev = (started.1, [])) /\
  (forall me, _me_id self = Some me -> me <> 0%Z ->
     started = (set_running self true, set_persona_active cfg true) /\
     start_persona started.1 started.2 = started) /\
  (forall user_id, user_id <> 0%Z -> is_active cfg = true ->
     _is_running (set_client_ready self cfg user_id).1 = true /\
     _me_id (set_client_ready self cfg user_id).1 = Some user_id /\
     is_active (set_client_ready self cfg user_id).2 = true).
Proof.
  intros Hrun. cbv zeta. split_and!.
  - intros Hid.
    assert (Hs : start_persona self cfg = (self, set_persona_active cfg false)).
    { unfold start_persona. rewrite Hrun. by destruct Hid as [-> | ->]. }
    rewrite Hs. split; [done|]. intros w ev.
    unfold _handle_new_message, admitted. cbn [fst snd]. by rewrite Hrun.
  - intros me Hme Hne.
    assert (Hs : start_persona self cfg
                 = (set_running self true, set_persona_active cfg true)).
    { unfold start_persona. rewrite Hrun, Hme.
      by destruct (Z.eqb_spec me 0). }
    by rewrite Hs.
  - intros user_id Hne Hact. unfold set_client_ready. rewrite Hact.
    unfold start_persona. cbn [_is_running _me_id set_me_id]. rewrite Hrun.
    by destruct (Z.eqb_spec user_id 0).
Qed.

(** *** The initiation loop *)

(** An initiation attempt changes nothing of the engine but the instants
    of the initiations. *)
Lemma try_initiate_frame self cfg w cid bi :
  let after := (_try_initiate_conversation self cfg w cid bi).1 in
  _is_running after = _is_running self /\
  _me_id after = _me_id self /\
  _admin_id after = _admin_id self /\
  _cooldown_until after = _cooldown_until self.
Proof.
  cbv zeta. rewrite try_initiate_unfold. cbv zeta.
  destruct (may_initiate _ _ _ _); [|done].
  unfold initiate. destruct (generate_response (provider w)) as [reply|];
    [|done].
  by destruct (truthy_str reply).
Qed.

Lemma eligible_frame self self' cfg d now :
  _me_id self' = _me_id self ->
  _cooldown_until self' = _cooldown_until self ->
  eligible self' cfg d now = eligible self cfg d now.
Proof. unfold eligible. by intros -> ->. Qed.

(** What a dialog has to be for the loop to consider it. *)
Lemma eligible_spec self cfg d now :
  eligible self cfg d now = true ->
  Some (dialog_id d) <> _me_id self /\
  is_user d = true /\ has_entity d = true /\ entity_bot d = false /\
  (dialog_id d ∉ excluded_chats cfg) /\
  suppressed self (dialog_id d) now = false.
Proof.
  unfold eligible, suppressed.
  rewrite !andb_true_iff, !bool_decide_eq_true, negb_true_iff.
  intros [[[[[Hme Hu] He] Hb] Hx] Hc]. split_and!; try done.
  destruct (_cooldown_until self !! dialog_id d) as [until|]; [|done].
  apply Z.leb_le in Hc. apply Z.ltb_ge. lia.
Qed.

Lemma eligible_chats_spec self cfg listed cid :
  cid ∈ eligible_chats self cfg listed ->
  exists d now, (d, now) ∈ listed /\ eligible self cfg d now = true /\
                dialog_id d = cid.
Proof.
  unfold eligible_chats. rewrite list_elem_of_fmap.
  intros ([d now] & -> & Hin). apply list_elem_of_filter in Hin as [He Hin].
  by exists d, now.
Qed.

(** One turn: the calls made concern one eligible dialog, and the engine
    keeps its identity and its cooldowns. *)
Lemma initiation_round_targets self calc cfg w dialogs :
  let round := initiation_round self calc cfg w dialogs in
  (_is_running round.1.1 = _is_running self /\
   _me_id round.1.1 = _me_id self /\
   _admin_id round.1.1 = _admin_id self /\
   _cooldown_until round.1.1 = _cooldown_until self) /\
  (round.2 <> [] ->
   exists listed d now,
     dialogs = Return listed /\
     (d, now) ∈ listed /\ eligible self cfg d now = true /\
     dialog_id d <> 0%Z /\
     Forall (within_bounds (_admin_id self) (dialog_id d)) round.2).
Proof.
  cbv zeta. unfold initiation_round.
  destruct (negb (_is_running self) || negb (is_active cfg)); [done|].
  destruct dialogs as [listed|e]; [|done].
  destruct (eligible_chats self cfg listed) as [|c chats] eqn:Hchats; [done|].
  destruct (_get_base_instructions cfg) as [bi|]; [|done].
  pose proof (get_top_chat_positive cfg (files w) calc (c :: chats)
                (Some bi)) as Htop.
  destruct (get_top_chat_for_initiation cfg (files w) calc (c :: chats)
              (Some bi)) as [[top|] calc1]; cbn [fst] in Htop; [|done].
  destruct (Z.eqb_spec top 0) as [|Hne]; [done|].
  pose proof (try_initiate_frame self cfg w top bi) as Hframe.
  pose proof (try_initiate_within_bounds (_admin_id self) self cfg w top bi)
    as Hbounds.
  cbv zeta in Hframe.
  destruct (_try_initiate_conversation self cfg w top bi) as [self1 effects].
  cbn [fst snd] in *. split; [done|]. intros _.
  destruct (Htop top eq_refl) as [Hin _]. rewrite <- Hchats in Hin.
  apply eligible_chats_spec in Hin as (d & now & Hin & He & <-).
  exists listed, d, now. by split_and!.
Qed.

(** X18.  The initiation loop approaches eligible dialogs only.  Over any
    run of the loop, every call made in a turn (the model asked for an
    opener, the opener sent, its record saved) concerns one dialog that
    the iteration of that turn listed and found eligible: not the
    persona's own chat, a user and not a bot, not an excluded chat, and
    not under a cooldown at the clock reading taken for it.  Its id is not
    0, and the calls stay within bounds. *)
Theorem initiation_loop_targets self calc cfg turns :
  (forall d now, eligible self cfg d now = true ->
     Some (dialog_id d) <> _me_id self /\
     is_user d = true /\ has_entity d = true /\ entity_bot d = false /\
     (dialog_id d ∉ excluded_chats cfg) /\
     suppressed self (dialog_id d) now = false) /\
  forall i effects,
    (_initiation_loop self calc cfg turns).2 !! i = Some effects ->
    effects <> [] ->
    exists w listed d now,
      turns !! i = Some (w, Return listed) /\
      (d, now) ∈ listed /\ eligible self cfg d now = true /\
      dialog_id d <> 0%Z /\
      Forall (within_bounds (_admin_id self) (dialog_id d)) effects.
Proof.
  split; [intros d now; apply eligible_spec|].
  assert (Hgen : forall self',
    _me_id self' = _me_id self -> _admin_id self' = _admin_id self ->
    _cooldown_until self' = _cooldown_until self ->
    forall calc' i effects,
      (_initiation_loop self' calc' cfg turns).2 !! i = Some effects ->
      effects <> [] ->
      exists w listed d now,
        turns !! i = Some (w, Return listed) /\
        (d, now) ∈ listed /\ eligible self cfg d now = true /\
        dialog_id d <> 0%Z /\
        Forall (within_bounds (_admin_id self) (dialog_id d)) effects).
  { induction turns as [|[w dialogs] turns IH];
      intros self' Hme Hadmin Hcool calc' i effects Hi Hne.
    { done. }
    cbn [_initiation_loop] in Hi.
    destruct (_is_running self'); [|done].
    destruct (initiation_round_targets self' calc' cfg w dialogs)
      as [(_ & Hme1 & Hadmin1 & Hcool1) Hround].
    destruct (initiation_round self' calc' cfg w dialogs)
      as [[self1 calc1] eff] eqn:Hr.
    cbn [fst snd] in *.
    specialize (IH self1 (eq_trans Hme1 Hme) (eq_trans Hadmin1 Hadmin)
                  (eq_trans Hcool1 Hcool) calc1).
    destruct (_initiation_loop self1 calc1 cfg turns) as [[self2 calc2] trace].
    cbn [snd] in *. destruct i as [|i]; cbn in Hi.
    - simplify_eq. destruct (Hround Hne) as (listed & d & now & -> & Hin & He
                                             & Hd & Hb).
      exists w, listed, d, now. split_and!; try done.
      + by rewrite <- (eligible_frame self self' cfg d now).
      + by rewrite <- Hadmin.
    - destruct (IH i effects Hi Hne) as (w' & listed & d & now & Ht & H').
      exists w', listed, d, now. by split. }
  intros i effects. by apply (Hgen self).
Qed.

(** *** The generation and its retries *)

(** X19.  [generate_response] makes at most three attempts and retries
    after an error of the provider's API only: what it returns is decided
    by the first attempt that ends otherwise, or is nothing when all
    three end in such an error.  A generated text is stripped, an empty
    one gives nothing, and the text returned never has an asterisk. *)
Theorem generate_response_spec answers :
  let outcome (a : attempt) :=
    match a with
    | Generated parts_text =>
        if truthy_str (strip parts_text)
        then Some (without_stars (strip parts_text)) else None
    | Blocked | Unusable | ApiError | Crashed => None
    end in
  generate_response answers
  = match answers 0%nat with
    | ApiError =>
        match answers 1%nat with
        | ApiError => outcome (answers 2%nat)
        | first_answer => outcome first_answer
        end
    | first_answer => outcome first_answer
    end /\
  (forall response_text,
     generate_response answers = Some response_text ->
     42%N ∉ response_text) /\
  (forall answers',
     (forall k, (k < 3)%nat -> answers' k = answers k) ->
     generate_response answers' = generate_response answers).
Proof.
  cbv zeta.
  assert (Heq : forall answers,
    generate_response answers
    = match answers 0%nat with
      | ApiError =>
          match answers 1%nat with
          | ApiError =>
              match answers 2%nat with
              | Generated parts_text =>
                  if truthy_str (strip parts_text)
                  then Some (without_stars (strip parts_text)) else None
              | _ => None
              end
          | Generated parts_text =>
              if truthy_str (strip parts_text)
              then Some (without_stars (strip parts_text)) else None
          | _ => None
          end
      | Generated parts_text =>
          if truthy_str (strip parts_text)
          then Some (without_stars (strip parts_text)) else None
      | _ => None
      end).
  { intros a. unfold generate_response, max_retries. cbn.
    destruct (a 0%nat); try done; destruct (a 1%nat); try done;
      by destruct (a 2%nat). }
  split_and!.
  - rewrite Heq.
    destruct (answers 0%nat); try done; destruct (answers 1%nat); try done;
      by destruct (answers 2%nat).
  - intros r. rewrite Heq.
    assert (Hstar : forall t, 42%N ∉ without_stars t).
    { intros t Hin. unfold without_stars in Hin.
      by apply list_elem_of_filter in Hin as [? _]. }
    repeat case_match; try done; intros [= <-]; apply Hstar.
  - intros answers' Hsame. rewrite !Heq.
    by rewrite !Hsame by lia.
Qed.

(** *** Saving what was sent *)

(** X20.  A delivered message ends up in the store.  When the text is
    not empty, the chat resolves and the transport delivers, the send
    routine reports success and hands over the record of the message
    (sender "You", the text sent, the id and the date the transport
    gave); and when the thread's file can be appended to and does not
    hold that id yet, the saving task stores this record as the last
    message of the thread and counts its text.  The saving task itself
    never raises, whatever the file holds. *)
Theorem sent_message_is_stored w cid body msg_id date d :
  truthy_str body = true -> resolves w = true ->
  delivery_outcome w = Delivered msg_id date ->
  starting_point cid (files w cid) = Some d ->
  appendable d = true ->
  ((0 < msg_id)%Z -> id_occurs (doc_messages d) msg_id = false) ->
  (exists message_data,
     _send_message_with_delay w cid body
     = (true, [SendMessage cid body (Delivered msg_id date);
               SavingSent cid message_data]) /\
     sender message_data = u "You" /\ text message_data = body /\
     message_id message_data = Some msg_id /\
     timestamp message_data = At date /\
     let saved := _save_sent_message_task cid (files w cid) message_data
                    Saved in
     saved.2 = Return tt /\
     stored_messages saved.1 = doc_messages d ++ [message_data] /\
     stored_counter saved.1 "text" = (doc_counter d "text" + 1)%Z) /\
  (forall fs message_data outcome,
     (_save_sent_message_task cid fs message_data outcome).2 = Return tt /\
     (_save_sent_message_task cid fs message_data outcome).1
     = (append_message_to_history cid fs (Some message_data) outcome).1).
Proof.
  intros Hbody Hres Hdel Hstart Hok Hnew. split.
  - unfold _send_message_with_delay. rewrite Hbody, Hres, Hdel. cbn [negb].
    eexists. split; [done|]. cbn [sender text message_id timestamp].
    do 4 (split; [done|]). cbv zeta.
    set (md := {| message_id := Some msg_id; sender := u "You" |}).
    destruct (append_writes cid (files w cid) d md Saved Hstart Hok)
      as (d' & Ha & _ & Hw).
    { unfold passes_duplicate_check. cbn [message_id md].
      destruct (Z.ltb_spec 0 msg_id); [|done]. by rewrite Hnew. }
    unfold _save_sent_message_task. rewrite Hw. cbn [fst snd write_file try_].
    apply append_in_memory_spec in Ha as (Hm & _ & Ht & _).
    unfold stored_messages, stored_counter. cbn [stored_document from_option].
    split_and!; try done. rewrite Ht. unfold has_text. cbn [text md].
    by rewrite Hbody.
  - intros fs md outcome. unfold _save_sent_message_task.
    destruct (append_message_to_history cid fs (Some md) outcome)
      as [fs' [[]|e]]; cbn [fst snd try_]; [done|].
    by rewrite isinstance_Exception.
Qed.

End InteractionMoreFacts.

(** *** More of the interaction engine on the sample data *)

Section InteractionMoreExamples.
Import Store Elo Interaction Lifecycle Samples.


(** Twelve hours after the last message of thread 7 the opener is
    generated while no chat resolves: nothing is sent, the instant is
    recorded, and the attempt made 23 hours later is skipped. *)
Lemma initiation_recorded_without_delivery_witness :
  let w := world_offline (120000000 + hours 12) (Generated (u "hey")) in
  let later := world_at (120000000 + hours 35) (Generated (u "hey")) in
  let first :=
    @_try_initiate_conversation small_runtime engine0 cfg w 7 instructions in
  sends_something first.2 = false /\
  _last_initiated_time first.1 !! 7%Z = Some (120000000 + hours 12)%Z /\
  @_try_initiate_conversation small_runtime first.1 cfg later 7 instructions
  = (first.1, []).
Proof.
  cbv zeta.
  destruct (@initiation_recorded_without_delivery small_runtime engine0 cfg
              (world_offline (120000000 + hours 12) (Generated (u "hey")))
              7 instructions) as (Hrec & Hnone & Hskip).
  { by vm_compute. }
  { by vm_compute. }
  split; [by apply Hnone|]. split; [exact Hrec|].
  apply Hskip. by vm_compute.
Defined.

(** The sample engine once stopped does not start without its id, and
    starts with it. *)
Lemma start_persona_needs_identity_witness :
  let stopped := Interaction.stop_persona engine0 in
  _is_running stopped = false /\
  start_persona stopped cfg
  = (set_running stopped true, set_persona_active cfg true).
Proof.
  cbv zeta. split; [done|].
  destruct (@start_persona_needs_identity small_runtime
              (Interaction.stop_persona engine0) cfg eq_refl)
    as (_ & Hid & _).
  by destruct (Hid 1%Z eq_refl) as [-> _].
Defined.

(** A reply delivered in thread 9, which has no file yet. *)
Lemma sent_message_is_stored_witness :
  let w := world_at 50 (Generated (u "hi")) in
  exists message_data,
    _send_message_with_delay w 9 (u "hello")
    = (true, [SendMessage 9 (u "hello") (Delivered 1000 50);
              SavingSent 9 message_data]) /\
    stored_messages
      (_save_sent_message_task 9 (files 9) message_data Saved).1
    = [message_data].
Proof.
  cbv zeta.
  destruct (@sent_message_is_stored (world_at 50 (Generated (u "hi"))) 9
              (u "hello") 1000 50 (default_structure 9)
              eq_refl eq_refl eq_refl eq_refl eq_refl (fun _ => eq_refl))
    as [(md & Hsend & _ & _ & _ & _ & _ & Hstored & _) _].
  exists md. split; [exact Hsend | exact Hstored].
Defined.

End InteractionMoreExamples.

(** ** The collector *)

Section CollectorFacts.
Import Store Collector.

Lemma stat_count_mark key key' (hit : bool) (stats : gmap string stat) :
  stat_count (if hit then <[key := Count 1]> stats else stats) key'
  = if decide (key = key')
    then (if hit then 1%Z else stat_count stats key')
    else stat_count stats key'.
Proof.
  unfold stat_count. destruct hit.
  - case_decide as Hk.
    + subst. by rewrite lookup_insert_eq.
    + by rewrite lookup_insert_ne.
  - by case_decide.
Qed.

Lemma stat_count_zero key : stat_count zero_stats key = 0%Z.
Proof.
  unfold stat_count. destruct (zero_stats !! key) as [v|] eqn:Hv; [|done].
  by apply zero_stats_value in Hv as ->.
Qed.

(** The stats of one message, key by key. *)
Lemma message_stats_counts message :
  let stats := message_stats message in
  stat_count stats "text" = (if truthy_str (tg_text message) then 1 else 0)%Z /\
  stat_count stats "photo" = (if tg_photo message then 1 else 0)%Z /\
  stat_count stats "video" = (if tg_video message then 1 else 0)%Z /\
  stat_count stats "voice" = (if tg_voice message then 1 else 0)%Z /\
  stat_count stats "other_media"
  = (if bool_decide (is_Some (tg_media message))
        && negb (tg_photo message || tg_video message || tg_voice message)
        && (truthy_str (tg_text message)
            || bool_decide (tg_media message = Some None))
     then 1 else 0)%Z.
Proof.
  cbv zeta. unfold message_stats.
  repeat split; rewrite !stat_count_mark, stat_count_zero;
    repeat (case_decide; try done).
Qed.

Lemma stat_count_mark_bound key key' (hit : bool) (stats : gmap string stat) :
  stat_count stats key' = 0%Z \/ stat_count stats key' = 1%Z ->
  let marked := if hit then <[key := Count 1]> stats else stats in
  stat_count marked key' = 0%Z \/ stat_count marked key' = 1%Z.
Proof.
  intros H. cbv zeta. rewrite stat_count_mark.
  case_decide; [|done]. destruct hit; [by right|done].
Qed.

Lemma message_stats_bound message key :
  stat_count (message_stats message) key = 0%Z \/
  stat_count (message_stats message) key = 1%Z.
Proof.
  unfold message_stats.
  do 5 apply stat_count_mark_bound. left. apply stat_count_zero.
Qed.

Lemma format_message_data_result message sender_type :
  _format_message_data message sender_type
  = (if truthy_str (tg_text message) || tg_photo message
        || bool_decide (is_Some (tg_forward message))
     then Some {| message_id := Some (tg_id message);
                  sender := sender_type;
                  timestamp := At (tg_date message);
                  text := tg_text message;
                  is_forward := bool_decide (is_Some (tg_forward message));
                  forward_source :=
                    forward_source_info <$> tg_forward message;
                  reply_to_message_id := tg_reply_to_msg_id message;
                  media_attached := bool_decide (is_Some (tg_media message));
                  photo_attached := tg_photo message |}
     else None,
     message_stats message).
Proof.
  unfold _format_message_data. cbv zeta.
  by destruct (truthy_str (tg_text message) || tg_photo message
               || bool_decide (is_Some (tg_forward message))).
Qed.

(** X21.  What the collector makes of a message.  The message is stored
    exactly when it has a text, a photo, or is a forward; the record then
    carries the id, the given sender, the text, the date and the photo
    flag of the message, and a forward source exactly when it is a
    forward.  The stats hold 0 or 1 under each key: 1 under "text",
    "photo", "video" and "voice" exactly for a message that has one, and
    1 under "other_media" only for media that is none of these.  So the
    text and photo counts of a stored message are those of its record,
    and a message that is not stored counts for neither. *)
Theorem format_message_data_spec message sender_type :
  let result := _format_message_data message sender_type in
  let stats := result.2 in
  (is_Some result.1 <->
   truthy_str (tg_text message) = true \/ tg_photo message = true \/
   is_Some (tg_forward message)) /\
  (forall md, result.1 = Some md ->
     message_id md = Some (tg_id message) /\ sender md = sender_type /\
     text md = tg_text message /\ timestamp md = At (tg_date message) /\
     (is_forward md = true <-> is_Some (forward_source md)) /\
     stat_count stats "text" = (if has_text md then 1 else 0)%Z /\
     stat_count stats "photo" = (if photo_attached md then 1 else 0)%Z) /\
  (result.1 = None ->
   stat_count stats "text" = 0%Z /\ stat_count stats "photo" = 0%Z) /\
  (forall key, stat_count stats key = 0%Z \/ stat_count stats key = 1%Z) /\
  stat_count stats "video" = (if tg_video message then 1 else 0)%Z /\
  stat_count stats "voice" = (if tg_voice message then 1 else 0)%Z /\
  (stat_count stats "other_media" = 1%Z ->
   is_Some (tg_media message) /\ tg_photo message = false /\
   tg_video message = false /\ tg_voice message = false).
Proof.
  cbv zeta. rewrite format_message_data_result. cbn [fst snd].
  destruct (message_stats_counts message) as (Ht & Hp & Hv & Hvo & Ho).
  cbv zeta in Ht, Hp, Hv, Hvo, Ho.
  split_and!.
  - destruct (truthy_str (tg_text message) || tg_photo message
              || bool_decide (is_Some (tg_forward message))) eqn:Hstore.
    + rewrite !orb_true_iff, bool_decide_eq_true in Hstore.
      split; [intros _; tauto | eauto].
    + apply orb_false_iff in Hstore as [Hstore Hf].
      apply orb_false_iff in Hstore as [Ht' Hp'].
      apply bool_decide_eq_false in Hf.
      split; [by intros [? ?]|]. intros [?|[?|?]]; congruence || done.
  - intros md Hmd.
    destruct (truthy_str (tg_text message) || tg_photo message
              || bool_decide (is_Some (tg_forward message))); [|done].
    injection Hmd as <-.
    cbn [message_id sender text timestamp is_forward forward_source
         photo_attached].
    unfold has_text. cbn [text]. split_and!; try done.
    rewrite bool_decide_eq_true, fmap_is_Some. done.
  - intros Hnone.
    destruct (truthy_str (tg_text message)); [done|].
    destruct (tg_photo message); [done|]. done.
  - apply message_stats_bound.
  - done.
  - done.
  - rewrite Ho. intros Hone.
    destruct (bool_decide (is_Some (tg_media message))) eqn:Hm;
      [|done].
    apply bool_decide_eq_true in Hm.
    destruct (tg_photo message), (tg_video message), (tg_voice message);
      done.
Qed.

(** X22.  A stored message is marked as the persona's own exactly when
    its sender is the persona: [_get_sender_info] answers "You" if and
    only if the message has the (non-zero) id of the persona as its
    sender id, and then returns that id; in a private chat every other
    message with a sender id is a "Contact". *)
Theorem sender_is_you_iff_own me_id message :
  ((_get_sender_info me_id message).1 = u "You" <->
   tg_sender_id message = Some me_id /\ me_id <> 0%Z) /\
  ((_get_sender_info me_id message).1 = u "You" ->
   (_get_sender_info me_id message).2 = Some me_id) /\
  (forall sender_id user_id,
     tg_sender_id message = Some sender_id -> sender_id <> 0%Z ->
     sender_id <> me_id -> tg_peer_id message = Some (PeerUser user_id) ->
     _get_sender_info me_id message = (u "Contact", Some sender_id)).
Proof.
  assert (Hother : forall (prefix : string) (z : Z),
    prefix = "Peer_"%string \/ prefix = "User_"%string \/
    prefix = "Channel_"%string \/ prefix = "Sender_"%string ->
    u prefix ++ str_of_int z <> u "You").
  { intros prefix z Hp H. apply (f_equal head) in H.
    destruct Hp as [-> | [-> | [-> | ->]]]; by vm_compute in H. }
  assert (Hno_id :
    match tg_sender message with
    | Some (ChatEntity entity_id) | Some (ChannelEntity entity_id) =>
        (u "Peer_" ++ str_of_int entity_id, Some entity_id)
    | Some (UserEntity _) | None => (u "Unknown", None)
    end.1 <> u "You").
  { destruct (tg_sender message) as [[?|?|?]|]; cbn [fst];
      first [by apply Hother; eauto | by vm_compute]. }
  unfold _get_sender_info.
  destruct (tg_sender_id message) as [sender_id|] eqn:Hsid.
  2: { split_and!.
       - split; [intros H; by apply Hno_id in H | by intros [? _]].
       - intros H. by apply Hno_id in H.
       - by intros sid uid ?. }
  destruct (Z.eqb_spec sender_id 0) as [->|Hne].
  { split_and!.
    - split; [intros H; by apply Hno_id in H|]. intros [Hs Hz].
      by injection Hs as <-.
    - intros H. by apply Hno_id in H.
    - intros sid uid Hs Hz. by injection Hs as <-. }
  destruct (Z.eqb_spec sender_id me_id) as [->|Hme].
  { split_and!; try done. intros sid uid Hs _ Hd. by injection Hs as <-. }
  assert (Hnot :
    (match tg_peer_id message with
     | Some (PeerUser _) => (u "Contact", Some sender_id)
     | Some (PeerChat _) | Some (PeerChannel _) =>
         match tg_sender message with
         | Some (UserEntity _) =>
             (u "User_" ++ str_of_int sender_id, Some sender_id)
         | Some (ChannelEntity _) =>
             (u "Channel_" ++ str_of_int sender_id, Some sender_id)
         | Some (ChatEntity _) | None =>
             (u "Peer_" ++ str_of_int sender_id, Some sender_id)
         end
     | None => (u "Sender_" ++ str_of_int sender_id, Some sender_id)
     end).1 <> u "You").
  { destruct (tg_peer_id message) as [[?|?|?]|];
      try destruct (tg_sender message) as [[?|?|?]|]; cbn [fst];
      first [ by apply Hother; eauto 10 | by vm_compute ]. }
  split_and!.
  - split; [intros H; by apply Hnot in H|]. intros [Hs _].
    by injection Hs as ->.
  - intros H. by apply Hnot in H.
  - intros sid uid Hs _ _ ->. by injection Hs as <-.
Qed.

End CollectorFacts.
